(** * Task Bus: a status-bar front end for tasks and launch configurations

    A shallow embedding of [src/dist/extension.js].  The extension keeps a
    handful of module-level variables (two caches, two selections with their
    keys, four status-bar items and the workspace memento) and reacts to
    commands and watcher events by calling the host editor.  The variables
    become one record, the host becomes an oracle indexed by the number of
    awaited calls made so far, and every call that reaches the host is
    written to a trace. *)

From Stdlib Require Import ZArith SpecFloat.
From stdpp Require Import base option list strings pretty gmap.

Open Scope string_scope.
Open Scope list_scope.
Set Warnings "-register-all".

(** ** Values read from settings and task definitions *)

(** A JSON-like value, as [configuration.get] and [task.definition] hand
    them out.  An object is the sequence of its own enumerable properties in
    enumeration order; numbers are IEEE doubles. *)
Inductive Json : Type :=
  | JNull
  | JBool (b : bool)
  | JNum (n : spec_float)
  | JStr (s : string)
  | JArr (items : list Json)
  | JObj (fields : list (string * Json)).

(** Property access [v.k] for the properties the extension reads ([name],
    [type] and [request]): [None] stands for [undefined], which is what a
    missing property of an object and any such property of a string, a
    number, a boolean or an array give; on [null] the source uses [?.] and
    gets [undefined] as well. *)
Fixpoint lookup_field (k : string) (fields : list (string * Json)) : option Json :=
  match fields with
  | [] => None
  | (k', v) :: rest => if String.eqb k' k then Some v else lookup_field k rest
  end.

Definition prop (k : string) (v : Json) : option Json :=
  match v with
  | JObj fields => lookup_field k fields
  | _ => None
  end.

(** [v ?? d] on a value that may be [undefined] or [null]. *)
Definition coalesce (v : option Json) (d : Json) : Json :=
  match v with
  | None | Some JNull => d
  | Some x => x
  end.

(** [typeof v === 'string'], returning the string. *)
Definition as_string (v : option Json) : option string :=
  match v with
  | Some (JStr s) => Some s
  | _ => None
  end.

(** The line feed that the source writes as a backslash followed by n. *)
Definition newline : string := String (Ascii.ascii_of_nat 10) "".

(** JavaScript truthiness of a string that may be [undefined]. *)
Definition truthy (k : option string) : bool :=
  match k with
  | Some s => negb (String.eqb s "")
  | None => false
  end.

(** ** The host's data types (vscode.d.ts) *)

Record Uri : Type := { fsPath : string; Uri_toString : string }.

Record WorkspaceFolder : Type :=
  { wf_uri : Uri; wf_name : option string; wf_index : nat }.

(** [enum TaskScope { Global = 1, Workspace = 2 }] *)
Inductive TaskScope : Type := Global | Workspace.

Definition TaskScope_value (k : TaskScope) : Z :=
  match k with Global => 1 | Workspace => 2 end.

(** [Task.scope]: a [TaskScope] number or a workspace folder. *)
Inductive Scope : Type :=
  | ScopeKind (k : TaskScope)
  | ScopeFolder (f : WorkspaceFolder).

Record Task : Type :=
  { task_name : string;
    task_source : option string;
    task_scope : option Scope;
    task_definition : option Json;
    task_detail : option string;
    task_isBackground : bool;
    task_group : option string;
    task_problemMatchers : list string }.

(** [interface LaunchSelection] *)
Record LaunchSelection : Type :=
  { folder : option WorkspaceFolder; configuration : Json }.

Record TaskPickItem : Type :=
  { tp_label : string;
    tp_description : option string;
    tp_detail : option string;
    tp_task : Task }.

Record LaunchPickItem : Type :=
  { lp_label : Json;
    lp_description : option Json;
    lp_detail : option string;
    lp_launch : LaunchSelection }.

Inductive Alignment : Type := Left | Right.

Record StatusBarItem : Type :=
  { alignment : Alignment;
    priority : nat;
    text : string;
    tooltip : option string;
    command : option string;
    visible : bool }.

Definition createStatusBarItem (a : Alignment) (p : nat) : StatusBarItem :=
  {| alignment := a; priority := p; text := ""; tooltip := None;
     command := None; visible := false |}.

Definition set_text (s : string) (i : StatusBarItem) : StatusBarItem :=
  {| alignment := alignment i; priority := priority i; text := s;
     tooltip := tooltip i; command := command i; visible := visible i |}.

Definition set_tooltip (s : string) (i : StatusBarItem) : StatusBarItem :=
  {| alignment := alignment i; priority := priority i; text := text i;
     tooltip := Some s; command := command i; visible := visible i |}.

Definition set_command (s : string) (i : StatusBarItem) : StatusBarItem :=
  {| alignment := alignment i; priority := priority i; text := text i;
     tooltip := tooltip i; command := Some s; visible := visible i |}.

Definition set_visible (b : bool) (i : StatusBarItem) : StatusBarItem :=
  {| alignment := alignment i; priority := priority i; text := text i;
     tooltip := tooltip i; command := command i; visible := b |}.

(** ** Scope tests and keys *)

(** [!task.scope]: [undefined] is falsy, a number is falsy when it is 0, an
    object never is. *)
Definition scope_falsy (s : option Scope) : bool :=
  match s with
  | None => true
  | Some (ScopeKind k) => (TaskScope_value k =? 0)%Z
  | Some (ScopeFolder _) => false
  end.

Definition isWorkspaceTask (task : Task) : bool :=
  if scope_falsy (task_scope task) then false
  else match task_scope task with
       | Some (ScopeKind k) =>
           negb (TaskScope_value k =? TaskScope_value Global)%Z
       | _ => true
       end.

Definition getScopeId (task : Task) : string :=
  if scope_falsy (task_scope task) then "unknown"
  else match task_scope task with
       | Some (ScopeKind k) =>
           if (TaskScope_value k =? TaskScope_value Global)%Z
           then "global" else "workspace"
       | Some (ScopeFolder f) => default "workspaceFolder" (wf_name f)
       | None => "unknown"
       end.

Definition getTaskDescription (task : Task) : option string :=
  match task_scope task with
  | Some (ScopeKind k) =>
      if (TaskScope_value k =? TaskScope_value Workspace)%Z
      then Some "Workspace" else task_source task
  | Some (ScopeFolder f) =>
      match wf_name f with Some n => Some n | None => task_source task end
  | None => task_source task
  end.

Definition getWorkspaceFolder (task : Task) : option WorkspaceFolder :=
  if scope_falsy (task_scope task) then None
  else match task_scope task with
       | Some (ScopeFolder f) => Some f
       | _ => None
       end.

Definition getTaskDetail (task : Task) : option string :=
  match getWorkspaceFolder task with
  | Some f => Some (fsPath (wf_uri f))
  | None => None
  end.

(** ** The extension's variables and its view of the host *)

(** What a promise settles to. *)
Inductive Outcome (A : Type) : Type :=
  | Resolved (a : A)
  | Rejected.
Arguments Resolved {A} a.
Arguments Rejected {A}.

(** Calls that reach the host, in the order they are made. *)
Inductive Event : Type :=
  | EFetchTasks
  | EShowQuickPickTasks (picks : list TaskPickItem)
  | EShowQuickPickLaunches (picks : list LaunchPickItem)
  | EExecuteTask (task : Task)
  | EStartDebugging (f : option WorkspaceFolder) (c : Json)
  | EStateUpdate (key : string) (value : option string)
  | EShowInformationMessage (msg : string)
  | EShowErrorMessage (msg : string)
  | EConsoleError (msg : string)
  | EUpdateTaskStatusBar
  | EUpdateLaunchStatusBar.

(** The host's behaviour.  An awaited call made when [n] awaited calls have
    already completed settles to the answer at [n]; a synchronous read sees
    the host's settings as they are at that instant. *)
Record Host : Type :=
  { host_fetchTasks : nat → Outcome (list Task);
    host_executeTask : nat → Task → Outcome unit;
    host_pickTask : nat → list TaskPickItem → option TaskPickItem;
    host_pickLaunch : nat → list LaunchPickItem → option LaunchPickItem;
    host_startDebugging :
      nat → option WorkspaceFolder → Json → Outcome bool;
    host_workspaceFolders : nat → option (list WorkspaceFolder);
    host_launchConfigurations : nat → option Uri → option (list Json);
    host_setting : nat → string → string → option bool }.

(** The module-level variables of the extension, the number of awaited host
    calls completed so far, and the calls made (most recent first). *)
Record World : Type :=
  { taskSelectorItem : StatusBarItem;
    taskRunnerItem : StatusBarItem;
    launchSelectorItem : StatusBarItem;
    launchRunnerItem : StatusBarItem;
    cachedTasks : list Task;
    cachedLaunches : list LaunchSelection;
    selectedTask : option Task;
    selectedTaskKey : option string;
    selectedLaunch : option LaunchSelection;
    selectedLaunchKey : option string;
    state : gmap string string;
    clock : nat;
    trace : list Event }.

Definition set_taskSelectorItem (v : StatusBarItem) (w : World) : World :=
  {| taskSelectorItem := v;
     taskRunnerItem := taskRunnerItem w;
     launchSelectorItem := launchSelectorItem w;
     launchRunnerItem := launchRunnerItem w;
     cachedTasks := cachedTasks w;
     cachedLaunches := cachedLaunches w;
     selectedTask := selectedTask w;
     selectedTaskKey := selectedTaskKey w;
     selectedLaunch := selectedLaunch w;
     selectedLaunchKey := selectedLaunchKey w;
     state := state w;
     clock := clock w;
     trace := trace w |}.

Definition set_taskRunnerItem (v : StatusBarItem) (w : World) : World :=
  {| taskSelectorItem := taskSelectorItem w;
     taskRunnerItem := v;
     launchSelectorItem := launchSelectorItem w;
     launchRunnerItem := launchRunnerItem w;
     cachedTasks := cachedTasks w;
     cachedLaunches := cachedLaunches w;
     selectedTask := selectedTask w;
     selectedTaskKey := selectedTaskKey w;
     selectedLaunch := selectedLaunch w;
     selectedLaunchKey := selectedLaunchKey w;
     state := state w;
     clock := clock w;
     trace := trace w |}.

Definition set_launchSelectorItem (v : StatusBarItem) (w : World) : World :=
  {| taskSelectorItem := taskSelectorItem w;
     taskRunnerItem := taskRunnerItem w;
     launchSelectorItem := v;
     launchRunnerItem := launchRunnerItem w;
     cachedTasks := cachedTasks w;
     cachedLaunches := cachedLaunches w;
     selectedTask := selectedTask w;
     selectedTaskKey := selectedTaskKey w;
     selectedLaunch := selectedLaunch w;
     selectedLaunchKey := selectedLaunchKey w;
     state := state w;
     clock := clock w;
     trace := trace w |}.

Definition set_launchRunnerItem (v : StatusBarItem) (w : World) : World :=
  {| taskSelectorItem := taskSelectorItem w;
     taskRunnerItem := taskRunnerItem w;
     launchSelectorItem := launchSelectorItem w;
     launchRunnerItem := v;
     cachedTasks := cachedTasks w;
     cachedLaunches := cachedLaunches w;
     selectedTask := selectedTask w;
     selectedTaskKey := selectedTaskKey w;
     selectedLaunch := selectedLaunch w;
     selectedLaunchKey := selectedLaunchKey w;
     state := state w;
     clock := clock w;
     trace := trace w |}.

Definition set_cachedTasks (v : list Task) (w : World) : World :=
  {| taskSelectorItem := taskSelectorItem w;
     taskRunnerItem := taskRunnerItem w;
     launchSelectorItem := launchSelectorItem w;
     launchRunnerItem := launchRunnerItem w;
     cachedTasks := v;
     cachedLaunches := cachedLaunches w;
     selectedTask := selectedTask w;
     selectedTaskKey := selectedTaskKey w;
     selectedLaunch := selectedLaunch w;
     selectedLaunchKey := selectedLaunchKey w;
     state := state w;
     clock := clock w;
     trace := trace w |}.

Definition set_cachedLaunches (v : list LaunchSelection) (w : World) : World :=
  {| taskSelectorItem := taskSelectorItem w;
     taskRunnerItem := taskRunnerItem w;
     launchSelectorItem := launchSelectorItem w;
     launchRunnerItem := launchRunnerItem w;
     cachedTasks := cachedTasks w;
     cachedLaunches := v;
     selectedTask := selectedTask w;
     selectedTaskKey := selectedTaskKey w;
     selectedLaunch := selectedLaunch w;
     selectedLaunchKey := selectedLaunchKey w;
     state := state w;
     clock := clock w;
     trace := trace w |}.

Definition set_selectedTask (v : option Task) (w : World) : World :=
  {| taskSelectorItem := taskSelectorItem w;
     taskRunnerItem := taskRunnerItem w;
     launchSelectorItem := launchSelectorItem w;
     launchRunnerItem := launchRunnerItem w;
     cachedTasks := cachedTasks w;
     cachedLaunches := cachedLaunches w;
     selectedTask := v;
     selectedTaskKey := selectedTaskKey w;
     selectedLaunch := selectedLaunch w;
     selectedLaunchKey := selectedLaunchKey w;
     state := state w;
     clock := clock w;
     trace := trace w |}.

Definition set_selectedTaskKey (v : option string) (w : World) : World :=
  {| taskSelectorItem := taskSelectorItem w;
     taskRunnerItem := taskRunnerItem w;
     launchSelectorItem := launchSelectorItem w;
     launchRunnerItem := launchRunnerItem w;
     cachedTasks := cachedTasks w;
     cachedLaunches := cachedLaunches w;
     selectedTask := selectedTask w;
     selectedTaskKey := v;
     selectedLaunch := selectedLaunch w;
     selectedLaunchKey := selectedLaunchKey w;
     state := state w;
     clock := clock w;
     trace := trace w |}.

Definition set_selectedLaunch (v : option LaunchSelection) (w : World) : World :=
  {| taskSelectorItem := taskSelectorItem w;
     taskRunnerItem := taskRunnerItem w;
     launchSelectorItem := launchSelectorItem w;
     launchRunnerItem := launchRunnerItem w;
     cachedTasks := cachedTasks w;
     cachedLaunches := cachedLaunches w;
     selectedTask := selectedTask w;
     selectedTaskKey := selectedTaskKey w;
     selectedLaunch := v;
     selectedLaunchKey := selectedLaunchKey w;
     state := state w;
     clock := clock w;
     trace := trace w |}.

Definition set_selectedLaunchKey (v : option string) (w : World) : World :=
  {| taskSelectorItem := taskSelectorItem w;
     taskRunnerItem := taskRunnerItem w;
     launchSelectorItem := launchSelectorItem w;
     launchRunnerItem := launchRunnerItem w;
     cachedTasks := cachedTasks w;
     cachedLaunches := cachedLaunches w;
     selectedTask := selectedTask w;
     selectedTaskKey := selectedTaskKey w;
     selectedLaunch := selectedLaunch w;
     selectedLaunchKey := v;
     state := state w;
     clock := clock w;
     trace := trace w |}.

Definition set_state (v : gmap string string) (w : World) : World :=
  {| taskSelectorItem := taskSelectorItem w;
     taskRunnerItem := taskRunnerItem w;
     launchSelectorItem := launchSelectorItem w;
     launchRunnerItem := launchRunnerItem w;
     cachedTasks := cachedTasks w;
     cachedLaunches := cachedLaunches w;
     selectedTask := selectedTask w;
     selectedTaskKey := selectedTaskKey w;
     selectedLaunch := selectedLaunch w;
     selectedLaunchKey := selectedLaunchKey w;
     state := v;
     clock := clock w;
     trace := trace w |}.

Definition set_clock (v : nat) (w : World) : World :=
  {| taskSelectorItem := taskSelectorItem w;
     taskRunnerItem := taskRunnerItem w;
     launchSelectorItem := launchSelectorItem w;
     launchRunnerItem := launchRunnerItem w;
     cachedTasks := cachedTasks w;
     cachedLaunches := cachedLaunches w;
     selectedTask := selectedTask w;
     selectedTaskKey := selectedTaskKey w;
     selectedLaunch := selectedLaunch w;
     selectedLaunchKey := selectedLaunchKey w;
     state := state w;
     clock := v;
     trace := trace w |}.

Definition set_trace (v : list Event) (w : World) : World :=
  {| taskSelectorItem := taskSelectorItem w;
     taskRunnerItem := taskRunnerItem w;
     launchSelectorItem := launchSelectorItem w;
     launchRunnerItem := launchRunnerItem w;
     cachedTasks := cachedTasks w;
     cachedLaunches := cachedLaunches w;
     selectedTask := selectedTask w;
     selectedTaskKey := selectedTaskKey w;
     selectedLaunch := selectedLaunch w;
     selectedLaunchKey := selectedLaunchKey w;
     state := state w;
     clock := clock w;
     trace := v |}.

(** [context.workspaceState] is the part of the extension context used. *)
Record ExtensionContext : Type := { workspaceState : gmap string string }.

(** What the host can deliver to the subscriptions made in [activate]. *)
Inductive Notification : Type :=
  | TasksJsonChanged
  | TasksJsonCreated
  | TasksJsonDeleted
  | WorkspaceFoldersChanged
  | LaunchJsonChanged
  | LaunchJsonCreated
  | LaunchJsonDeleted
  | ConfigurationChanged (affectsConfiguration : string → bool)
  | CommandInvoked (id : string).

(** ** Reading a trace *)

(** The tasks handed to the host's [executeTask], most recent first. *)
Definition executions (tr : list Event) : list Task :=
  flat_map (λ e, match e with EExecuteTask t => [t] | _ => [] end) tr.

(** The arguments of the calls to [startDebugging], most recent first. *)
Definition debug_starts (tr : list Event)
    : list (option WorkspaceFolder * Json) :=
  flat_map (λ e, match e with EStartDebugging f c => [(f, c)] | _ => [] end)
           tr.

(** How many times [fetchTasks] was called. *)
Definition fetches (tr : list Event) : nat :=
  length (List.filter (λ e, match e with EFetchTasks => true | _ => false end)
                      tr).

(** How many times a picker was opened. *)
Definition prompts (tr : list Event) : nat :=
  length (List.filter (λ e, match e with
                            | EShowQuickPickTasks _
                            | EShowQuickPickLaunches _ => true
                            | _ => false
                            end) tr).

(** A world with its history set aside. *)
Definition forget (w : World) : World := set_clock 0 (set_trace [] w).

(** No colon (character 58) in [s]. *)
Fixpoint colon_free (s : string) : bool :=
  match s with
  | EmptyString => true
  | String c rest => negb (Ascii.eqb c (Ascii.ascii_of_nat 58)) && colon_free rest
  end.

(** The count of prompts after a picker was to be opened on [candidates]:
    one more, unless there was nothing to pick from. *)
Definition opened {A : Type} (candidates : list A) (before : nat) : nat :=
  match candidates with
  | [] => before
  | _ :: _ => S before
  end.

(** [undefined] or [null]. *)
Definition nullish (v : option Json) : Prop := v = None ∨ v = Some JNull.

(** ** Notions used in the statements *)

(** A scope that is defined and is not [TaskScope.Global]. *)
Definition workspace_scoped (task : Task) : Prop :=
  ∃ s, task_scope task = Some s ∧ s ≠ ScopeKind Global.

(** An entry whose [name] field is a string. *)
Definition has_string_name (c : Json) : bool :=
  match prop "name" c with
  | Some (JStr _) => true
  | _ => false
  end.

(** A selection, its key and the persisted key agree. *)
Definition consistent {T : Type} (key_of : T → string)
    (selected : option T) (key stored : option string) : Prop :=
  (is_Some selected ↔ is_Some key)
  ∧ (∀ t, selected = Some t → key = Some (key_of t))
  ∧ stored = key.

(** [x] is the first element of [l] that satisfies [p]. *)
Definition first_match {T : Type} (p : T → bool) (l : list T) (x : T) : Prop :=
  ∃ before after,
    l = before ++ x :: after ∧ p x = true ∧ Forall (λ y, p y = false) before.

(** The key that a revalidation against [cache] leaves of a stored one: the
    stored key when some cached item has it, none otherwise. *)
Definition kept_key {T : Type} (key_of : T → string)
    (stored : option string) (cache : list T) : option string :=
  match stored with
  | Some k =>
      match List.find (λ x, String.eqb (key_of x) k) cache with
      | Some _ => Some k
      | None => None
      end
  | None => None
  end.

(** ** A runtime and a workspace to run the extension on *)

Definition dquote : string := String (Ascii.ascii_of_nat 34) "".
Definition backslash : string := String (Ascii.ascii_of_nat 92) "".

(** [Number::toString] for the examples: exact on integers below 1e21, which
    is all the examples contain. *)
Definition example_Number_toString (n : spec_float) : string :=
  match n with
  | S754_zero _ => "0"
  | S754_infinity false => "Infinity"
  | S754_infinity true => "-Infinity"
  | S754_nan => "NaN"
  | S754_finite s m e =>
      if (0 <=? e)%Z
      then (if s then "-" else "") +:+ pretty (Z.pos m * 2 ^ e)%Z
      else "NaN"
  end.

Definition hex_digit (n : nat) : string :=
  String (Ascii.ascii_of_nat (if n <? 10 then 48 + n else 87 + n)%nat) "".

(** [QuoteJSONString] on one character. *)
Definition quote_char (c : Ascii.ascii) : string :=
  let n := Ascii.nat_of_ascii c in
  if (n =? 34)%nat then backslash +:+ dquote
  else if (n =? 92)%nat then backslash +:+ backslash
  else if (n =? 8)%nat then backslash +:+ "b"
  else if (n =? 9)%nat then backslash +:+ "t"
  else if (n =? 10)%nat then backslash +:+ "n"
  else if (n =? 12)%nat then backslash +:+ "f"
  else if (n =? 13)%nat then backslash +:+ "r"
  else if (n <? 32)%nat
       then backslash +:+ "u00" +:+ hex_digit (n / 16) +:+ hex_digit (n mod 16)
       else String c "".

Fixpoint quote_chars (s : string) : string :=
  match s with
  | EmptyString => ""
  | String c rest => quote_char c +:+ quote_chars rest
  end.

Definition quote (s : string) : string := dquote +:+ quote_chars s +:+ dquote.

(** [JSON.stringify] without replacer or indentation. *)
Fixpoint example_JSON_stringify (v : Json) : string :=
  match v with
  | JNull => "null"
  | JBool true => "true"
  | JBool false => "false"
  | JNum (S754_infinity _) | JNum S754_nan => "null"
  | JNum n => example_Number_toString n
  | JStr s => quote s
  | JArr items =>
      "[" +:+
      (fix elements (l : list Json) : string :=
         match l with
         | [] => ""
         | x :: rest =>
             match rest with
             | [] => example_JSON_stringify x
             | _ => example_JSON_stringify x +:+ "," +:+ elements rest
             end
         end) items +:+ "]"
  | JObj fields =>
      "{" +:+
      (fix members (l : list (string * Json)) : string :=
         match l with
         | [] => ""
         | (k, x) :: rest =>
             let member := quote k +:+ ":" +:+ example_JSON_stringify x in
             match rest with
             | [] => member
             | _ => member +:+ "," +:+ members rest
             end
         end) fields +:+ "}"
  end.

Definition app_folder : WorkspaceFolder :=
  {| wf_uri := {| fsPath := "/work/app"; Uri_toString := "file:///work/app" |};
     wf_name := Some "app";
     wf_index := 0 |}.

Definition lib_folder : WorkspaceFolder :=
  {| wf_uri := {| fsPath := "/work/lib"; Uri_toString := "file:///work/lib" |};
     wf_name := Some "lib";
     wf_index := 1 |}.

Definition mkTask (name : string) (scope : option Scope) : Task :=
  {| task_name := name;
     task_source := Some "Workspace";
     task_scope := scope;
     task_definition := Some (JObj [("type", JStr "shell")]);
     task_detail := None;
     task_isBackground := false;
     task_group := None;
     task_problemMatchers := [] |}.

Definition build_task : Task := mkTask "build" (Some (ScopeFolder app_folder)).
Definition lint_task : Task := mkTask "lint" (Some (ScopeKind Workspace)).
Definition user_task : Task := mkTask "backup" (Some (ScopeKind Global)).
Definition stray_task : Task := mkTask "probe" None.

(** [build_task] again, as a background task in the build group. *)
Definition build_task_bg : Task :=
  {| task_name := "build";
     task_source := Some "Workspace";
     task_scope := Some (ScopeFolder app_folder);
     task_definition := Some (JObj [("type", JStr "shell")]);
     task_detail := Some "compile everything";
     task_isBackground := true;
     task_group := Some "build";
     task_problemMatchers := ["$tsc"] |}.

Definition launch_entry (name type request : string) : Json :=
  JObj [("name", JStr name); ("type", JStr type); ("request", JStr request)].

Definition run_app : Json := launch_entry "Run app" "node" "launch".
Definition attach_app : Json := launch_entry "Attach" "node" "attach".
Definition nameless : Json := JObj [("type", JStr "node")].
Definition numbered : Json :=
  JObj [("name", JNum (S754_finite false 7 0)); ("type", JStr "node")].

Definition fetched_tasks : list Task :=
  [user_task; build_task; stray_task; lint_task].

(** A host with one folder that answers every call the same way: it resolves
    [fetchTasks] with [fetched], and settles the pickers and the two run
    calls as given. *)
Definition mkHost (fetched : Outcome (list Task))
    (pickTask : list TaskPickItem → option TaskPickItem)
    (pickLaunch : list LaunchPickItem → option LaunchPickItem)
    (ran : Outcome unit) (started : Outcome bool) : Host :=
  {| host_fetchTasks := λ _, fetched;
     host_executeTask := λ _ _, ran;
     host_pickTask := λ _, pickTask;
     host_pickLaunch := λ _, pickLaunch;
     host_startDebugging := λ _ _ _, started;
     host_workspaceFolders := λ _, Some [app_folder; lib_folder];
     host_launchConfigurations := λ _ scope,
       match scope with
       | Some u =>
           if String.eqb (Uri_toString u) "file:///work/app"
           then Some [run_app; nameless; JNull]
           else None
       | None => Some [numbered; attach_app]
       end;
     host_setting := λ _ _ _, None |}.

(** The user picks the last entry offered. *)
Definition obliging_host : Host :=
  mkHost (Resolved fetched_tasks) (λ picks, last picks) (λ picks, last picks)
         (Resolved tt) (Resolved true).

(** The user dismisses every picker. *)
Definition dismissing_host : Host :=
  mkHost (Resolved fetched_tasks) (λ _, None) (λ _, None)
         (Resolved tt) (Resolved true).

(** Running a task or starting the debugger fails. *)
Definition refusing_host : Host :=
  mkHost (Resolved fetched_tasks) (λ picks, last picks) (λ picks, last picks)
         Rejected Rejected.

(** Task enumeration fails. *)
Definition silent_host : Host :=
  mkHost Rejected (λ picks, last picks) (λ picks, last picks)
         (Resolved tt) (Resolved true).

(** tasks.json and every launch configuration have been removed: only the
    user-level task is left to enumerate. *)
Definition emptied_host : Host :=
  {| host_fetchTasks := λ _, Resolved [user_task];
     host_executeTask := λ _ _, Resolved tt;
     host_pickTask := λ _ _, None;
     host_pickLaunch := λ _ _, None;
     host_startDebugging := λ _ _ _, Resolved true;
     host_workspaceFolders := λ _, Some [app_folder; lib_folder];
     host_launchConfigurations := λ _ _, None;
     host_setting := λ _ _ _, None |}.

(** The variables once [activate] has created the items and loaded the
    keys, before its first refresh. *)
Definition loaded (context : ExtensionContext) : World :=
  {| taskSelectorItem :=
       set_tooltip "Select task defined in tasks.json"
         (set_command "task-bus.selectTask" (createStatusBarItem Left 100));
     taskRunnerItem :=
       set_command "task-bus.executeTask" (createStatusBarItem Left 99);
     launchSelectorItem :=
       set_tooltip "Select launch configuration defined in launch.json"
         (set_command "task-bus.selectLaunch" (createStatusBarItem Left 98));
     launchRunnerItem :=
       set_command "task-bus.executeLaunch" (createStatusBarItem Left 97);
     cachedTasks := [];
     cachedLaunches := [];
     selectedTask := None;
     selectedTaskKey := workspaceState context !! "task-bus:selectedTaskKey";
     selectedLaunch := None;
     selectedLaunchKey :=
       workspaceState context !! "task-bus:selectedLaunchKey";
     state := workspaceState context;
     clock := 0;
     trace := [] |}.

(** Keys as they are persisted, written out. *)
Definition shell_definition_text : string :=
  "{" +:+ dquote +:+ "type" +:+ dquote +:+ ":"
      +:+ dquote +:+ "shell" +:+ dquote +:+ "}".
Definition build_key : string :=
  "app::Workspace::build::" +:+ shell_definition_text.
Definition lint_key : string :=
  "workspace::Workspace::lint::" +:+ shell_definition_text.
Definition run_app_key : string := "file:///work/app::Run app::node::launch".
Definition attach_key : string := "workspace::Attach::node::attach".

Definition run_app_launch : LaunchSelection :=
  {| folder := Some app_folder; configuration := run_app |}.
Definition attach_launch : LaunchSelection :=
  {| folder := None; configuration := attach_app |}.

(** [run_app_launch] with the folder renamed and the entry extended. *)
Definition run_app_launch_extended : LaunchSelection :=
  {| folder :=
       Some {| wf_uri := {| fsPath := "C:/work/app";
                            Uri_toString := "file:///work/app" |};
               wf_name := Some "application";
               wf_index := 3 |};
     configuration :=
       JObj [("name", JStr "Run app"); ("program", JStr "main.js");
             ("type", JStr "node"); ("request", JStr "launch");
             ("stopOnEntry", JBool true)] |}.

(** A first activation, one after "lint" was selected, and one after a task
    that has since disappeared was selected. *)
Definition fresh_context : ExtensionContext := {| workspaceState := ∅ |}.
Definition lint_context : ExtensionContext :=
  {| workspaceState := {[ "task-bus:selectedTaskKey" := lint_key ]} |}.
Definition stale_context : ExtensionContext :=
  {| workspaceState :=
       {[ "task-bus:selectedTaskKey" := "workspace::Workspace::deploy::{}" ]}
       ∪ {[ "task-bus:selectedLaunchKey" := "workspace::Deploy::node::launch" ]}
  |}.

(** A session in which "lint" and "Attach" are selected: a first activation
    followed by the two picks, with the trace set aside. *)
Definition busy_world : World :=
  {| taskSelectorItem :=
       {| alignment := Left; priority := 100;
          text := "$(list-selection) lint";
          tooltip := Some ("Selected task: lint" +:+ newline
                             +:+ "Click to choose a different task");
          command := Some "task-bus.selectTask";
          visible := true |};
     taskRunnerItem :=
       {| alignment := Left; priority := 99;
          text := "$(tools)";
          tooltip := Some "Run lint";
          command := Some "task-bus.executeTask";
          visible := true |};
     launchSelectorItem :=
       {| alignment := Left; priority := 98;
          text := "$(debug-alt) Attach";
          tooltip := Some ("Selected launch configuration: Attach" +:+ newline
                             +:+ "Click to choose a different configuration");
          command := Some "task-bus.selectLaunch";
          visible := true |};
     launchRunnerItem :=
       {| alignment := Left; priority := 97;
          text := "$(rocket)";
          tooltip := Some "Start Attach";
          command := Some "task-bus.executeLaunch";
          visible := true |};
     cachedTasks := [build_task; lint_task];
     cachedLaunches := [run_app_launch; attach_launch];
     selectedTask := Some lint_task;
     selectedTaskKey := Some lint_key;
     selectedLaunch := Some attach_launch;
     selectedLaunchKey := Some attach_key;
     state :=
       <["task-bus:selectedLaunchKey" := attach_key]>
         (<["task-bus:selectedTaskKey" := lint_key]> ∅);
     clock := 6;
     trace := [] |}.

(** ** Keys, which need the runtime's built-ins *)

Section Runtime.

(** The two built-ins whose output the extension only concatenates:
    [Number::toString] and [JSON.stringify]. *)
Variable Number_toString : spec_float → string.
Variable JSON_stringify : Json → string.

(** [ToBoolean]. *)
Definition ToBoolean (v : Json) : bool :=
  match v with
  | JNull => false
  | JBool b => b
  | JNum (S754_zero _) | JNum S754_nan => false
  | JNum _ => true
  | JStr s => negb (String.eqb s "")
  | JArr _ | JObj _ => true
  end.

(** [ToString], which a template literal applies to each substitution; an
    array is joined with commas, its [null] elements printing as nothing. *)
Fixpoint ToString (v : Json) : string :=
  match v with
  | JNull => "null"
  | JBool true => "true"
  | JBool false => "false"
  | JNum n => Number_toString n
  | JStr s => s
  | JArr items =>
      (fix join (l : list Json) : string :=
         match l with
         | [] => ""
         | x :: rest =>
             let sx := match x with JNull => "" | _ => ToString x end in
             match rest with
             | [] => sx
             | _ => sx +:+ "," +:+ join rest
             end
         end) items
  | JObj _ => "[object Object]"
  end.

Definition getTaskKey (task : Task) : string :=
  let scopeId := getScopeId task in
  let definition := JSON_stringify (default (JObj []) (task_definition task)) in
  scopeId +:+ "::" +:+ default "" (task_source task) +:+ "::"
    +:+ task_name task +:+ "::" +:+ definition.

Definition getLaunchKey (launch : LaunchSelection) : string :=
  let folderUri :=
    match folder launch with
    | Some f => Uri_toString (wf_uri f)
    | None => "workspace"
    end in
  let name := prop "name" (configuration launch) in
  let type := prop "type" (configuration launch) in
  let request := prop "request" (configuration launch) in
  folderUri +:+ "::" +:+ ToString (coalesce name (JStr "")) +:+ "::"
    +:+ ToString (coalesce type (JStr "")) +:+ "::"
    +:+ ToString (coalesce request (JStr "")).

(** [a ?? b] where both sides may be [undefined]. *)
Definition nullish_or (a b : option Json) : option Json :=
  match a with
  | None | Some JNull => b
  | Some _ => a
  end.

Definition getLaunchDescription (launch : LaunchSelection) : option Json :=
  let type := prop "type" (configuration launch) in
  let request := prop "request" (configuration launch) in
  match type, request with
  | Some t, Some r =>
      if ToBoolean t && ToBoolean r
      then Some (JStr (ToString t +:+ " (" +:+ ToString r +:+ ")"))
      else nullish_or type request
  | _, _ => nullish_or type request
  end.

(** ** Running against the host *)

Variable host : Host.

(** A computation reads and writes the variables and may return a value. *)
Definition M (A : Type) : Type := World → A * World.

Definition ret {A : Type} (a : A) : M A := λ w, (a, w).

Definition bind {A B : Type} (m : M A) (k : A → M B) : M B :=
  λ w, let (a, w') := m w in k a w'.

Notation "'let*' x := m 'in' k" := (bind m (λ x, k))
  (at level 10, x name, m at level 100, k at level 200).
Notation "m >> k" := (bind m (λ _, k))
  (at level 90, right associativity).

Definition exec {A : Type} (m : M A) (w : World) : World := snd (m w).

Definition gets {A : Type} (f : World → A) : M A := λ w, (f w, w).
Definition modify (f : World → World) : M unit := λ w, (tt, f w).

(** A call that is made but not awaited. *)
Definition emit (e : Event) : M unit :=
  modify (λ w, set_trace (e :: trace w) w).

(** An awaited call: the host answers, and one more call has completed. *)
Definition await {A : Type} (e : Event) (answer : nat → A) : M A :=
  λ w, (answer (clock w),
        set_clock (S (clock w)) (set_trace (e :: trace w) w)).

(** A synchronous read of the host's settings. *)
Definition read {A : Type} (answer : nat → A) : M A :=
  λ w, (answer (clock w), w).

Definition console_error (msg : string) : M unit := emit (EConsoleError msg).
Definition showInformationMessage (msg : string) : M unit :=
  emit (EShowInformationMessage msg).
Definition showErrorMessage (msg : string) : M unit :=
  emit (EShowErrorMessage msg).

(** [await state.update(key, value)]; storing [undefined] removes the key. *)
Definition state_update (key : string) (value : option string) : M unit :=
  modify (λ w, set_state (match value with
                          | Some v => <[key := v]> (state w)
                          | None => delete key (state w)
                          end) w) >>
  await (EStateUpdate key value) (λ _, tt).

Definition state_get (key : string) : M (option string) :=
  gets (λ w, state w !! key).

(** ** Tasks *)

(** The writes to the two items; the trace records that they were made. *)
Definition updateTaskStatusBar : M unit :=
  emit EUpdateTaskStatusBar >>
  let* selected := gets selectedTask in
  match selected with
  | Some task =>
      modify (λ w, set_taskSelectorItem
        (set_tooltip ("Selected task: " +:+ task_name task +:+ newline
                        +:+ "Click to choose a different task")
           (set_text ("$(list-selection) " +:+ task_name task)
              (taskSelectorItem w))) w) >>
      modify (λ w, set_taskRunnerItem
        (set_command "task-bus.executeTask"
           (set_text "$(tools)"
              (set_tooltip ("Run " +:+ task_name task)
                 (taskRunnerItem w)))) w)
  | None =>
      modify (λ w, set_taskSelectorItem
        (set_tooltip "No task selected. Click to choose one."
           (set_text "$(list-selection) Select Task"
              (taskSelectorItem w))) w) >>
      modify (λ w, set_taskRunnerItem
        (set_text "$(tools)"
           (set_tooltip "Select a task to run." (taskRunnerItem w))) w)
  end.

Definition refreshTasks : M unit :=
  (let* fetched := await EFetchTasks (host_fetchTasks host) in
   match fetched with
   | Resolved allTasks =>
       modify (set_cachedTasks (List.filter isWorkspaceTask allTasks))
   | Rejected =>
       modify (set_cachedTasks []) >>
       console_error "[Task Bus] Failed to fetch tasks"
   end) >>
  (let* key := gets selectedTaskKey in
   if truthy key then
     let* cached := gets cachedTasks in
     let matchingTask :=
       List.find (λ task, String.eqb (getTaskKey task) (default "" key))
                 cached in
     modify (set_selectedTask matchingTask) >>
     match matchingTask with
     | Some _ => ret tt
     | None =>
         modify (set_selectedTaskKey None) >>
         state_update "task-bus:selectedTaskKey" None
     end
   else ret tt) >>
  updateTaskStatusBar.

Definition taskPick (task : Task) : TaskPickItem :=
  {| tp_label := task_name task;
     tp_description := getTaskDescription task;
     tp_detail := getTaskDetail task;
     tp_task := task |}.

Definition selectTask : M unit :=
  refreshTasks >>
  let* cached := gets cachedTasks in
  if (length cached =? 0)%nat then
    showInformationMessage "Task Bus did not find any tasks in tasks.json."
  else
    let picks := List.map taskPick cached in
    let* selection :=
      await (EShowQuickPickTasks picks) (λ n, host_pickTask host n picks) in
    match selection with
    | None => ret tt
    | Some item =>
        modify (set_selectedTask (Some (tp_task item))) >>
        modify (set_selectedTaskKey (Some (getTaskKey (tp_task item)))) >>
        (let* key := gets selectedTaskKey in
         state_update "task-bus:selectedTaskKey" key) >>
        updateTaskStatusBar
    end.

Definition executeTask : M unit :=
  refreshTasks >>
  (let* selected := gets selectedTask in
   match selected with
   | None => selectTask
   | Some _ => ret tt
   end) >>
  let* selected := gets selectedTask in
  match selected with
  | None => ret tt
  | Some task =>
      let key := getTaskKey task in
      let* cached := gets cachedTasks in
      let freshTask :=
        default task
          (List.find (λ t, String.eqb (getTaskKey t) key) cached) in
      let* outcome :=
        await (EExecuteTask freshTask)
              (λ n, host_executeTask host n freshTask) in
      match outcome with
      | Resolved _ => ret tt
      | Rejected =>
          console_error "[Task Bus] Failed to execute task" >>
          showErrorMessage
            "Task Bus could not run the selected task. Please re-select it." >>
          modify (set_selectedTask None) >>
          modify (set_selectedTaskKey None) >>
          state_update "task-bus:selectedTaskKey" None >>
          updateTaskStatusBar
      end
  end.

(** ** Launch configurations *)

(** A substitution in a template literal; [undefined] prints as such. *)
Definition template (v : option Json) : string :=
  match v with
  | Some x => ToString x
  | None => "undefined"
  end.

Definition updateLaunchStatusBar : M unit :=
  emit EUpdateLaunchStatusBar >>
  let* selected := gets selectedLaunch in
  match selected with
  | Some launch =>
      let configName := template (prop "name" (configuration launch)) in
      modify (λ w, set_launchSelectorItem
        (set_tooltip ("Selected launch configuration: " +:+ configName
                        +:+ newline
                        +:+ "Click to choose a different configuration")
           (set_text ("$(debug-alt) " +:+ configName)
              (launchSelectorItem w))) w) >>
      modify (λ w, set_launchRunnerItem
        (set_command "task-bus.executeLaunch"
           (set_text "$(rocket)"
              (set_tooltip ("Start " +:+ configName)
                 (launchRunnerItem w)))) w)
  | None =>
      modify (λ w, set_launchSelectorItem
        (set_tooltip "No launch configuration selected. Click to choose one."
           (set_text "$(debug-alt) Select Launch"
              (launchSelectorItem w))) w) >>
      modify (λ w, set_launchRunnerItem
        (set_text "$(rocket)"
           (set_tooltip "Select a launch configuration to run."
              (launchRunnerItem w))) w)
  end.

(** The body of both [for] loops: push the entry when its name is a string. *)
Definition push_launch (f : option WorkspaceFolder)
    (launches : list LaunchSelection) (c : Json) : list LaunchSelection :=
  match as_string (prop "name" c) with
  | Some _ => launches ++ [{| folder := f; configuration := c |}]
  | None => launches
  end.

(** The list [launches] as the two loops leave it, at host instant [n]. *)
Definition collectLaunches (n : nat) : list LaunchSelection :=
  let launches := [] in
  let folders := default [] (host_workspaceFolders host n) in
  let launches :=
    fold_left
      (λ launches folder,
         let configurations :=
           default []
             (host_launchConfigurations host n (Some (wf_uri folder))) in
         fold_left (push_launch (Some folder)) configurations launches)
      folders launches in
  let workspaceConfigurations :=
    default [] (host_launchConfigurations host n None) in
  fold_left (push_launch None) workspaceConfigurations launches.

Definition refreshLaunchConfigurations : M unit :=
  (let* launches := read collectLaunches in
   modify (set_cachedLaunches launches)) >>
  (let* key := gets selectedLaunchKey in
   if truthy key then
     let* cached := gets cachedLaunches in
     let matching :=
       List.find (λ launch, String.eqb (getLaunchKey launch) (default "" key))
                 cached in
     modify (set_selectedLaunch matching) >>
     match matching with
     | Some _ => ret tt
     | None =>
         modify (set_selectedLaunchKey None) >>
         state_update "task-bus:selectedLaunchKey" None
     end
   else ret tt) >>
  updateLaunchStatusBar.

Definition launchPick (launch : LaunchSelection) : LaunchPickItem :=
  {| lp_label :=
       coalesce (prop "name" (configuration launch)) (JStr "Unnamed launch");
     lp_description := getLaunchDescription launch;
     lp_detail :=
       match folder launch with
       | Some f => Some (fsPath (wf_uri f))
       | None => None
       end;
     lp_launch := launch |}.

Definition selectLaunch : M unit :=
  refreshLaunchConfigurations >>
  let* cached := gets cachedLaunches in
  if (length cached =? 0)%nat then
    showInformationMessage
      "Task Bus did not find any launch configurations in launch.json."
  else
    let picks := List.map launchPick cached in
    let* selection :=
      await (EShowQuickPickLaunches picks)
            (λ n, host_pickLaunch host n picks) in
    match selection with
    | None => ret tt
    | Some item =>
        modify (set_selectedLaunch (Some (lp_launch item))) >>
        modify (set_selectedLaunchKey (Some (getLaunchKey (lp_launch item)))) >>
        (let* key := gets selectedLaunchKey in
         state_update "task-bus:selectedLaunchKey" key) >>
        updateLaunchStatusBar
    end.

Definition executeLaunch : M unit :=
  refreshLaunchConfigurations >>
  (let* selected := gets selectedLaunch in
   match selected with
   | None => selectLaunch
   | Some _ => ret tt
   end) >>
  let* selected := gets selectedLaunch in
  match selected with
  | None => ret tt
  | Some launch =>
      let key := getLaunchKey launch in
      let* cached := gets cachedLaunches in
      let freshLaunch :=
        default launch
          (List.find (λ l, String.eqb (getLaunchKey l) key) cached) in
      let* outcome :=
        await (EStartDebugging (folder freshLaunch)
                               (configuration freshLaunch))
              (λ n, host_startDebugging host n (folder freshLaunch)
                      (configuration freshLaunch)) in
      match outcome with
      | Resolved _ => ret tt
      | Rejected =>
          console_error "[Task Bus] Failed to start launch configuration" >>
          showErrorMessage
            "Task Bus could not run the selected launch configuration. Please re-select it." >>
          modify (set_selectedLaunch None) >>
          modify (set_selectedLaunchKey None) >>
          state_update "task-bus:selectedLaunchKey" None >>
          updateLaunchStatusBar
      end
  end.

(** ** Visibility, activation and the registered handlers *)

Definition applyVisibilitySettings : M unit :=
  let* showTaskBus :=
    read (λ n, default true (host_setting host n "task-bus" "showTaskBus")) in
  let* showLaunchBus :=
    read (λ n, default true (host_setting host n "task-bus" "showLaunchBus")) in
  modify (λ w, set_taskRunnerItem (set_visible showTaskBus (taskRunnerItem w))
                 (set_taskSelectorItem
                    (set_visible showTaskBus (taskSelectorItem w)) w)) >>
  modify (λ w, set_launchRunnerItem
                 (set_visible showLaunchBus (launchRunnerItem w))
                 (set_launchSelectorItem
                    (set_visible showLaunchBus (launchSelectorItem w)) w)).

(** The variables as the module initialises them.  The four items are
    unassigned until [activate] creates them; nothing reads them before. *)
Definition initial : World :=
  {| taskSelectorItem := createStatusBarItem Left 0;
     taskRunnerItem := createStatusBarItem Left 0;
     launchSelectorItem := createStatusBarItem Left 0;
     launchRunnerItem := createStatusBarItem Left 0;
     cachedTasks := [];
     cachedLaunches := [];
     selectedTask := None;
     selectedTaskKey := None;
     selectedLaunch := None;
     selectedLaunchKey := None;
     state := ∅;
     clock := 0;
     trace := [] |}.

Definition activate (context : ExtensionContext) : M unit :=
  modify (set_state (workspaceState context)) >>
  modify (set_taskSelectorItem
    (set_tooltip "Select task defined in tasks.json"
       (set_command "task-bus.selectTask" (createStatusBarItem Left 100)))) >>
  modify (set_taskRunnerItem
    (set_command "task-bus.executeTask" (createStatusBarItem Left 99))) >>
  modify (set_launchSelectorItem
    (set_tooltip "Select launch configuration defined in launch.json"
       (set_command "task-bus.selectLaunch" (createStatusBarItem Left 98)))) >>
  modify (set_launchRunnerItem
    (set_command "task-bus.executeLaunch" (createStatusBarItem Left 97))) >>
  (let* key := state_get "task-bus:selectedTaskKey" in
   modify (set_selectedTaskKey key)) >>
  (let* key := state_get "task-bus:selectedLaunchKey" in
   modify (set_selectedLaunchKey key)) >>
  refreshTasks >>
  refreshLaunchConfigurations >>
  applyVisibilitySettings.

(** The handler [activate] registers for each of them. *)
Definition handle (ev : Notification) : M unit :=
  match ev with
  | TasksJsonChanged | TasksJsonCreated | TasksJsonDeleted => refreshTasks
  | WorkspaceFoldersChanged => refreshTasks
  | LaunchJsonChanged | LaunchJsonCreated | LaunchJsonDeleted =>
      refreshLaunchConfigurations
  | ConfigurationChanged affectsConfiguration =>
      if affectsConfiguration "task-bus.showTaskBus"
         || affectsConfiguration "task-bus.showLaunchBus"
      then applyVisibilitySettings
      else ret tt
  | CommandInvoked id =>
      if String.eqb id "task-bus.selectTask" then selectTask
      else if String.eqb id "task-bus.executeTask" then executeTask
      else if String.eqb id "task-bus.selectLaunch" then selectLaunch
      else if String.eqb id "task-bus.executeLaunch" then executeLaunch
      else ret tt
  end.


(** ** What is proved about *)

(** The cache as the specification describes it, at host instant [n]. *)
Definition launches_of (n : nat) : list LaunchSelection :=
  flat_map
    (λ folder,
       List.map (λ c, {| folder := Some folder; configuration := c |})
         (List.filter has_string_name
            (default []
               (host_launchConfigurations host n (Some (wf_uri folder))))))
    (default [] (host_workspaceFolders host n))
  ++ List.map (λ c, {| folder := None; configuration := c |})
       (List.filter has_string_name
          (default [] (host_launchConfigurations host n None))).

(** Both selections agree with their keys and with the workspace state. *)
Definition Inv (w : World) : Prop :=
  consistent getTaskKey (selectedTask w) (selectedTaskKey w)
             (state w !! "task-bus:selectedTaskKey")
  ∧ consistent getLaunchKey (selectedLaunch w) (selectedLaunchKey w)
               (state w !! "task-bus:selectedLaunchKey").

(** Neither persisted key is the empty string. *)
Definition store_ok (m : gmap string string) : Prop :=
  m !! "task-bus:selectedTaskKey" ≠ Some ""
  ∧ m !! "task-bus:selectedLaunchKey" ≠ Some "".

(** The in-memory key mirrors the persisted one, and a key that the
    revalidation would skip goes with no selection. *)
Definition task_key_mirrored (w : World) : Prop :=
  state w !! "task-bus:selectedTaskKey" = selectedTaskKey w
  ∧ (truthy (selectedTaskKey w) = false →
     selectedTask w = None ∧ selectedTaskKey w = None).

Definition launch_key_mirrored (w : World) : Prop :=
  state w !! "task-bus:selectedLaunchKey" = selectedLaunchKey w
  ∧ (truthy (selectedLaunchKey w) = false →
     selectedLaunch w = None ∧ selectedLaunchKey w = None).

(** The selector shows the selection's name, or the placeholder. *)
Definition task_shown (w : World) : Prop :=
  text (taskSelectorItem w)
  = match selectedTask w with
    | Some task => "$(list-selection) " +:+ task_name task
    | None => "$(list-selection) Select Task"
    end.

Definition launch_shown (w : World) : Prop :=
  text (launchSelectorItem w)
  = match selectedLaunch w with
    | Some launch =>
        "$(debug-alt) " +:+ template (prop "name" (configuration launch))
    | None => "$(debug-alt) Select Launch"
    end.

(** The cache a refresh at this instant produces. *)
Definition tasks_of (n : nat) : list Task :=
  match host_fetchTasks host n with
  | Resolved allTasks => List.filter isWorkspaceTask allTasks
  | Rejected => []
  end.

(** A computation that re-enumerates the tasks, or the launches. *)
Definition refreshes_tasks (m : M unit) : Prop :=
  ∀ w, cachedTasks (exec m w) = tasks_of (clock w)
       ∧ fetches (trace (exec m w)) = S (fetches (trace w)).

Definition refreshes_launches (m : M unit) : Prop :=
  ∀ w, cachedLaunches (exec m w) = collectLaunches (clock w).

(** The opening of [executeTask] and of [executeLaunch]: refresh, then ask
    for a selection when there is none. *)
Definition ensureTaskSelected : M unit :=
  refreshTasks >>
  let* selected := gets selectedTask in
  match selected with
  | None => selectTask
  | Some _ => ret tt
  end.

Definition ensureLaunchSelected : M unit :=
  refreshLaunchConfigurations >>
  let* selected := gets selectedLaunch in
  match selected with
  | None => selectLaunch
  | Some _ => ret tt
  end.

(** What [executeTask] hands to the host when [task] is selected. *)
Definition freshTask_of (w : World) (task : Task) : Task :=
  default task
    (List.find (λ t, String.eqb (getTaskKey t) (getTaskKey task))
               (cachedTasks w)).

Definition freshLaunch_of (w : World) (launch : LaunchSelection)
    : LaunchSelection :=
  default launch
    (List.find (λ l, String.eqb (getLaunchKey l) (getLaunchKey launch))
               (cachedLaunches w)).

(** [selectTask] after its refresh, and [executeTask] after its opening;
    likewise for launches. *)
Definition pickTask : M unit :=
  let* cached := gets cachedTasks in
  if (length cached =? 0)%nat then
    showInformationMessage "Task Bus did not find any tasks in tasks.json."
  else
    let picks := List.map taskPick cached in
    let* selection :=
      await (EShowQuickPickTasks picks) (λ n, host_pickTask host n picks) in
    match selection with
    | None => ret tt
    | Some item =>
        modify (set_selectedTask (Some (tp_task item))) >>
        modify (set_selectedTaskKey (Some (getTaskKey (tp_task item)))) >>
        (let* key := gets selectedTaskKey in
         state_update "task-bus:selectedTaskKey" key) >>
        updateTaskStatusBar
    end.

Definition runSelectedTask : M unit :=
  let* selected := gets selectedTask in
  match selected with
  | None => ret tt
  | Some task =>
      let key := getTaskKey task in
      let* cached := gets cachedTasks in
      let freshTask :=
        default task
          (List.find (λ t, String.eqb (getTaskKey t) key) cached) in
      let* outcome :=
        await (EExecuteTask freshTask)
              (λ n, host_executeTask host n freshTask) in
      match outcome with
      | Resolved _ => ret tt
      | Rejected =>
          console_error "[Task Bus] Failed to execute task" >>
          showErrorMessage
            "Task Bus could not run the selected task. Please re-select it." >>
          modify (set_selectedTask None) >>
          modify (set_selectedTaskKey None) >>
          state_update "task-bus:selectedTaskKey" None >>
          updateTaskStatusBar
      end
  end.

Definition pickLaunch : M unit :=
  let* cached := gets cachedLaunches in
  if (length cached =? 0)%nat then
    showInformationMessage
      "Task Bus did not find any launch configurations in launch.json."
  else
    let picks := List.map launchPick cached in
    let* selection :=
      await (EShowQuickPickLaunches picks)
            (λ n, host_pickLaunch host n picks) in
    match selection with
    | None => ret tt
    | Some item =>
        modify (set_selectedLaunch (Some (lp_launch item))) >>
        modify (set_selectedLaunchKey (Some (getLaunchKey (lp_launch item)))) >>
        (let* key := gets selectedLaunchKey in
         state_update "task-bus:selectedLaunchKey" key) >>
        updateLaunchStatusBar
    end.

Definition runSelectedLaunch : M unit :=
  let* selected := gets selectedLaunch in
  match selected with
  | None => ret tt
  | Some launch =>
      let key := getLaunchKey launch in
      let* cached := gets cachedLaunches in
      let freshLaunch :=
        default launch
          (List.find (λ l, String.eqb (getLaunchKey l) key) cached) in
      let* outcome :=
        await (EStartDebugging (folder freshLaunch)
                               (configuration freshLaunch))
              (λ n, host_startDebugging host n (folder freshLaunch)
                      (configuration freshLaunch)) in
      match outcome with
      | Resolved _ => ret tt
      | Rejected =>
          console_error "[Task Bus] Failed to start launch configuration" >>
          showErrorMessage
            "Task Bus could not run the selected launch configuration. Please re-select it." >>
          modify (set_selectedLaunch None) >>
          modify (set_selectedLaunchKey None) >>
          state_update "task-bus:selectedLaunchKey" None >>
          updateLaunchStatusBar
      end
  end.

(** The events of the two error paths, most recent first. *)
Definition task_failure_events (freshTask : Task) : list Event :=
  [ EUpdateTaskStatusBar;
    EStateUpdate "task-bus:selectedTaskKey" None;
    EShowErrorMessage
      "Task Bus could not run the selected task. Please re-select it.";
    EConsoleError "[Task Bus] Failed to execute task";
    EExecuteTask freshTask ].

Definition launch_failure_events (freshLaunch : LaunchSelection)
    : list Event :=
  [ EUpdateLaunchStatusBar;
    EStateUpdate "task-bus:selectedLaunchKey" None;
    EShowErrorMessage
      "Task Bus could not run the selected launch configuration. Please re-select it.";
    EConsoleError "[Task Bus] Failed to start launch configuration";
    EStartDebugging (folder freshLaunch) (configuration freshLaunch) ].

(** The selections, their keys and the workspace state are the same. *)
Definition same_selection (w w' : World) : Prop :=
  selectedTask w' = selectedTask w
  ∧ selectedTaskKey w' = selectedTaskKey w
  ∧ selectedLaunch w' = selectedLaunch w
  ∧ selectedLaunchKey w' = selectedLaunchKey w
  ∧ state w' = state w.

(** Nothing was run or started in between. *)
Definition same_runs (w w' : World) : Prop :=
  executions (trace w') = executions (trace w)
  ∧ debug_starts (trace w') = debug_starts (trace w).

(** Everything that belongs to the launch side, and to the task side. *)
Definition same_launch_side (w w' : World) : Prop :=
  cachedLaunches w' = cachedLaunches w
  ∧ selectedLaunch w' = selectedLaunch w
  ∧ selectedLaunchKey w' = selectedLaunchKey w
  ∧ state w' !! "task-bus:selectedLaunchKey"
    = state w !! "task-bus:selectedLaunchKey"
  ∧ launchSelectorItem w' = launchSelectorItem w
  ∧ launchRunnerItem w' = launchRunnerItem w
  ∧ debug_starts (trace w') = debug_starts (trace w).

Definition same_task_side (w w' : World) : Prop :=
  cachedTasks w' = cachedTasks w
  ∧ selectedTask w' = selectedTask w
  ∧ selectedTaskKey w' = selectedTaskKey w
  ∧ state w' !! "task-bus:selectedTaskKey"
    = state w !! "task-bus:selectedTaskKey"
  ∧ taskSelectorItem w' = taskSelectorItem w
  ∧ taskRunnerItem w' = taskRunnerItem w
  ∧ executions (trace w') = executions (trace w)
  ∧ fetches (trace w') = fetches (trace w).

(** The two task items, and the two launch items, as the selection has them
    written: texts, tooltips and the runner's command. *)
Definition task_bar_rendered (w : World) : Prop :=
  match selectedTask w with
  | Some task =>
      text (taskSelectorItem w) = "$(list-selection) " +:+ task_name task
      ∧ tooltip (taskSelectorItem w)
        = Some ("Selected task: " +:+ task_name task +:+ newline
                  +:+ "Click to choose a different task")
      ∧ tooltip (taskRunnerItem w) = Some ("Run " +:+ task_name task)
      ∧ text (taskRunnerItem w) = "$(tools)"
      ∧ command (taskRunnerItem w) = Some "task-bus.executeTask"
  | None =>
      text (taskSelectorItem w) = "$(list-selection) Select Task"
      ∧ tooltip (taskSelectorItem w)
        = Some "No task selected. Click to choose one."
      ∧ tooltip (taskRunnerItem w) = Some "Select a task to run."
      ∧ text (taskRunnerItem w) = "$(tools)"
  end.

Definition launch_bar_rendered (w : World) : Prop :=
  match selectedLaunch w with
  | Some launch =>
      let configName := template (prop "name" (configuration launch)) in
      text (launchSelectorItem w) = "$(debug-alt) " +:+ configName
      ∧ tooltip (launchSelectorItem w)
        = Some ("Selected launch configuration: " +:+ configName +:+ newline
                  +:+ "Click to choose a different configuration")
      ∧ tooltip (launchRunnerItem w) = Some ("Start " +:+ configName)
      ∧ text (launchRunnerItem w) = "$(rocket)"
      ∧ command (launchRunnerItem w) = Some "task-bus.executeLaunch"
  | None =>
      text (launchSelectorItem w) = "$(debug-alt) Select Launch"
      ∧ tooltip (launchSelectorItem w)
        = Some "No launch configuration selected. Click to choose one."
      ∧ tooltip (launchRunnerItem w)
        = Some "Select a launch configuration to run."
      ∧ text (launchRunnerItem w) = "$(rocket)"
  end.

(** The pickers answer with one of the items they were given. *)
Definition honest_pickers : Prop :=
  (∀ n picks item, host_pickTask host n picks = Some item → item ∈ picks)
  ∧ (∀ n picks item, host_pickLaunch host n picks = Some item → item ∈ picks).

(** Whatever is selected is in its cache. *)
Definition selection_cached (w : World) : Prop :=
  (∀ task, selectedTask w = Some task → task ∈ cachedTasks w)
  ∧ (∀ launch, selectedLaunch w = Some launch → launch ∈ cachedLaunches w).

(** The four items as [activate] lays them out: each bound to its command,
    on the left in the order selector, runner, selector, runner, and a
    runner shown exactly when its selector is. *)
Definition bar_layout (w : World) : Prop :=
  (command (taskSelectorItem w) = Some "task-bus.selectTask"
   ∧ command (taskRunnerItem w) = Some "task-bus.executeTask"
   ∧ command (launchSelectorItem w) = Some "task-bus.selectLaunch"
   ∧ command (launchRunnerItem w) = Some "task-bus.executeLaunch")
  ∧ (alignment (taskSelectorItem w) = Left
     ∧ alignment (taskRunnerItem w) = Left
     ∧ alignment (launchSelectorItem w) = Left
     ∧ alignment (launchRunnerItem w) = Left)
  ∧ (priority (taskSelectorItem w) = 100
     ∧ priority (taskRunnerItem w) = 99
     ∧ priority (launchSelectorItem w) = 98
     ∧ priority (launchRunnerItem w) = 97)
  ∧ (visible (taskRunnerItem w) = visible (taskSelectorItem w)
     ∧ visible (launchRunnerItem w) = visible (launchSelectorItem w)).

(** Everything on the task side is workspace-scoped: what is cached, what is
    selected and what was handed to the host's [executeTask]; and everything
    on the launch side has a string name: what is cached, what is selected
    and what was handed to [startDebugging]. *)
Definition task_in_scope (w : World) : Prop :=
  Forall (λ task, isWorkspaceTask task = true) (cachedTasks w)
  ∧ (∀ task, selectedTask w = Some task → isWorkspaceTask task = true)
  ∧ Forall (λ task, isWorkspaceTask task = true) (executions (trace w)).

Definition launch_in_scope (w : World) : Prop :=
  Forall (λ launch, has_string_name (configuration launch) = true)
         (cachedLaunches w)
  ∧ (∀ launch,
       selectedLaunch w = Some launch →
       has_string_name (configuration launch) = true)
  ∧ Forall (λ start, has_string_name (snd start) = true)
           (debug_starts (trace w)).

Definition in_scope (w : World) : Prop :=
  task_in_scope w ∧ launch_in_scope w.

(** ** Properties *)

(** *** Running a computation step by step *)

Lemma exec_bind {A B : Type} (m : M A) (k : A → M B) (w : World) :
  exec (bind m k) w = exec (k (fst (m w))) (exec m w).
Proof. unfold exec, bind. destruct (m w); reflexivity. Qed.

Lemma exec_seq {A B : Type} (m : M A) (k : M B) (w : World) :
  exec (m >> k) w = exec k (exec m w).
Proof. apply exec_bind. Qed.

Arguments refreshTasks : simpl never.
Arguments selectTask : simpl never.
Arguments executeTask : simpl never.
Arguments refreshLaunchConfigurations : simpl never.
Arguments selectLaunch : simpl never.
Arguments executeLaunch : simpl never.
Arguments applyVisibilitySettings : simpl never.

(** Runs the primitive steps on a world given field by field. *)
Ltac run :=
  cbv [
    exec bind gets modify emit await read ret state_update state_get
    console_error showInformationMessage showErrorMessage
    updateTaskStatusBar updateLaunchStatusBar fst snd taskSelectorItem
    taskRunnerItem launchSelectorItem launchRunnerItem cachedTasks
    cachedLaunches selectedTask selectedTaskKey selectedLaunch
    selectedLaunchKey state clock trace set_taskSelectorItem
    set_taskRunnerItem set_launchSelectorItem set_launchRunnerItem
    set_cachedTasks set_cachedLaunches set_selectedTask
    set_selectedTaskKey set_selectedLaunch set_selectedLaunchKey set_state
    set_clock set_trace ]; cbn [from_option id].

(** Runs, splitting on whatever the next step depends on. *)
Ltac split_run :=
  repeat (run;
    match goal with
    | |- context [match host_fetchTasks ?h ?n with _ => _ end] =>
        destruct (host_fetchTasks h n) eqn:?
    | |- context [match host_executeTask ?h ?n ?t with _ => _ end] =>
        destruct (host_executeTask h n t) eqn:?
    | |- context [match host_startDebugging ?h ?n ?f ?c with _ => _ end] =>
        destruct (host_startDebugging h n f c) eqn:?
    | |- context [match host_pickTask ?h ?n ?l with _ => _ end] =>
        destruct (host_pickTask h n l) eqn:?
    | |- context [match host_pickLaunch ?h ?n ?l with _ => _ end] =>
        destruct (host_pickLaunch h n l) eqn:?
    | |- context [if truthy ?k then _ else _] => destruct (truthy k) eqn:?
    | |- context [match List.find ?p ?l with _ => _ end] =>
        destruct (List.find p l) eqn:?
    | |- context [if (length ?l =? 0)%nat then _ else _] =>
        destruct l eqn:?; cbn [length Nat.eqb]
    | |- context [match ?x with Some _ => _ | None => _ end] =>
        is_var x; destruct x
    end);
  run.

(** Turns what a successful search says into facts about the key. *)
Ltac use_find :=
  repeat match goal with
         | H : false = false → _ |- _ => destruct (H eq_refl) as [? ?]; clear H
         | H : List.find _ _ = Some _ |- _ =>
             apply find_some in H; destruct H as [_ H];
             apply String.eqb_eq in H
         end.

(** *** Lists *)

Lemma find_first_match {T : Type} (p : T → bool) (l : list T) (x : T) :
  List.find p l = Some x ↔ first_match p l x.
Proof.
  unfold first_match. induction l as [|y l IH]; simpl.
  - split; [discriminate|]. intros (b & a & E & _). by destruct b.
  - destruct (p y) eqn:Hy.
    + split.
      * intros [= ->]. exists [], l. by repeat split.
      * intros (b & a & E & Hx & Hb). destruct b as [|z b]; simpl in E.
        -- by inversion E.
        -- inversion E; subst. inversion Hb; subst. congruence.
    + rewrite IH. split.
      * intros (b & a & -> & Hx & Hb). exists (y :: b), a.
        repeat split; auto.
      * intros (b & a & E & Hx & Hb). destruct b as [|z b]; simpl in E.
        -- inversion E; subst. congruence.
        -- inversion E; subst. inversion Hb; subst. by exists b, a.
Qed.

Lemma find_none_iff {T : Type} (p : T → bool) (l : list T) :
  List.find p l = None ↔ Forall (λ y, p y = false) l.
Proof.
  induction l as [|y l IH]; simpl.
  - split; auto.
  - destruct (p y) eqn:Hy.
    + split; [discriminate|]. intros H. inversion H; congruence.
    + rewrite IH. split; [by constructor|]. intros H. by inversion H.
Qed.

(** *** Keys *)

Lemma append_nonempty (a b : string) : b ≠ "" → a +:+ b ≠ "".
Proof. destruct a; simpl; [auto | discriminate]. Qed.

Lemma getTaskKey_nonempty (task : Task) : getTaskKey task ≠ "".
Proof. unfold getTaskKey. apply append_nonempty. discriminate. Qed.

Lemma getLaunchKey_nonempty (launch : LaunchSelection) :
  getLaunchKey launch ≠ "".
Proof. unfold getLaunchKey. apply append_nonempty. discriminate. Qed.

Lemma truthy_Some (k : string) : k ≠ "" → truthy (Some k) = true.
Proof.
  intros H. simpl. destruct (String.eqb_spec k ""); [contradiction | done].
Qed.

Lemma falsy_no_key (key : option string) :
  key ≠ Some "" → truthy key = false → key = None.
Proof.
  destruct key as [k|]; [|done]. simpl.
  destruct (String.eqb_spec k ""); [by subst | done].
Qed.

(** *** Which tasks and launch entries are kept *)

Lemma isWorkspaceTask_spec (task : Task) :
  isWorkspaceTask task = true ↔ workspace_scoped task.
Proof.
  unfold isWorkspaceTask, workspace_scoped.
  destruct (task_scope task) as [[[]|f]|]; simpl; split;
    try discriminate; try done.
  - intros (s & [= <-] & Hs). congruence.
  - intros _. eexists; split; [reflexivity | discriminate].
  - intros _. eexists; split; [reflexivity | discriminate].
  - intros (s & [=] & _).
Qed.

Lemma push_launch_fold (f : option WorkspaceFolder) (cs : list Json)
    (launches : list LaunchSelection) :
  fold_left (push_launch f) cs launches
  = launches
    ++ List.map (λ c, {| folder := f; configuration := c |})
                (List.filter has_string_name cs).
Proof.
  revert launches. induction cs as [|c cs IH]; intros launches; simpl.
  - by rewrite app_nil_r.
  - rewrite IH. unfold push_launch, has_string_name, as_string.
    destruct (prop "name" c) as [[]|]; simpl; try done.
    by rewrite <- app_assoc.
Qed.

Lemma folders_fold (n : nat) (fs : list WorkspaceFolder)
    (launches : list LaunchSelection) :
  fold_left
    (λ launches folder,
       fold_left (push_launch (Some folder))
         (default [] (host_launchConfigurations host n (Some (wf_uri folder))))
         launches)
    fs launches
  = launches
    ++ flat_map
         (λ folder,
            List.map (λ c, {| folder := Some folder; configuration := c |})
              (List.filter has_string_name
                 (default []
                    (host_launchConfigurations host n
                       (Some (wf_uri folder))))))
         fs.
Proof.
  revert launches. induction fs as [|f fs IH]; intros launches; simpl.
  - by rewrite app_nil_r.
  - by rewrite IH, push_launch_fold, <- app_assoc.
Qed.

Lemma collectLaunches_spec (n : nat) : collectLaunches n = launches_of n.
Proof.
  unfold collectLaunches, launches_of.
  by rewrite push_launch_fold, folders_fold.
Qed.

Lemma cachedTasks_refreshTasks (w : World) :
  cachedTasks (exec refreshTasks w) = tasks_of (clock w).
Proof.
  destruct w as [? ? ? ? ? ? selected ? ? ? ? ? ?].
  unfold refreshTasks, tasks_of. split_run; reflexivity.
Qed.

Lemma cachedLaunches_refreshLaunchConfigurations (w : World) :
  cachedLaunches (exec refreshLaunchConfigurations w)
  = collectLaunches (clock w).
Proof.
  destruct w as [? ? ? ? ? ? ? ? selected ? ? ? ?].
  unfold refreshLaunchConfigurations. split_run; reflexivity.
Qed.

(** C2.  When the host's task enumeration resolves, [refreshTasks] caches the
    fetched tasks that are workspace-scoped, in the order they were fetched:
    a task is kept exactly when its scope is defined and is not
    [TaskScope.Global], so folder-scoped and Workspace-scoped tasks stay and
    scope-less and Global ones go. *)
Theorem refreshTasks_caches_workspace_tasks (w : World) (allTasks : list Task) :
  host_fetchTasks host (clock w) = Resolved allTasks →
  cachedTasks (exec refreshTasks w) = List.filter isWorkspaceTask allTasks
  ∧ (∀ task, isWorkspaceTask task = true ↔ workspace_scoped task)
  ∧ cachedTasks (exec refreshTasks w) `sublist_of` allTasks
  ∧ (∀ task, task ∈ cachedTasks (exec refreshTasks w)
             ↔ task ∈ allTasks ∧ workspace_scoped task)
  ∧ (∀ name f,
       isWorkspaceTask (mkTask name (Some (ScopeFolder f))) = true
       ∧ isWorkspaceTask (mkTask name (Some (ScopeKind Workspace))) = true
       ∧ isWorkspaceTask (mkTask name (Some (ScopeKind Global))) = false
       ∧ isWorkspaceTask (mkTask name None) = false).
Proof.
  intros Hfetch. rewrite cachedTasks_refreshTasks. unfold tasks_of.
  rewrite Hfetch.
  split; [reflexivity|]. split; [apply isWorkspaceTask_spec|].
  split; [|split].
  - clear. induction allTasks as [|t l IH]; simpl; [constructor|].
    destruct (isWorkspaceTask t); by constructor.
  - intros task. rewrite !list_elem_of_In, filter_In, isWorkspaceTask_spec.
    reflexivity.
  - intros name f. by repeat split.
Qed.

(** C4.  The key is a function of the named ingredients and of nothing else.
    Two tasks with the same scope classification (the identifier that
    [getScopeId] derives from the scope), source, name and definition have
    the same key, whatever their other fields; two launch selections with
    the same folder URI (or both without folder), name, type and request have
    the same key, whatever else the folder and the configuration hold. *)
Theorem keys_are_deterministic :
  (∀ t1 t2 : Task,
     getScopeId t1 = getScopeId t2 →
     task_source t1 = task_source t2 →
     task_name t1 = task_name t2 →
     task_definition t1 = task_definition t2 →
     getTaskKey t1 = getTaskKey t2)
  ∧ (∀ l1 l2 : LaunchSelection,
       (Uri_toString ∘ wf_uri) <$> folder l1
         = (Uri_toString ∘ wf_uri) <$> folder l2 →
       prop "name" (configuration l1) = prop "name" (configuration l2) →
       prop "type" (configuration l1) = prop "type" (configuration l2) →
       prop "request" (configuration l1)
         = prop "request" (configuration l2) →
       getLaunchKey l1 = getLaunchKey l2).
Proof.
  split.
  - intros t1 t2 Hscope Hsource Hname Hdef. unfold getTaskKey.
    by rewrite Hscope, Hsource, Hname, Hdef.
  - intros l1 l2 Hfolder Hname Htype Hrequest. unfold getLaunchKey.
    rewrite Hname, Htype, Hrequest. f_equal.
    destruct (folder l1), (folder l2); simpl in Hfolder; congruence.
Qed.

(** C5.  [refreshLaunchConfigurations] caches, folder by folder in the order
    of the workspace folders, each folder's configured entries in their
    order, and after them the workspace-level entries; of all these it keeps
    exactly the entries whose [name] is a string.  Hence the cache splits
    into a run of folder-scoped selections followed by a run of
    workspace-scoped ones. *)
Theorem refreshLaunchConfigurations_cache (w : World) :
  let cache := cachedLaunches (exec refreshLaunchConfigurations w) in
  cache = launches_of (clock w)
  ∧ ∃ scoped unscoped,
      cache = scoped ++ unscoped
      ∧ Forall (λ l, is_Some (folder l)) scoped
      ∧ Forall (λ l, folder l = None) unscoped.
Proof.
  simpl. rewrite cachedLaunches_refreshLaunchConfigurations,
    collectLaunches_spec.
  split; [reflexivity|]. unfold launches_of. eexists _, _.
  split; [reflexivity|]. split.
  - induction (default [] (host_workspaceFolders host (clock w)))
      as [|f fs IH]; simpl; [constructor|].
    apply Forall_app. split; [|exact IH].
    apply Forall_forall. intros l Hl. apply list_elem_of_In, in_map_iff in Hl.
    destruct Hl as (c & <- & _). by eexists.
  - apply Forall_forall. intros l Hl. apply list_elem_of_In, in_map_iff in Hl.
    by destruct Hl as (c & <- & _).
Qed.


(** *** The selection, its key and the persisted key *)

Lemma consistent_key_nonempty {T : Type} (key_of : T → string)
    (selected : option T) (key stored : option string) :
  (∀ t, key_of t ≠ "") →
  consistent key_of selected key stored →
  truthy key = false → selected = None ∧ key = None.
Proof.
  intros Hne (Hiff & Hkey & _) Hfalsy.
  destruct selected as [t|].
  - rewrite (Hkey t eq_refl), truthy_Some in Hfalsy by apply Hne. done.
  - split; [done|]. destruct key as [k|]; [|done].
    destruct (proj2 Hiff) as [? [=]]. by eexists.
Qed.

Lemma Inv_store_ok (w : World) : Inv w → store_ok (state w).
Proof.
  unfold store_ok.
  intros [(Hiff & Hkey & ->) (Hiff' & Hkey' & ->)]. split; intros Hempty.
  - destruct (proj2 Hiff) as [t Ht]; [by eexists|].
    rewrite (Hkey t Ht) in Hempty. injection Hempty. apply getTaskKey_nonempty.
  - destruct (proj2 Hiff') as [t Ht]; [by eexists|].
    rewrite (Hkey' t Ht) in Hempty. injection Hempty.
    apply getLaunchKey_nonempty.
Qed.

(** How each write to the selection acts on the invariant. *)

Lemma Inv_same (w w' : World) :
  selectedTask w' = selectedTask w →
  selectedTaskKey w' = selectedTaskKey w →
  selectedLaunch w' = selectedLaunch w →
  selectedLaunchKey w' = selectedLaunchKey w →
  state w' = state w →
  Inv w → Inv w'.
Proof. unfold Inv. by intros -> -> -> -> ->. Qed.

Lemma Inv_task_picked (w w' : World) (task : Task) :
  selectedTask w' = Some task →
  selectedTaskKey w' = Some (getTaskKey task) →
  selectedLaunch w' = selectedLaunch w →
  selectedLaunchKey w' = selectedLaunchKey w →
  state w' = <["task-bus:selectedTaskKey" := getTaskKey task]> (state w) →
  Inv w → Inv w'.
Proof.
  unfold Inv, consistent. intros -> -> -> -> -> [_ Hlaunch].
  rewrite lookup_insert_eq, lookup_insert_ne by done. split; [|done].
  split; [by split; eauto|]. split; [|done]. by intros ? [= ->].
Qed.

Lemma Inv_task_cleared (w w' : World) :
  selectedTask w' = None →
  selectedTaskKey w' = None →
  selectedLaunch w' = selectedLaunch w →
  selectedLaunchKey w' = selectedLaunchKey w →
  state w' = delete "task-bus:selectedTaskKey" (state w) →
  Inv w → Inv w'.
Proof.
  unfold Inv, consistent. intros -> -> -> -> -> [_ Hlaunch].
  rewrite lookup_delete_eq, lookup_delete_ne by done. split; [|done].
  split; [by split; intros [? ?]|]. by split.
Qed.

Lemma Inv_launch_picked (w w' : World) (launch : LaunchSelection) :
  selectedLaunch w' = Some launch →
  selectedLaunchKey w' = Some (getLaunchKey launch) →
  selectedTask w' = selectedTask w →
  selectedTaskKey w' = selectedTaskKey w →
  state w' = <["task-bus:selectedLaunchKey" := getLaunchKey launch]> (state w) →
  Inv w → Inv w'.
Proof.
  unfold Inv, consistent. intros -> -> -> -> -> [Htask _].
  rewrite lookup_insert_eq, lookup_insert_ne by done. split; [done|].
  split; [by split; eauto|]. split; [|done]. by intros ? [= ->].
Qed.

Lemma Inv_launch_cleared (w w' : World) :
  selectedLaunch w' = None →
  selectedLaunchKey w' = None →
  selectedTask w' = selectedTask w →
  selectedTaskKey w' = selectedTaskKey w →
  state w' = delete "task-bus:selectedLaunchKey" (state w) →
  Inv w → Inv w'.
Proof.
  unfold Inv, consistent. intros -> -> -> -> -> [Htask _].
  rewrite lookup_delete_eq, lookup_delete_ne by done. split; [done|].
  split; [by split; intros [? ?]|]. by split.
Qed.


(** *** What one refresh does *)

(** Revalidation makes the task side consistent. *)
Lemma refreshTasks_consistent (w : World) :
  task_key_mirrored w →
  let w' := exec refreshTasks w in
  consistent getTaskKey (selectedTask w') (selectedTaskKey w')
             (state w' !! "task-bus:selectedTaskKey").
Proof.
  destruct w as [? ? ? ? ? ? selected key ? ? store ? ?].
  intros [Hstored Hfalsy]. cbn in Hstored, Hfalsy.
  unfold refreshTasks, consistent. split_run; use_find;
    try (destruct key as [k|]; simpl in *; try discriminate; subst);
    rewrite ?lookup_delete_eq;
    (split; [split; intros [? ?]; eauto; discriminate
            | split; [intros ? [=]; subst; congruence | done]]).
Qed.

Lemma refreshLaunchConfigurations_consistent (w : World) :
  launch_key_mirrored w →
  let w' := exec refreshLaunchConfigurations w in
  consistent getLaunchKey (selectedLaunch w') (selectedLaunchKey w')
             (state w' !! "task-bus:selectedLaunchKey").
Proof.
  destruct w as [? ? ? ? ? ? ? ? selected key store ? ?].
  intros [Hstored Hfalsy]. cbn in Hstored, Hfalsy.
  unfold refreshLaunchConfigurations, consistent. split_run; use_find;
    try (destruct key as [k|]; simpl in *; try discriminate; subst);
    rewrite ?lookup_delete_eq;
    (split; [split; intros [? ?]; eauto; discriminate
            | split; [intros ? [=]; subst; congruence | done]]).
Qed.

(** A refresh of one side leaves the other side alone. *)
Lemma refreshTasks_launch_side (w : World) :
  let w' := exec refreshTasks w in
  cachedLaunches w' = cachedLaunches w
  ∧ selectedLaunch w' = selectedLaunch w
  ∧ selectedLaunchKey w' = selectedLaunchKey w
  ∧ state w' !! "task-bus:selectedLaunchKey"
    = state w !! "task-bus:selectedLaunchKey".
Proof.
  destruct w. unfold refreshTasks. split_run;
    rewrite ?lookup_delete_ne by done; done.
Qed.

Lemma refreshLaunchConfigurations_task_side (w : World) :
  let w' := exec refreshLaunchConfigurations w in
  cachedTasks w' = cachedTasks w
  ∧ selectedTask w' = selectedTask w
  ∧ selectedTaskKey w' = selectedTaskKey w
  ∧ state w' !! "task-bus:selectedTaskKey"
    = state w !! "task-bus:selectedTaskKey".
Proof.
  destruct w. unfold refreshLaunchConfigurations. split_run;
    rewrite ?lookup_delete_ne by done; done.
Qed.

(** With a key to look for, the selection becomes the first cached match,
    and key and persisted key go when there is none. *)
Lemma refreshTasks_revalidates (w : World) (k : string) :
  selectedTaskKey w = Some k → k ≠ "" →
  let w' := exec refreshTasks w in
  let found :=
    List.find (λ task, String.eqb (getTaskKey task) k) (cachedTasks w') in
  selectedTask w' = found
  ∧ (found = None →
     selectedTaskKey w' = None
     ∧ state w' !! "task-bus:selectedTaskKey" = None)
  ∧ (is_Some found →
     selectedTaskKey w' = Some k ∧ state w' = state w).
Proof.
  destruct w. cbn. intros -> Hk%truthy_Some. rewrite cachedTasks_refreshTasks.
  unfold refreshTasks, tasks_of. cbn [clock].
  split_run; try congruence; rewrite ?lookup_delete_eq;
    repeat split; try done; by intros [? ?].
Qed.

Lemma refreshLaunchConfigurations_revalidates (w : World) (k : string) :
  selectedLaunchKey w = Some k → k ≠ "" →
  let w' := exec refreshLaunchConfigurations w in
  let found :=
    List.find (λ launch, String.eqb (getLaunchKey launch) k)
              (cachedLaunches w') in
  selectedLaunch w' = found
  ∧ (found = None →
     selectedLaunchKey w' = None
     ∧ state w' !! "task-bus:selectedLaunchKey" = None)
  ∧ (is_Some found →
     selectedLaunchKey w' = Some k ∧ state w' = state w).
Proof.
  destruct w. cbn. intros -> Hk%truthy_Some.
  rewrite cachedLaunches_refreshLaunchConfigurations.
  unfold refreshLaunchConfigurations. cbn [clock].
  split_run; try congruence; rewrite ?lookup_delete_eq;
    repeat split; try done; by intros [? ?].
Qed.

(** Without one, nothing about the selection changes. *)
Lemma refreshTasks_idle (w : World) :
  truthy (selectedTaskKey w) = false →
  let w' := exec refreshTasks w in
  selectedTask w' = selectedTask w
  ∧ selectedTaskKey w' = selectedTaskKey w
  ∧ state w' = state w.
Proof.
  destruct w. cbn. intros Hk. unfold refreshTasks.
  split_run; try congruence; done.
Qed.

Lemma refreshLaunchConfigurations_idle (w : World) :
  truthy (selectedLaunchKey w) = false →
  let w' := exec refreshLaunchConfigurations w in
  selectedLaunch w' = selectedLaunch w
  ∧ selectedLaunchKey w' = selectedLaunchKey w
  ∧ state w' = state w.
Proof.
  destruct w. cbn. intros Hk. unfold refreshLaunchConfigurations.
  split_run; try congruence; done.
Qed.

(** A refresh fetches once, runs nothing, and ends by updating the bar. *)
Lemma refreshTasks_trace (w : World) :
  let w' := exec refreshTasks w in
  executions (trace w') = executions (trace w)
  ∧ debug_starts (trace w') = debug_starts (trace w)
  ∧ fetches (trace w') = S (fetches (trace w))
  ∧ head (trace w') = Some EUpdateTaskStatusBar
  ∧ task_shown w'.
Proof.
  destruct w. unfold refreshTasks, task_shown. split_run; done.
Qed.

Lemma refreshLaunchConfigurations_trace (w : World) :
  let w' := exec refreshLaunchConfigurations w in
  executions (trace w') = executions (trace w)
  ∧ debug_starts (trace w') = debug_starts (trace w)
  ∧ fetches (trace w') = fetches (trace w)
  ∧ head (trace w') = Some EUpdateLaunchStatusBar
  ∧ launch_shown w'.
Proof.
  destruct w. unfold refreshLaunchConfigurations, launch_shown.
  split_run; done.
Qed.


(** *** The commands, piece by piece *)

Lemma selectTask_split (w : World) :
  exec selectTask w = exec pickTask (exec refreshTasks w).
Proof. unfold selectTask. by rewrite exec_seq. Qed.

Lemma selectLaunch_split (w : World) :
  exec selectLaunch w = exec pickLaunch (exec refreshLaunchConfigurations w).
Proof. unfold selectLaunch. by rewrite exec_seq. Qed.

Lemma ensureTaskSelected_split (w : World) :
  exec ensureTaskSelected w
  = match selectedTask (exec refreshTasks w) with
    | None => exec selectTask (exec refreshTasks w)
    | Some _ => exec refreshTasks w
    end.
Proof.
  unfold ensureTaskSelected. rewrite exec_seq, exec_bind. cbn [gets fst snd exec].
  by destruct (selectedTask _).
Qed.

Lemma ensureLaunchSelected_split (w : World) :
  exec ensureLaunchSelected w
  = match selectedLaunch (exec refreshLaunchConfigurations w) with
    | None => exec selectLaunch (exec refreshLaunchConfigurations w)
    | Some _ => exec refreshLaunchConfigurations w
    end.
Proof.
  unfold ensureLaunchSelected. rewrite exec_seq, exec_bind.
  cbn [gets fst snd exec]. by destruct (selectedLaunch _).
Qed.

Lemma executeTask_split (w : World) :
  exec executeTask w = exec runSelectedTask (exec ensureTaskSelected w).
Proof.
  unfold executeTask, ensureTaskSelected. by rewrite !exec_seq.
Qed.

Lemma executeLaunch_split (w : World) :
  exec executeLaunch w = exec runSelectedLaunch (exec ensureLaunchSelected w).
Proof.
  unfold executeLaunch, ensureLaunchSelected. by rewrite !exec_seq.
Qed.


Ltac solve_Inv :=
  match goal with
  | H : Inv ?w0 |- Inv _ =>
      first [ apply (Inv_same w0); [reflexivity.. | exact H]
            | eapply (Inv_task_picked w0); [reflexivity.. | exact H]
            | apply (Inv_task_cleared w0); [reflexivity.. | exact H]
            | eapply (Inv_launch_picked w0); [reflexivity.. | exact H]
            | apply (Inv_launch_cleared w0); [reflexivity.. | exact H] ]
  end.

Lemma pickTask_Inv (w : World) : Inv w → Inv (exec pickTask w).
Proof. destruct w. intros H. unfold pickTask. split_run; solve_Inv. Qed.

Lemma pickLaunch_Inv (w : World) : Inv w → Inv (exec pickLaunch w).
Proof. destruct w. intros H. unfold pickLaunch. split_run; solve_Inv. Qed.

Lemma runSelectedTask_Inv (w : World) : Inv w → Inv (exec runSelectedTask w).
Proof. destruct w. intros H. unfold runSelectedTask. split_run; solve_Inv. Qed.

Lemma runSelectedLaunch_Inv (w : World) :
  Inv w → Inv (exec runSelectedLaunch w).
Proof.
  destruct w. intros H. unfold runSelectedLaunch. split_run; solve_Inv.
Qed.

Lemma pickTask_runs (w : World) :
  same_runs w (exec pickTask w)
  ∧ cachedTasks (exec pickTask w) = cachedTasks w
  ∧ fetches (trace (exec pickTask w)) = fetches (trace w).
Proof. destruct w. unfold pickTask, same_runs. split_run; done. Qed.

Lemma pickLaunch_runs (w : World) :
  same_runs w (exec pickLaunch w)
  ∧ cachedLaunches (exec pickLaunch w) = cachedLaunches w
  ∧ fetches (trace (exec pickLaunch w)) = fetches (trace w).
Proof. destruct w. unfold pickLaunch, same_runs. split_run; done. Qed.

(** An empty cache or a dismissed picker: a message or a prompt, and no
    other change. *)
Lemma pickTask_dismissed (w : World) :
  cachedTasks w = []
  ∨ host_pickTask host (clock w) (List.map taskPick (cachedTasks w)) = None →
  same_selection w (exec pickTask w)
  ∧ trace (exec pickTask w)
    = (match cachedTasks w with
       | [] => EShowInformationMessage
                 "Task Bus did not find any tasks in tasks.json."
       | _ => EShowQuickPickTasks (List.map taskPick (cachedTasks w))
       end) :: trace w.
Proof.
  destruct w. cbn. unfold pickTask, same_selection. intros Hor.
  split_run; try done; destruct Hor; congruence.
Qed.

Lemma pickLaunch_dismissed (w : World) :
  cachedLaunches w = []
  ∨ host_pickLaunch host (clock w) (List.map launchPick (cachedLaunches w))
    = None →
  same_selection w (exec pickLaunch w)
  ∧ trace (exec pickLaunch w)
    = (match cachedLaunches w with
       | [] => EShowInformationMessage
                 "Task Bus did not find any launch configurations in launch.json."
       | _ => EShowQuickPickLaunches (List.map launchPick (cachedLaunches w))
       end) :: trace w.
Proof.
  destruct w. cbn. unfold pickLaunch, same_selection. intros Hor.
  split_run; try done; destruct Hor; congruence.
Qed.

(** A completed pick: the item becomes the selection, its key is persisted,
    and the bar is updated last. *)
Lemma pickTask_picked (w : World) (item : TaskPickItem) :
  cachedTasks w ≠ [] →
  host_pickTask host (clock w) (List.map taskPick (cachedTasks w))
    = Some item →
  let w' := exec pickTask w in
  selectedTask w' = Some (tp_task item)
  ∧ selectedTaskKey w' = Some (getTaskKey (tp_task item))
  ∧ state w'
    = <["task-bus:selectedTaskKey" := getTaskKey (tp_task item)]> (state w)
  ∧ task_shown w'
  ∧ head (trace w') = Some EUpdateTaskStatusBar.
Proof.
  destruct w. cbn. unfold pickTask, task_shown. intros Hne Hpick.
  split_run; simplify_eq; done.
Qed.

Lemma pickLaunch_picked (w : World) (item : LaunchPickItem) :
  cachedLaunches w ≠ [] →
  host_pickLaunch host (clock w) (List.map launchPick (cachedLaunches w))
    = Some item →
  let w' := exec pickLaunch w in
  selectedLaunch w' = Some (lp_launch item)
  ∧ selectedLaunchKey w' = Some (getLaunchKey (lp_launch item))
  ∧ state w'
    = <["task-bus:selectedLaunchKey" := getLaunchKey (lp_launch item)]>
        (state w)
  ∧ launch_shown w'
  ∧ head (trace w') = Some EUpdateLaunchStatusBar.
Proof.
  destruct w. cbn. unfold pickLaunch, launch_shown. intros Hne Hpick.
  split_run; simplify_eq; done.
Qed.

Lemma runSelectedTask_none (w : World) :
  selectedTask w = None → exec runSelectedTask w = w.
Proof. destruct w. cbn. intros ->. reflexivity. Qed.

Lemma runSelectedLaunch_none (w : World) :
  selectedLaunch w = None → exec runSelectedLaunch w = w.
Proof. destruct w. cbn. intros ->. reflexivity. Qed.

(** With a selection, exactly one call to the host; when it resolves nothing
    else happens. *)
Lemma runSelectedTask_resolved (w : World) (task : Task) (a : unit) :
  selectedTask w = Some task →
  host_executeTask host (clock w) (freshTask_of w task) = Resolved a →
  let w' := exec runSelectedTask w in
  trace w' = EExecuteTask (freshTask_of w task) :: trace w
  ∧ same_selection w w'.
Proof.
  destruct w. cbn. unfold freshTask_of, runSelectedTask, same_selection.
  cbn [cachedTasks]. intros -> Hrun. split_run; simplify_eq; done.
Qed.

Lemma runSelectedLaunch_resolved (w : World) (launch : LaunchSelection)
    (a : bool) :
  selectedLaunch w = Some launch →
  host_startDebugging host (clock w) (folder (freshLaunch_of w launch))
    (configuration (freshLaunch_of w launch)) = Resolved a →
  let w' := exec runSelectedLaunch w in
  trace w'
  = EStartDebugging (folder (freshLaunch_of w launch))
      (configuration (freshLaunch_of w launch)) :: trace w
  ∧ same_selection w w'.
Proof.
  destruct w. cbn. unfold freshLaunch_of, runSelectedLaunch, same_selection.
  cbn [cachedLaunches]. intros -> Hrun. split_run; simplify_eq; done.
Qed.

(** When it rejects: log, tell the user, clear the selection and its key,
    update the bar, and nothing more. *)
Lemma runSelectedTask_rejected (w : World) (task : Task) :
  selectedTask w = Some task →
  host_executeTask host (clock w) (freshTask_of w task) = Rejected →
  let w' := exec runSelectedTask w in
  trace w' = task_failure_events (freshTask_of w task) ++ trace w
  ∧ selectedTask w' = None
  ∧ selectedTaskKey w' = None
  ∧ state w' = delete "task-bus:selectedTaskKey" (state w)
  ∧ selectedLaunch w' = selectedLaunch w
  ∧ selectedLaunchKey w' = selectedLaunchKey w
  ∧ task_shown w'.
Proof.
  destruct w. cbn.
  unfold freshTask_of, runSelectedTask, task_shown, task_failure_events.
  cbn [cachedTasks]. intros -> Hrun. split_run; simplify_eq; done.
Qed.

Lemma runSelectedLaunch_rejected (w : World) (launch : LaunchSelection) :
  selectedLaunch w = Some launch →
  host_startDebugging host (clock w) (folder (freshLaunch_of w launch))
    (configuration (freshLaunch_of w launch)) = Rejected →
  let w' := exec runSelectedLaunch w in
  trace w' = launch_failure_events (freshLaunch_of w launch) ++ trace w
  ∧ selectedLaunch w' = None
  ∧ selectedLaunchKey w' = None
  ∧ state w' = delete "task-bus:selectedLaunchKey" (state w)
  ∧ selectedTask w' = selectedTask w
  ∧ selectedTaskKey w' = selectedTaskKey w
  ∧ launch_shown w'.
Proof.
  destruct w. cbn.
  unfold freshLaunch_of, runSelectedLaunch, launch_shown,
    launch_failure_events.
  cbn [cachedLaunches]. intros -> Hrun. split_run; simplify_eq; done.
Qed.


(** *** The commands as wholes *)

Lemma Inv_task_key_mirrored (w : World) : Inv w → task_key_mirrored w.
Proof.
  intros [Htask _]. split; [apply Htask|].
  eapply consistent_key_nonempty; [apply getTaskKey_nonempty | apply Htask].
Qed.

Lemma Inv_launch_key_mirrored (w : World) : Inv w → launch_key_mirrored w.
Proof.
  intros [_ Hlaunch]. split; [apply Hlaunch|].
  eapply consistent_key_nonempty; [apply getLaunchKey_nonempty | apply Hlaunch].
Qed.

Lemma refreshTasks_Inv (w : World) : Inv w → Inv (exec refreshTasks w).
Proof.
  intros H. split.
  - by apply refreshTasks_consistent, Inv_task_key_mirrored.
  - destruct (refreshTasks_launch_side w) as (_ & -> & -> & ->). apply H.
Qed.

Lemma refreshLaunchConfigurations_Inv (w : World) :
  Inv w → Inv (exec refreshLaunchConfigurations w).
Proof.
  intros H. split.
  - destruct (refreshLaunchConfigurations_task_side w) as (_ & -> & -> & ->).
    apply H.
  - by apply refreshLaunchConfigurations_consistent, Inv_launch_key_mirrored.
Qed.

Lemma selectTask_Inv (w : World) : Inv w → Inv (exec selectTask w).
Proof.
  intros H. rewrite selectTask_split. by apply pickTask_Inv, refreshTasks_Inv.
Qed.

Lemma selectLaunch_Inv (w : World) : Inv w → Inv (exec selectLaunch w).
Proof.
  intros H. rewrite selectLaunch_split.
  by apply pickLaunch_Inv, refreshLaunchConfigurations_Inv.
Qed.

Lemma ensureTaskSelected_Inv (w : World) :
  Inv w → Inv (exec ensureTaskSelected w).
Proof.
  intros H%refreshTasks_Inv. rewrite ensureTaskSelected_split.
  destruct (selectedTask _); [done|]. by apply selectTask_Inv.
Qed.

Lemma ensureLaunchSelected_Inv (w : World) :
  Inv w → Inv (exec ensureLaunchSelected w).
Proof.
  intros H%refreshLaunchConfigurations_Inv. rewrite ensureLaunchSelected_split.
  destruct (selectedLaunch _); [done|]. by apply selectLaunch_Inv.
Qed.

Lemma executeTask_Inv (w : World) : Inv w → Inv (exec executeTask w).
Proof.
  intros H. rewrite executeTask_split.
  by apply runSelectedTask_Inv, ensureTaskSelected_Inv.
Qed.

Lemma executeLaunch_Inv (w : World) : Inv w → Inv (exec executeLaunch w).
Proof.
  intros H. rewrite executeLaunch_split.
  by apply runSelectedLaunch_Inv, ensureLaunchSelected_Inv.
Qed.

(** Showing and hiding touches nothing but the items' visibility. *)
Lemma applyVisibilitySettings_frame (w : World) :
  let w' := exec applyVisibilitySettings w in
  same_selection w w'
  ∧ cachedTasks w' = cachedTasks w
  ∧ cachedLaunches w' = cachedLaunches w
  ∧ trace w' = trace w
  ∧ clock w' = clock w
  ∧ text (taskSelectorItem w') = text (taskSelectorItem w)
  ∧ text (launchSelectorItem w') = text (launchSelectorItem w)
  ∧ visible (taskSelectorItem w')
    = default true (host_setting host (clock w) "task-bus" "showTaskBus")
  ∧ visible (launchSelectorItem w')
    = default true (host_setting host (clock w) "task-bus" "showLaunchBus").
Proof. destruct w. unfold applyVisibilitySettings, same_selection. by run. Qed.

Lemma activate_split (context : ExtensionContext) :
  exec (activate context) initial
  = exec applyVisibilitySettings
      (exec refreshLaunchConfigurations
         (exec refreshTasks (loaded context))).
Proof.
  unfold activate. rewrite !exec_seq. reflexivity.
Qed.

Lemma activate_Inv (context : ExtensionContext) :
  store_ok (workspaceState context) → Inv (exec (activate context) initial).
Proof.
  intros [Htask Hlaunch]. rewrite activate_split.
  set (w1 := exec refreshTasks (loaded context)).
  set (w2 := exec refreshLaunchConfigurations w1).
  destruct (applyVisibilitySettings_frame w2) as ((? & ? & ? & ? & ?) & _).
  apply (Inv_same w2); [done..|].
  assert (task_key_mirrored (loaded context)) as Hmirror.
  { split; [reflexivity|]. cbn. intros Hfalsy. split; [done|].
    by apply falsy_no_key. }
  assert (launch_key_mirrored w1) as Hmirror'.
  { unfold launch_key_mirrored, w1.
    destruct (refreshTasks_launch_side (loaded context)) as (_ & -> & -> & ->).
    split; [reflexivity|]. cbn. intros Hfalsy. split; [done|].
    by apply falsy_no_key. }
  split.
  - unfold w2.
    destruct (refreshLaunchConfigurations_task_side w1) as (_ & -> & -> & ->).
    by apply refreshTasks_consistent.
  - by apply refreshLaunchConfigurations_consistent.
Qed.

(** A refresh writes to the workspace state under its own key only. *)
Lemma refreshTasks_state_frame (w : World) (key : string) :
  key ≠ "task-bus:selectedTaskKey" →
  state (exec refreshTasks w) !! key = state w !! key.
Proof.
  destruct w. unfold refreshTasks. intros Hkey.
  split_run; rewrite ?lookup_delete_ne by done; done.
Qed.

Lemma refreshLaunchConfigurations_state_frame (w : World) (key : string) :
  key ≠ "task-bus:selectedLaunchKey" →
  state (exec refreshLaunchConfigurations w) !! key = state w !! key.
Proof.
  destruct w. unfold refreshLaunchConfigurations. intros Hkey.
  split_run; rewrite ?lookup_delete_ne by done; done.
Qed.

(** What activation makes of the workspace state it is given: the two keys
    it finds there are kept when a cached item has them and dropped
    otherwise, and no other entry is touched. *)
Lemma activate_keys (context : ExtensionContext) :
  store_ok (workspaceState context) →
  let w' := exec (activate context) initial in
  selectedTaskKey w'
  = kept_key getTaskKey
      (workspaceState context !! "task-bus:selectedTaskKey") (cachedTasks w')
  ∧ selectedLaunchKey w'
    = kept_key getLaunchKey
        (workspaceState context !! "task-bus:selectedLaunchKey")
        (cachedLaunches w')
  ∧ (∀ key,
       key ≠ "task-bus:selectedTaskKey" →
       key ≠ "task-bus:selectedLaunchKey" →
       state w' !! key = workspaceState context !! key).
Proof.
  intros [Htask Hlaunch]. cbn zeta. rewrite activate_split.
  set (w1 := exec refreshTasks (loaded context)).
  set (w2 := exec refreshLaunchConfigurations w1).
  destruct (applyVisibilitySettings_frame w2)
    as ((_ & Hk & _ & Hlk & Hst) & Hct & Hcl & _).
  rewrite Hk, Hlk, Hst, Hct, Hcl. clear Hk Hlk Hst Hct Hcl.
  destruct (refreshLaunchConfigurations_task_side w1) as (Hc2 & _ & Hk2 & _).
  fold w2 in Hc2, Hk2. rewrite Hc2, Hk2. clear Hc2 Hk2.
  destruct (refreshTasks_launch_side (loaded context)) as (_ & _ & Hk1 & _).
  fold w1 in Hk1. change (selectedLaunchKey (loaded context))
    with (workspaceState context !! "task-bus:selectedLaunchKey") in Hk1.
  split; [|split].
  - unfold kept_key, w1.
    destruct (workspaceState context !! "task-bus:selectedTaskKey")
      as [k|] eqn:Hstored.
    + assert (k ≠ "") as Hne by (by intros ->).
      destruct (refreshTasks_revalidates (loaded context) k Hstored Hne)
        as (_ & Hnone & Hsome).
      destruct (List.find _ (cachedTasks _)) eqn:Hfind.
      * by apply Hsome.
      * by apply Hnone.
    + destruct (refreshTasks_idle (loaded context)) as (_ & Hkey & _).
      { cbn. by rewrite Hstored. }
      rewrite Hkey. exact Hstored.
  - unfold kept_key, w2.
    destruct (workspaceState context !! "task-bus:selectedLaunchKey")
      as [k|] eqn:Hstored.
    + assert (k ≠ "") as Hne by (by intros ->).
      destruct (refreshLaunchConfigurations_revalidates w1 k Hk1 Hne)
        as (_ & Hnone & Hsome).
      destruct (List.find _ (cachedLaunches _)) eqn:Hfind.
      * by apply Hsome.
      * by apply Hnone.
    + destruct (refreshLaunchConfigurations_idle w1) as (_ & Hkey & _).
      { by rewrite Hk1. }
      by rewrite Hkey.
  - intros key Htk Hlk. unfold w2, w1.
    rewrite refreshLaunchConfigurations_state_frame by done.
    by rewrite refreshTasks_state_frame by done.
Qed.

(** C9.  The selection, its key and the persisted key stay consistent: on
    each side the selected item is defined exactly when the in-memory key is,
    the key is then the item's derived key, and the workspace state holds the
    in-memory key.  This holds once [activate] has completed, provided the
    workspace state it starts from holds no empty key (as every state written
    by the extension does); the keys are then the ones that were persisted in
    that workspace state, each kept when a cached item has it and dropped
    otherwise, and every other entry of the workspace state is as it was.
    Each of [refreshTasks], [selectTask], [executeTask] and their launch
    counterparts preserves the consistency. *)
Theorem selection_key_consistency :
  (∀ context,
     store_ok (workspaceState context) →
     let w' := exec (activate context) initial in
     let stored := workspaceState context in
     Inv w'
     ∧ selectedTaskKey w'
       = kept_key getTaskKey (stored !! "task-bus:selectedTaskKey")
           (cachedTasks w')
     ∧ selectedLaunchKey w'
       = kept_key getLaunchKey (stored !! "task-bus:selectedLaunchKey")
           (cachedLaunches w')
     ∧ (∀ key,
          key ≠ "task-bus:selectedTaskKey" →
          key ≠ "task-bus:selectedLaunchKey" →
          state w' !! key = stored !! key))
  ∧ (∀ w,
       Inv w →
       Inv (exec refreshTasks w)
       ∧ Inv (exec selectTask w)
       ∧ Inv (exec executeTask w)
       ∧ Inv (exec refreshLaunchConfigurations w)
       ∧ Inv (exec selectLaunch w)
       ∧ Inv (exec executeLaunch w)
       ∧ store_ok (state w)).
Proof.
  split.
  - intros context Hstore. cbn zeta.
    exact (conj (activate_Inv context Hstore) (activate_keys context Hstore)).
  - intros w H.
    exact (conj (refreshTasks_Inv w H)
            (conj (selectTask_Inv w H)
               (conj (executeTask_Inv w H)
                  (conj (refreshLaunchConfigurations_Inv w H)
                     (conj (selectLaunch_Inv w H)
                        (conj (executeLaunch_Inv w H)
                           (Inv_store_ok w H))))))).
Qed.


(** C1.  On every refresh, when a persisted key is present (and mirrored in
    memory, as [activate] loads it and every write keeps it), the selection
    becomes the first cached candidate whose derived key is that key; when no
    cached candidate has that key, the selection, the in-memory key and the
    key in the workspace state are all cleared. *)
Theorem refresh_revalidates_selection :
  (∀ w k,
     state w !! "task-bus:selectedTaskKey" = Some k →
     selectedTaskKey w = state w !! "task-bus:selectedTaskKey" →
     k ≠ "" →
     let w' := exec refreshTasks w in
     let matches := λ task, String.eqb (getTaskKey task) k in
     (∀ task, selectedTask w' = Some task
              ↔ first_match matches (cachedTasks w') task)
     ∧ ((∀ task, task ∈ cachedTasks w' → getTaskKey task ≠ k) →
        selectedTask w' = None
        ∧ selectedTaskKey w' = None
        ∧ state w' !! "task-bus:selectedTaskKey" = None))
  ∧ (∀ w k,
       state w !! "task-bus:selectedLaunchKey" = Some k →
       selectedLaunchKey w = state w !! "task-bus:selectedLaunchKey" →
       k ≠ "" →
       let w' := exec refreshLaunchConfigurations w in
       let matches := λ launch, String.eqb (getLaunchKey launch) k in
       (∀ launch, selectedLaunch w' = Some launch
                  ↔ first_match matches (cachedLaunches w') launch)
       ∧ ((∀ launch, launch ∈ cachedLaunches w' → getLaunchKey launch ≠ k) →
          selectedLaunch w' = None
          ∧ selectedLaunchKey w' = None
          ∧ state w' !! "task-bus:selectedLaunchKey" = None)).
Proof.
  split; intros w k Hstored Hkey Hk; rewrite Hstored in Hkey; cbn zeta.
  - destruct (refreshTasks_revalidates w k Hkey Hk) as (Hsel & Hnone & _).
    split.
    + intros task. rewrite Hsel. apply find_first_match.
    + intros Hmiss.
      assert (List.find (λ task, String.eqb (getTaskKey task) k)
                (cachedTasks (exec refreshTasks w)) = None) as Hfind.
      { apply find_none_iff, Forall_forall. intros task Hin.
        apply String.eqb_neq. by apply Hmiss. }
      rewrite Hsel. split; [done|]. by apply Hnone.
  - destruct (refreshLaunchConfigurations_revalidates w k Hkey Hk)
      as (Hsel & Hnone & _).
    split.
    + intros launch. rewrite Hsel. apply find_first_match.
    + intros Hmiss.
      assert (List.find (λ launch, String.eqb (getLaunchKey launch) k)
                (cachedLaunches (exec refreshLaunchConfigurations w)) = None)
        as Hfind.
      { apply find_none_iff, Forall_forall. intros launch Hin.
        apply String.eqb_neq. by apply Hmiss. }
      rewrite Hsel. split; [done|]. by apply Hnone.
Qed.

(** *** Runs, prompts and the bar *)

Lemma same_runs_trans (w1 w2 w3 : World) :
  same_runs w1 w2 → same_runs w2 w3 → same_runs w1 w3.
Proof. unfold same_runs. intros [-> ->] [-> ->]. done. Qed.

Lemma same_selection_trans (w1 w2 w3 : World) :
  same_selection w1 w2 → same_selection w2 w3 → same_selection w1 w3.
Proof.
  unfold same_selection.
  intros (<- & <- & <- & <- & <-) (<- & <- & <- & <- & <-). done.
Qed.

Lemma refreshTasks_runs (w : World) : same_runs w (exec refreshTasks w).
Proof. destruct (refreshTasks_trace w) as (? & ? & _). by split. Qed.

Lemma refreshLaunchConfigurations_runs (w : World) :
  same_runs w (exec refreshLaunchConfigurations w).
Proof.
  destruct (refreshLaunchConfigurations_trace w) as (? & ? & _). by split.
Qed.

Lemma selectTask_runs (w : World) : same_runs w (exec selectTask w).
Proof.
  rewrite selectTask_split.
  eapply same_runs_trans; [apply refreshTasks_runs | apply pickTask_runs].
Qed.

Lemma selectLaunch_runs (w : World) : same_runs w (exec selectLaunch w).
Proof.
  rewrite selectLaunch_split.
  eapply same_runs_trans;
    [apply refreshLaunchConfigurations_runs | apply pickLaunch_runs].
Qed.

Lemma ensureTaskSelected_runs (w : World) :
  same_runs w (exec ensureTaskSelected w).
Proof.
  rewrite ensureTaskSelected_split. destruct (selectedTask _).
  - apply refreshTasks_runs.
  - eapply same_runs_trans; [apply refreshTasks_runs | apply selectTask_runs].
Qed.

Lemma ensureLaunchSelected_runs (w : World) :
  same_runs w (exec ensureLaunchSelected w).
Proof.
  rewrite ensureLaunchSelected_split. destruct (selectedLaunch _).
  - apply refreshLaunchConfigurations_runs.
  - eapply same_runs_trans;
      [apply refreshLaunchConfigurations_runs | apply selectLaunch_runs].
Qed.

(** With a selection, the host's [executeTask] is called once more, whatever
    it answers. *)
Lemma runSelectedTask_executes (w : World) (task : Task) :
  selectedTask w = Some task →
  let w' := exec runSelectedTask w in
  executions (trace w') = freshTask_of w task :: executions (trace w)
  ∧ debug_starts (trace w') = debug_starts (trace w).
Proof.
  intros Hsel.
  destruct (host_executeTask host (clock w) (freshTask_of w task)) eqn:Hrun.
  - destruct (runSelectedTask_resolved w task a Hsel Hrun) as [Htrace _].
    cbn zeta. by rewrite Htrace.
  - destruct (runSelectedTask_rejected w task Hsel Hrun) as [Htrace _].
    cbn zeta. by rewrite Htrace.
Qed.

Lemma runSelectedLaunch_starts (w : World) (launch : LaunchSelection) :
  selectedLaunch w = Some launch →
  let w' := exec runSelectedLaunch w in
  debug_starts (trace w')
  = (folder (freshLaunch_of w launch),
     configuration (freshLaunch_of w launch)) :: debug_starts (trace w)
  ∧ executions (trace w') = executions (trace w).
Proof.
  intros Hsel.
  destruct (host_startDebugging host (clock w)
              (folder (freshLaunch_of w launch))
              (configuration (freshLaunch_of w launch))) eqn:Hrun.
  - destruct (runSelectedLaunch_resolved w launch a Hsel Hrun) as [Htrace _].
    cbn zeta. by rewrite Htrace.
  - destruct (runSelectedLaunch_rejected w launch Hsel Hrun) as [Htrace _].
    cbn zeta. by rewrite Htrace.
Qed.

(** What [executeTask] passes on is a cached task with the selection's key,
    or the selection itself when the cache has none. *)
Lemma freshTask_of_spec (w : World) (task : Task) :
  let same_key := λ t, String.eqb (getTaskKey t) (getTaskKey task) in
  first_match same_key (cachedTasks w) (freshTask_of w task)
  ∨ (Forall (λ t, getTaskKey t ≠ getTaskKey task) (cachedTasks w)
     ∧ freshTask_of w task = task).
Proof.
  cbn zeta. unfold freshTask_of.
  destruct (List.find _ (cachedTasks w)) as [t|] eqn:Hfind; cbn.
  - left. by apply find_first_match.
  - right. split; [|done]. apply find_none_iff in Hfind.
    eapply Forall_impl; [exact Hfind|]. intros t. apply String.eqb_neq.
Qed.

Lemma freshLaunch_of_spec (w : World) (launch : LaunchSelection) :
  let same_key := λ l, String.eqb (getLaunchKey l) (getLaunchKey launch) in
  first_match same_key (cachedLaunches w) (freshLaunch_of w launch)
  ∨ (Forall (λ l, getLaunchKey l ≠ getLaunchKey launch) (cachedLaunches w)
     ∧ freshLaunch_of w launch = launch).
Proof.
  cbn zeta. unfold freshLaunch_of.
  destruct (List.find _ (cachedLaunches w)) as [l|] eqn:Hfind; cbn.
  - left. by apply find_first_match.
  - right. split; [|done]. apply find_none_iff in Hfind.
    eapply Forall_impl; [exact Hfind|]. intros l. apply String.eqb_neq.
Qed.

(** From a consistent state whose selection is still among the refreshed
    candidates, the command goes straight to the one call. *)
Lemma executeTask_runs_selected (w : World) (task cached : Task) :
  Inv w → selectedTask w = Some task →
  first_match (λ t, String.eqb (getTaskKey t) (getTaskKey task))
              (cachedTasks (exec refreshTasks w)) cached →
  executions (trace (exec executeTask w)) = cached :: executions (trace w).
Proof.
  intros [(_ & Hkey & _) _] Hsel Hfirst. specialize (Hkey task Hsel).
  destruct (refreshTasks_revalidates w _ Hkey (getTaskKey_nonempty task))
    as (Hfound & _).
  apply find_first_match in Hfirst. rewrite Hfirst in Hfound.
  rewrite executeTask_split, ensureTaskSelected_split, Hfound.
  destruct (runSelectedTask_executes _ cached Hfound) as [-> _].
  destruct (refreshTasks_runs w) as [-> _]. f_equal.
  pose proof Hfirst as Hsame. apply find_some in Hsame as [_ Hsame].
  apply String.eqb_eq in Hsame. unfold freshTask_of.
  by rewrite Hsame, Hfirst.
Qed.

Lemma executeLaunch_starts_selected (w : World)
    (launch cached : LaunchSelection) :
  Inv w → selectedLaunch w = Some launch →
  first_match (λ l, String.eqb (getLaunchKey l) (getLaunchKey launch))
              (cachedLaunches (exec refreshLaunchConfigurations w)) cached →
  debug_starts (trace (exec executeLaunch w))
  = (folder cached, configuration cached) :: debug_starts (trace w).
Proof.
  intros [_ (_ & Hkey & _)] Hsel Hfirst. specialize (Hkey launch Hsel).
  destruct (refreshLaunchConfigurations_revalidates w _ Hkey
              (getLaunchKey_nonempty launch)) as (Hfound & _).
  apply find_first_match in Hfirst. rewrite Hfirst in Hfound.
  rewrite executeLaunch_split, ensureLaunchSelected_split, Hfound.
  destruct (runSelectedLaunch_starts _ cached Hfound) as [-> _].
  destruct (refreshLaunchConfigurations_runs w) as [_ ->].
  pose proof Hfirst as Hsame. apply find_some in Hsame as [_ Hsame].
  apply String.eqb_eq in Hsame. unfold freshLaunch_of.
  by rewrite Hsame, Hfirst.
Qed.

(** C8.  Running is delegated to the host.  When a task is selected once
    [executeTask] has refreshed (and, with nothing selected, asked),
    the host's [executeTask] is called exactly once, with the first cached
    task that has the selected task's key, or with the selected task itself
    if the cache holds none; [executeLaunch] likewise calls [startDebugging]
    exactly once, with the folder and the configuration of the matching
    launch.  Refreshing and selecting call neither.  In particular, from a
    consistent state whose selection is still among the refreshed
    candidates, the one call is made with the first candidate that has the
    selection's key. *)
Theorem execution_is_delegated :
  (∀ w task,
     let w2 := exec ensureTaskSelected w in
     selectedTask w2 = Some task →
     let w' := exec executeTask w in
     let same_key := λ t, String.eqb (getTaskKey t) (getTaskKey task) in
     executions (trace w') = freshTask_of w2 task :: executions (trace w)
     ∧ debug_starts (trace w') = debug_starts (trace w)
     ∧ (first_match same_key (cachedTasks w2) (freshTask_of w2 task)
        ∨ (Forall (λ t, getTaskKey t ≠ getTaskKey task) (cachedTasks w2)
           ∧ freshTask_of w2 task = task)))
  ∧ (∀ w launch,
       let w2 := exec ensureLaunchSelected w in
       selectedLaunch w2 = Some launch →
       let w' := exec executeLaunch w in
       let same_key :=
         λ l, String.eqb (getLaunchKey l) (getLaunchKey launch) in
       debug_starts (trace w')
       = (folder (freshLaunch_of w2 launch),
          configuration (freshLaunch_of w2 launch))
         :: debug_starts (trace w)
       ∧ executions (trace w') = executions (trace w)
       ∧ (first_match same_key (cachedLaunches w2) (freshLaunch_of w2 launch)
          ∨ (Forall (λ l, getLaunchKey l ≠ getLaunchKey launch)
                    (cachedLaunches w2)
             ∧ freshLaunch_of w2 launch = launch)))
  ∧ (∀ w,
       same_runs w (exec refreshTasks w)
       ∧ same_runs w (exec selectTask w)
       ∧ same_runs w (exec refreshLaunchConfigurations w)
       ∧ same_runs w (exec selectLaunch w))
  ∧ (∀ w task cached,
       Inv w → selectedTask w = Some task →
       first_match (λ t, String.eqb (getTaskKey t) (getTaskKey task))
                   (cachedTasks (exec refreshTasks w)) cached →
       executions (trace (exec executeTask w))
       = cached :: executions (trace w))
  ∧ (∀ w launch cached,
       Inv w → selectedLaunch w = Some launch →
       first_match (λ l, String.eqb (getLaunchKey l) (getLaunchKey launch))
                   (cachedLaunches (exec refreshLaunchConfigurations w))
                   cached →
       debug_starts (trace (exec executeLaunch w))
       = (folder cached, configuration cached) :: debug_starts (trace w)).
Proof.
  split; [|split; [|split; [|split]]];
    [| | | apply executeTask_runs_selected
         | apply executeLaunch_starts_selected].
  - intros w task w2 Hsel. cbn zeta. rewrite executeTask_split. fold w2.
    destruct (runSelectedTask_executes w2 task Hsel) as [Hexec Hdebug].
    destruct (ensureTaskSelected_runs w) as [He Hd]. fold w2 in He, Hd.
    rewrite Hexec, Hdebug, He, Hd. split; [done|]. split; [done|].
    apply freshTask_of_spec.
  - intros w launch w2 Hsel. cbn zeta. rewrite executeLaunch_split. fold w2.
    destruct (runSelectedLaunch_starts w2 launch Hsel) as [Hdebug Hexec].
    destruct (ensureLaunchSelected_runs w) as [He Hd]. fold w2 in He, Hd.
    rewrite Hexec, Hdebug, He, Hd. split; [done|]. split; [done|].
    apply freshLaunch_of_spec.
  - intros w.
    exact (conj (refreshTasks_runs w)
             (conj (selectTask_runs w)
                (conj (refreshLaunchConfigurations_runs w)
                   (selectLaunch_runs w)))).
Qed.


(** *** Failures *)

Lemma refreshTasks_rejected (w : World) :
  host_fetchTasks host (clock w) = Rejected →
  let w' := exec refreshTasks w in
  cachedTasks w' = []
  ∧ trace w'
    = EUpdateTaskStatusBar
      :: (if truthy (selectedTaskKey w)
          then [EStateUpdate "task-bus:selectedTaskKey" None] else [])
      ++ [EConsoleError "[Task Bus] Failed to fetch tasks"; EFetchTasks]
      ++ trace w
  ∧ (task_key_mirrored w →
     selectedTask w' = None
     ∧ selectedTaskKey w' = None
     ∧ state w' !! "task-bus:selectedTaskKey" = None).
Proof.
  destruct w. unfold task_key_mirrored. cbn. intros Hfetch.
  unfold refreshTasks. split_run; simplify_eq;
    rewrite ?lookup_delete_eq; repeat split; try done;
    match goal with
    | H : _ ∧ (false = false → _) |- _ =>
        destruct H as [Hstored Hfalsy]; destruct (Hfalsy eq_refl); congruence
    end.
Qed.

(** C3.  Errors are handled by logging and clearing the selection, and in no
    other way.  When the host's [executeTask] rejects, [executeTask] logs,
    tells the user, clears the selected task, its key and the persisted key,
    and updates the bar: these five events and no second attempt.  The same
    holds for [executeLaunch] and [startDebugging].  When [fetchTasks]
    rejects, [refreshTasks] logs, empties the cache, and the revalidation
    that follows clears a selection whose key was persisted; [fetchTasks] is
    called once. *)
Theorem errors_log_and_clear_selection :
  (∀ w task,
     let w2 := exec ensureTaskSelected w in
     selectedTask w2 = Some task →
     host_executeTask host (clock w2) (freshTask_of w2 task) = Rejected →
     let w' := exec executeTask w in
     selectedTask w' = None
     ∧ selectedTaskKey w' = None
     ∧ state w' !! "task-bus:selectedTaskKey" = None
     ∧ text (taskSelectorItem w') = "$(list-selection) Select Task"
     ∧ trace w' = task_failure_events (freshTask_of w2 task) ++ trace w2
     ∧ executions (trace w')
       = freshTask_of w2 task :: executions (trace w))
  ∧ (∀ w launch,
       let w2 := exec ensureLaunchSelected w in
       selectedLaunch w2 = Some launch →
       host_startDebugging host (clock w2)
         (folder (freshLaunch_of w2 launch))
         (configuration (freshLaunch_of w2 launch)) = Rejected →
       let w' := exec executeLaunch w in
       selectedLaunch w' = None
       ∧ selectedLaunchKey w' = None
       ∧ state w' !! "task-bus:selectedLaunchKey" = None
       ∧ text (launchSelectorItem w') = "$(debug-alt) Select Launch"
       ∧ trace w' = launch_failure_events (freshLaunch_of w2 launch) ++ trace w2
       ∧ debug_starts (trace w')
         = (folder (freshLaunch_of w2 launch),
            configuration (freshLaunch_of w2 launch))
           :: debug_starts (trace w))
  ∧ (∀ w,
       host_fetchTasks host (clock w) = Rejected →
       let w' := exec refreshTasks w in
       cachedTasks w' = []
       ∧ EConsoleError "[Task Bus] Failed to fetch tasks" ∈ trace w'
       ∧ fetches (trace w') = S (fetches (trace w))
       ∧ (task_key_mirrored w →
          selectedTask w' = None
          ∧ selectedTaskKey w' = None
          ∧ state w' !! "task-bus:selectedTaskKey" = None)).
Proof.
  split; [|split].
  - intros w task w2 Hsel Hrun. cbn zeta. rewrite executeTask_split. fold w2.
    destruct (runSelectedTask_rejected w2 task Hsel Hrun)
      as (Htrace & Hs & Hk & Hstate & _ & _ & Hshown).
    unfold task_shown in Hshown. rewrite Hs in Hshown.
    destruct (ensureTaskSelected_runs w) as [He _]. fold w2 in He.
    destruct (runSelectedTask_executes w2 task Hsel) as [Hexec _].
    by rewrite Hstate, lookup_delete_eq, Hexec, He.
  - intros w launch w2 Hsel Hrun. cbn zeta. rewrite executeLaunch_split.
    fold w2.
    destruct (runSelectedLaunch_rejected w2 launch Hsel Hrun)
      as (Htrace & Hs & Hk & Hstate & _ & _ & Hshown).
    unfold launch_shown in Hshown. rewrite Hs in Hshown.
    destruct (ensureLaunchSelected_runs w) as [_ Hd]. fold w2 in Hd.
    destruct (runSelectedLaunch_starts w2 launch Hsel) as [Hstart _].
    by rewrite Hstate, lookup_delete_eq, Hstart, Hd.
  - intros w Hfetch. cbn zeta.
    destruct (refreshTasks_rejected w Hfetch) as (Hcache & Htrace & Hclear).
    destruct (refreshTasks_trace w) as (_ & _ & Hfetches & _).
    split; [done|]. split; [|by split]. rewrite Htrace.
    destruct (truthy (selectedTaskKey w)); cbn;
      repeat first [apply list_elem_of_here | apply list_elem_of_further].
Qed.

(** *** The bar after each command *)

Lemma pickTask_shown (w : World) : task_shown w → task_shown (exec pickTask w).
Proof.
  destruct w. unfold task_shown, pickTask. cbn. intros H. split_run; done.
Qed.

Lemma pickLaunch_shown (w : World) :
  launch_shown w → launch_shown (exec pickLaunch w).
Proof.
  destruct w. unfold launch_shown, pickLaunch. cbn. intros H. split_run; done.
Qed.

Lemma runSelectedTask_shown (w : World) :
  task_shown w → task_shown (exec runSelectedTask w).
Proof.
  destruct w. unfold task_shown, runSelectedTask. cbn. intros H.
  split_run; done.
Qed.

Lemma runSelectedLaunch_shown (w : World) :
  launch_shown w → launch_shown (exec runSelectedLaunch w).
Proof.
  destruct w. unfold launch_shown, runSelectedLaunch. cbn. intros H.
  split_run; done.
Qed.

Lemma refreshTasks_shown (w : World) : task_shown (exec refreshTasks w).
Proof. apply refreshTasks_trace. Qed.

Lemma refreshLaunchConfigurations_shown (w : World) :
  launch_shown (exec refreshLaunchConfigurations w).
Proof. apply refreshLaunchConfigurations_trace. Qed.

Lemma selectTask_shown (w : World) : task_shown (exec selectTask w).
Proof. rewrite selectTask_split. apply pickTask_shown, refreshTasks_shown. Qed.

Lemma selectLaunch_shown (w : World) : launch_shown (exec selectLaunch w).
Proof.
  rewrite selectLaunch_split.
  apply pickLaunch_shown, refreshLaunchConfigurations_shown.
Qed.

Lemma executeTask_shown (w : World) : task_shown (exec executeTask w).
Proof.
  rewrite executeTask_split, ensureTaskSelected_split.
  apply runSelectedTask_shown. destruct (selectedTask _).
  - apply refreshTasks_shown.
  - apply selectTask_shown.
Qed.

Lemma executeLaunch_shown (w : World) : launch_shown (exec executeLaunch w).
Proof.
  rewrite executeLaunch_split, ensureLaunchSelected_split.
  apply runSelectedLaunch_shown. destruct (selectedLaunch _).
  - apply refreshLaunchConfigurations_shown.
  - apply selectLaunch_shown.
Qed.

(** A cached launch has a string for a name, and that is what is shown. *)
Lemma cached_launch_name (n : nat) (launch : LaunchSelection) :
  launch ∈ collectLaunches n →
  ∃ name, prop "name" (configuration launch) = Some (JStr name)
          ∧ template (prop "name" (configuration launch)) = name.
Proof.
  rewrite collectLaunches_spec. unfold launches_of.
  rewrite list_elem_of_In, in_app_iff, in_flat_map.
  assert (∀ f cs, In launch
            (List.map (λ c, {| folder := f; configuration := c |})
               (List.filter has_string_name cs)) →
          has_string_name (configuration launch) = true) as Hnamed.
  { intros f cs (c & <- & Hc%filter_In)%in_map_iff. apply Hc. }
  intros [(f & _ & Hin) | Hin]; apply Hnamed in Hin;
    unfold has_string_name in Hin;
    destruct (prop "name" (configuration launch)) as [[]|]; try done;
    by eexists.
Qed.

(** C7.  After each command that changes the selection or a cache, the bar
    shows the current selection: the selector's text carries the selected
    item's name, or the placeholder when nothing is selected.  Both
    refreshes, a completed pick, and the error path of both run commands end
    with the update of the bar. *)
Theorem status_bar_follows_selection :
  (∀ w,
     task_shown (exec refreshTasks w)
     ∧ head (trace (exec refreshTasks w)) = Some EUpdateTaskStatusBar
     ∧ launch_shown (exec refreshLaunchConfigurations w)
     ∧ head (trace (exec refreshLaunchConfigurations w))
       = Some EUpdateLaunchStatusBar
     ∧ task_shown (exec selectTask w)
     ∧ task_shown (exec executeTask w)
     ∧ launch_shown (exec selectLaunch w)
     ∧ launch_shown (exec executeLaunch w))
  ∧ (∀ w item,
       let w1 := exec refreshTasks w in
       cachedTasks w1 ≠ [] →
       host_pickTask host (clock w1) (List.map taskPick (cachedTasks w1))
         = Some item →
       let w' := exec selectTask w in
       selectedTask w' = Some (tp_task item)
       ∧ text (taskSelectorItem w')
         = "$(list-selection) " +:+ task_name (tp_task item)
       ∧ head (trace w') = Some EUpdateTaskStatusBar)
  ∧ (∀ w item,
       let w1 := exec refreshLaunchConfigurations w in
       cachedLaunches w1 ≠ [] →
       host_pickLaunch host (clock w1)
         (List.map launchPick (cachedLaunches w1)) = Some item →
       let w' := exec selectLaunch w in
       selectedLaunch w' = Some (lp_launch item)
       ∧ text (launchSelectorItem w')
         = "$(debug-alt) "
           +:+ template (prop "name" (configuration (lp_launch item)))
       ∧ head (trace w') = Some EUpdateLaunchStatusBar)
  ∧ (∀ w task,
       let w2 := exec ensureTaskSelected w in
       selectedTask w2 = Some task →
       host_executeTask host (clock w2) (freshTask_of w2 task) = Rejected →
       let w' := exec executeTask w in
       selectedTask w' = None
       ∧ text (taskSelectorItem w') = "$(list-selection) Select Task"
       ∧ head (trace w') = Some EUpdateTaskStatusBar)
  ∧ (∀ w launch,
       let w2 := exec ensureLaunchSelected w in
       selectedLaunch w2 = Some launch →
       host_startDebugging host (clock w2)
         (folder (freshLaunch_of w2 launch))
         (configuration (freshLaunch_of w2 launch)) = Rejected →
       let w' := exec executeLaunch w in
       selectedLaunch w' = None
       ∧ text (launchSelectorItem w') = "$(debug-alt) Select Launch"
       ∧ head (trace w') = Some EUpdateLaunchStatusBar)
  ∧ (∀ w launch,
       launch ∈ cachedLaunches (exec refreshLaunchConfigurations w) →
       ∃ name, prop "name" (configuration launch) = Some (JStr name)
               ∧ template (prop "name" (configuration launch)) = name).
Proof.
  split; [|split; [|split; [|split; [|split]]]].
  - intros w.
    destruct (refreshTasks_trace w) as (_ & _ & _ & Hhead & Hshown).
    destruct (refreshLaunchConfigurations_trace w)
      as (_ & _ & _ & Hhead' & Hshown').
    exact (conj Hshown (conj Hhead (conj Hshown' (conj Hhead'
             (conj (selectTask_shown w) (conj (executeTask_shown w)
                (conj (selectLaunch_shown w) (executeLaunch_shown w)))))))).
  - intros w item w1 Hne Hpick. cbn zeta. rewrite selectTask_split. fold w1.
    destruct (pickTask_picked w1 item Hne Hpick)
      as (Hsel & _ & _ & Hshown & Hhead).
    unfold task_shown in Hshown. by rewrite Hsel in Hshown.
  - intros w item w1 Hne Hpick. cbn zeta. rewrite selectLaunch_split. fold w1.
    destruct (pickLaunch_picked w1 item Hne Hpick)
      as (Hsel & _ & _ & Hshown & Hhead).
    unfold launch_shown in Hshown. by rewrite Hsel in Hshown.
  - intros w task w2 Hsel Hrun. cbn zeta. rewrite executeTask_split. fold w2.
    destruct (runSelectedTask_rejected w2 task Hsel Hrun)
      as (Htrace & Hs & _ & _ & _ & _ & Hshown).
    unfold task_shown in Hshown. rewrite Hs in Hshown. by rewrite Htrace.
  - intros w launch w2 Hsel Hrun. cbn zeta. rewrite executeLaunch_split.
    fold w2.
    destruct (runSelectedLaunch_rejected w2 launch Hsel Hrun)
      as (Htrace & Hs & _ & _ & _ & _ & Hshown).
    unfold launch_shown in Hshown. rewrite Hs in Hshown. by rewrite Htrace.
  - intros w launch. rewrite cachedLaunches_refreshLaunchConfigurations.
    apply cached_launch_name.
Qed.


(** *** Running with nothing selected *)

Lemma refreshTasks_unselected (w : World) :
  truthy (selectedTaskKey w) = false → same_selection w (exec refreshTasks w).
Proof.
  intros Hkey. destruct (refreshTasks_idle w Hkey) as (? & ? & ?).
  destruct (refreshTasks_launch_side w) as (_ & ? & ? & _). by repeat split.
Qed.

Lemma refreshLaunchConfigurations_unselected (w : World) :
  truthy (selectedLaunchKey w) = false →
  same_selection w (exec refreshLaunchConfigurations w).
Proof.
  intros Hkey. destruct (refreshLaunchConfigurations_idle w Hkey) as (? & ? & ?).
  destruct (refreshLaunchConfigurations_task_side w) as (_ & ? & ? & _).
  by repeat split.
Qed.

Lemma Inv_unselected_task (w : World) :
  Inv w → selectedTask w = None → selectedTaskKey w = None.
Proof.
  intros [(Hiff & _) _] Hsel. destruct (selectedTaskKey w); [|done].
  destruct (proj2 Hiff) as [? ?]; [by eexists | congruence].
Qed.

Lemma Inv_unselected_launch (w : World) :
  Inv w → selectedLaunch w = None → selectedLaunchKey w = None.
Proof.
  intros [_ (Hiff & _)] Hsel. destruct (selectedLaunchKey w); [|done].
  destruct (proj2 Hiff) as [? ?]; [by eexists | congruence].
Qed.

(** C10.  Invoked with nothing selected, [executeTask] refreshes and goes
    through [selectTask]; if the cache is then empty (the user is told so) or
    the user dismisses the picker, the command ends there: the host's
    [executeTask] is not called, and the selections, their keys and the
    workspace state are as before.  Likewise for [executeLaunch]. *)
Theorem run_without_selection :
  (∀ w,
     Inv w → selectedTask w = None →
     let w1 := exec refreshTasks w in
     let w2 := exec refreshTasks w1 in
     cachedTasks w2 = []
     ∨ host_pickTask host (clock w2) (List.map taskPick (cachedTasks w2))
       = None →
     let w' := exec executeTask w in
     w' = exec selectTask w1
     ∧ trace w'
       = (match cachedTasks w2 with
          | [] => EShowInformationMessage
                    "Task Bus did not find any tasks in tasks.json."
          | _ => EShowQuickPickTasks (List.map taskPick (cachedTasks w2))
          end) :: trace w2
     ∧ same_runs w w'
     ∧ same_selection w w'
     ∧ selectedTask w' = None)
  ∧ (∀ w,
       Inv w → selectedLaunch w = None →
       let w1 := exec refreshLaunchConfigurations w in
       let w2 := exec refreshLaunchConfigurations w1 in
       cachedLaunches w2 = []
       ∨ host_pickLaunch host (clock w2)
           (List.map launchPick (cachedLaunches w2)) = None →
       let w' := exec executeLaunch w in
       w' = exec selectLaunch w1
       ∧ trace w'
         = (match cachedLaunches w2 with
            | [] => EShowInformationMessage
                      "Task Bus did not find any launch configurations in launch.json."
            | _ => EShowQuickPickLaunches
                     (List.map launchPick (cachedLaunches w2))
            end) :: trace w2
       ∧ same_runs w w'
       ∧ same_selection w w'
       ∧ selectedLaunch w' = None).
Proof.
  split.
  - intros w HInv Hsel w1 w2 Hor. cbn zeta.
    pose proof (Inv_unselected_task w HInv Hsel) as Hkey.
    assert (same_selection w w1) as H1.
    { apply refreshTasks_unselected. by rewrite Hkey. }
    assert (same_selection w1 w2) as H2.
    { apply refreshTasks_unselected. destruct H1 as (_ & -> & _).
      by rewrite Hkey. }
    destruct (pickTask_dismissed w2 Hor) as [H3 Htrace].
    pose proof (same_selection_trans _ _ _ H1
                  (same_selection_trans _ _ _ H2 H3)) as Hsame.
    assert (selectedTask w1 = None) as Hsel1.
    { destruct H1 as (-> & _). done. }
    assert (exec executeTask w = exec pickTask w2) as Hrun.
    { rewrite executeTask_split, ensureTaskSelected_split. fold w1.
      rewrite Hsel1, selectTask_split. fold w2.
      apply runSelectedTask_none. destruct Hsame as (-> & _). done. }
    rewrite Hrun, selectTask_split. fold w2. split; [done|]. split; [done|].
    split; [|split; [done|]].
    + eapply same_runs_trans; [apply refreshTasks_runs|]. fold w1.
      eapply same_runs_trans; [apply refreshTasks_runs|]. fold w2.
      apply pickTask_runs.
    + destruct Hsame as (-> & _). done.
  - intros w HInv Hsel w1 w2 Hor. cbn zeta.
    pose proof (Inv_unselected_launch w HInv Hsel) as Hkey.
    assert (same_selection w w1) as H1.
    { apply refreshLaunchConfigurations_unselected. by rewrite Hkey. }
    assert (same_selection w1 w2) as H2.
    { apply refreshLaunchConfigurations_unselected.
      destruct H1 as (_ & _ & _ & -> & _). by rewrite Hkey. }
    destruct (pickLaunch_dismissed w2 Hor) as [H3 Htrace].
    pose proof (same_selection_trans _ _ _ H1
                  (same_selection_trans _ _ _ H2 H3)) as Hsame.
    assert (selectedLaunch w1 = None) as Hsel1.
    { destruct H1 as (_ & _ & -> & _). done. }
    assert (exec executeLaunch w = exec pickLaunch w2) as Hrun.
    { rewrite executeLaunch_split, ensureLaunchSelected_split. fold w1.
      rewrite Hsel1, selectLaunch_split. fold w2.
      apply runSelectedLaunch_none. destruct Hsame as (_ & _ & -> & _). done. }
    rewrite Hrun, selectLaunch_split. fold w2. split; [done|]. split; [done|].
    split; [|split; [done|]].
    + eapply same_runs_trans; [apply refreshLaunchConfigurations_runs|].
      fold w1.
      eapply same_runs_trans; [apply refreshLaunchConfigurations_runs|].
      fold w2. apply pickLaunch_runs.
    + destruct Hsame as (_ & _ & -> & _). done.
Qed.

(** *** What each notification sets off *)

Lemma refreshTasks_refreshes : refreshes_tasks refreshTasks.
Proof.
  intros w. split; [apply cachedTasks_refreshTasks | apply refreshTasks_trace].
Qed.

(** C6, as the code has it.  A configuration-change event never
    re-enumerates: when it affects [task-bus.showTaskBus] or
    [task-bus.showLaunchBus] the listener re-applies the visibility settings
    and nothing else, and otherwise it does nothing; both caches, the
    selections, the workspace state and the trace (so no fetch) are as
    before.  Re-enumeration is set off by the watchers: a change, creation or
    deletion of tasks.json and a change of workspace folders refresh the
    tasks, and a change, creation or deletion of launch.json refreshes the
    launch configurations. *)
Theorem configuration_change_keeps_caches :
  (∀ affectsConfiguration w,
     let w' := exec (handle (ConfigurationChanged affectsConfiguration)) w in
     w' = (if affectsConfiguration "task-bus.showTaskBus"
              || affectsConfiguration "task-bus.showLaunchBus"
           then exec applyVisibilitySettings w else w)
     ∧ cachedTasks w' = cachedTasks w
     ∧ cachedLaunches w' = cachedLaunches w
     ∧ same_selection w w'
     ∧ trace w' = trace w)
  ∧ refreshes_tasks (handle TasksJsonChanged)
  ∧ refreshes_tasks (handle TasksJsonCreated)
  ∧ refreshes_tasks (handle TasksJsonDeleted)
  ∧ refreshes_tasks (handle WorkspaceFoldersChanged)
  ∧ refreshes_launches (handle LaunchJsonChanged)
  ∧ refreshes_launches (handle LaunchJsonCreated)
  ∧ refreshes_launches (handle LaunchJsonDeleted).
Proof.
  split.
  - intros affects w. cbn zeta. unfold handle.
    destruct (affects "task-bus.showTaskBus"
              || affects "task-bus.showLaunchBus").
    + destruct (applyVisibilitySettings_frame w) as (? & ? & ? & ? & _).
      by repeat split.
    + by repeat split.
  - repeat split;
      first [ apply refreshTasks_refreshes
            | intros w; apply cachedLaunches_refreshLaunchConfigurations ].
Qed.


(** ** Further properties *)

(** *** The two sides do not interfere *)

Lemma same_launch_side_trans (w1 w2 w3 : World) :
  same_launch_side w1 w2 → same_launch_side w2 w3 → same_launch_side w1 w3.
Proof.
  unfold same_launch_side.
  intros (<- & <- & <- & <- & <- & <- & <-) (<- & <- & <- & <- & <- & <- & <-).
  done.
Qed.

Lemma same_task_side_trans (w1 w2 w3 : World) :
  same_task_side w1 w2 → same_task_side w2 w3 → same_task_side w1 w3.
Proof.
  unfold same_task_side.
  intros (<- & <- & <- & <- & <- & <- & <- & <-)
         (<- & <- & <- & <- & <- & <- & <- & <-).
  done.
Qed.

Lemma refreshTasks_same_launch_side (w : World) :
  same_launch_side w (exec refreshTasks w).
Proof.
  destruct w. unfold refreshTasks, same_launch_side. split_run;
    rewrite ?lookup_delete_ne by done; done.
Qed.

Lemma pickTask_same_launch_side (w : World) :
  same_launch_side w (exec pickTask w).
Proof.
  destruct w. unfold pickTask, same_launch_side. split_run;
    rewrite ?lookup_insert_ne by done; done.
Qed.

Lemma runSelectedTask_same_launch_side (w : World) :
  same_launch_side w (exec runSelectedTask w).
Proof.
  destruct w. unfold runSelectedTask, same_launch_side. split_run;
    rewrite ?lookup_delete_ne by done; done.
Qed.

Lemma refreshLaunchConfigurations_same_task_side (w : World) :
  same_task_side w (exec refreshLaunchConfigurations w).
Proof.
  destruct w. unfold refreshLaunchConfigurations, same_task_side. split_run;
    rewrite ?lookup_delete_ne by done; done.
Qed.

Lemma pickLaunch_same_task_side (w : World) :
  same_task_side w (exec pickLaunch w).
Proof.
  destruct w. unfold pickLaunch, same_task_side. split_run;
    rewrite ?lookup_insert_ne by done; done.
Qed.

Lemma runSelectedLaunch_same_task_side (w : World) :
  same_task_side w (exec runSelectedLaunch w).
Proof.
  destruct w. unfold runSelectedLaunch, same_task_side. split_run;
    rewrite ?lookup_delete_ne by done; done.
Qed.

Lemma selectTask_same_launch_side (w : World) :
  same_launch_side w (exec selectTask w).
Proof.
  rewrite selectTask_split. eapply same_launch_side_trans;
    [apply refreshTasks_same_launch_side | apply pickTask_same_launch_side].
Qed.

Lemma selectLaunch_same_task_side (w : World) :
  same_task_side w (exec selectLaunch w).
Proof.
  rewrite selectLaunch_split. eapply same_task_side_trans;
    [apply refreshLaunchConfigurations_same_task_side
    | apply pickLaunch_same_task_side].
Qed.

Lemma executeTask_same_launch_side (w : World) :
  same_launch_side w (exec executeTask w).
Proof.
  rewrite executeTask_split, ensureTaskSelected_split.
  eapply same_launch_side_trans; [|apply runSelectedTask_same_launch_side].
  destruct (selectedTask _).
  - apply refreshTasks_same_launch_side.
  - eapply same_launch_side_trans;
      [apply refreshTasks_same_launch_side | apply selectTask_same_launch_side].
Qed.

Lemma executeLaunch_same_task_side (w : World) :
  same_task_side w (exec executeLaunch w).
Proof.
  rewrite executeLaunch_split, ensureLaunchSelected_split.
  eapply same_task_side_trans; [|apply runSelectedLaunch_same_task_side].
  destruct (selectedLaunch _).
  - apply refreshLaunchConfigurations_same_task_side.
  - eapply same_task_side_trans;
      [apply refreshLaunchConfigurations_same_task_side
      | apply selectLaunch_same_task_side].
Qed.

(** X1.  The task commands never touch the launch side, and the launch
    commands never touch the task side: the other side's cache, selection,
    key, persisted key and two status-bar items are as before, a task command
    starts no debug session, and a launch command runs no task and does not
    call [fetchTasks]. *)
Theorem sides_do_not_interfere (w : World) :
  same_launch_side w (exec refreshTasks w)
  ∧ same_launch_side w (exec selectTask w)
  ∧ same_launch_side w (exec executeTask w)
  ∧ same_task_side w (exec refreshLaunchConfigurations w)
  ∧ same_task_side w (exec selectLaunch w)
  ∧ same_task_side w (exec executeLaunch w).
Proof.
  exact (conj (refreshTasks_same_launch_side w)
          (conj (selectTask_same_launch_side w)
             (conj (executeTask_same_launch_side w)
                (conj (refreshLaunchConfigurations_same_task_side w)
                   (conj (selectLaunch_same_task_side w)
                      (executeLaunch_same_task_side w)))))).
Qed.

(** *** The whole bar *)

Lemma refreshTasks_rendered (w : World) :
  task_bar_rendered (exec refreshTasks w).
Proof. destruct w. unfold refreshTasks, task_bar_rendered. split_run; done. Qed.

Lemma refreshLaunchConfigurations_rendered (w : World) :
  launch_bar_rendered (exec refreshLaunchConfigurations w).
Proof.
  destruct w. unfold refreshLaunchConfigurations, launch_bar_rendered.
  split_run; done.
Qed.










(** *** Refreshing again *)

(** A refresh leaves a world it has nothing to add to as it is. *)
Lemma refreshTasks_settled (w : World) :
  cachedTasks w = tasks_of (clock w) →
  (truthy (selectedTaskKey w) = true →
   selectedTask w
   = List.find (λ task, String.eqb (getTaskKey task)
                          (default "" (selectedTaskKey w)))
               (cachedTasks w)
   ∧ is_Some (selectedTask w)) →
  task_bar_rendered w →
  forget (exec refreshTasks w) = forget w.
Proof.
  destruct w as [[] [] ? ? ? ? selected key ? ? ? ? ?].
  unfold tasks_of, task_bar_rendered, refreshTasks, forget.
  cbn [cachedTasks clock selectedTaskKey selectedTask taskSelectorItem
       taskRunnerItem text tooltip command].
  intros Hcache Hkey Hbar. split_run.
  all: subst.
  all: try match goal with
           | H : true = true → _ |- _ =>
               destruct (H eq_refl) as [Hs Hsome]; clear H
           end.
  all: try match goal with
           | H : List.find _ _ = _, Hs : _ = List.find _ _ |- _ =>
               rewrite H in Hs
           end.
  all: subst; try (by destruct Hsome as [? [=]]).
  all: repeat match goal with H : _ ∧ _ |- _ => destruct H end; subst;
    reflexivity.
Qed.

Lemma refreshLaunchConfigurations_settled (w : World) :
  cachedLaunches w = collectLaunches (clock w) →
  (truthy (selectedLaunchKey w) = true →
   selectedLaunch w
   = List.find (λ launch, String.eqb (getLaunchKey launch)
                            (default "" (selectedLaunchKey w)))
               (cachedLaunches w)
   ∧ is_Some (selectedLaunch w)) →
  launch_bar_rendered w →
  forget (exec refreshLaunchConfigurations w) = forget w.
Proof.
  destruct w as [? ? [] [] ? ? ? ? selected key ? ? ?].
  unfold launch_bar_rendered, refreshLaunchConfigurations, forget.
  cbn [cachedLaunches clock selectedLaunchKey selectedLaunch
       launchSelectorItem launchRunnerItem text tooltip command].
  intros Hcache Hkey Hbar. split_run.
  all: subst.
  all: try match goal with
           | H : true = true → _ |- _ =>
               destruct (H eq_refl) as [Hs Hsome]; clear H
           end.
  all: try match goal with
           | H : List.find _ _ = _, Hs : _ = List.find _ _ |- _ =>
               rewrite H in Hs
           end.
  all: subst; try (by destruct Hsome as [? [=]]).
  all: cbn zeta in *;
    repeat match goal with H : _ ∧ _ |- _ => destruct H end; subst;
    reflexivity.
Qed.

(** After a refresh, a key that is still there has its selection. *)
Lemma refreshTasks_key_kept (w : World) :
  let w' := exec refreshTasks w in
  truthy (selectedTaskKey w') = true →
  selectedTask w'
  = List.find (λ task, String.eqb (getTaskKey task)
                         (default "" (selectedTaskKey w')))
              (cachedTasks w')
  ∧ is_Some (selectedTask w').
Proof.
  destruct w. unfold refreshTasks. split_run; intros Hk;
    try discriminate; try congruence; by eauto.
Qed.

Lemma refreshLaunchConfigurations_key_kept (w : World) :
  let w' := exec refreshLaunchConfigurations w in
  truthy (selectedLaunchKey w') = true →
  selectedLaunch w'
  = List.find (λ launch, String.eqb (getLaunchKey launch)
                           (default "" (selectedLaunchKey w')))
              (cachedLaunches w')
  ∧ is_Some (selectedLaunch w').
Proof.
  destruct w. unfold refreshLaunchConfigurations. split_run; intros Hk;
    try discriminate; try congruence; by eauto.
Qed.

(** X3.  Refreshing is idempotent: when the host enumerates the same tasks
    (resp. the same launch configurations) as at the previous refresh, a
    second refresh changes nothing but the history: caches, selections,
    keys, workspace state and all four items are as the first refresh left
    them. *)
Theorem refresh_is_idempotent :
  (∀ w,
     let w1 := exec refreshTasks w in
     host_fetchTasks host (clock w1) = host_fetchTasks host (clock w) →
     forget (exec refreshTasks w1) = forget w1)
  ∧ (∀ w,
       let w1 := exec refreshLaunchConfigurations w in
       collectLaunches (clock w1) = collectLaunches (clock w) →
       forget (exec refreshLaunchConfigurations w1) = forget w1).
Proof.
  split; intros w w1 Hsame.
  - apply refreshTasks_settled.
    + unfold w1 at 1. rewrite cachedTasks_refreshTasks. unfold tasks_of.
      by rewrite Hsame.
    + apply refreshTasks_key_kept.
    + apply refreshTasks_rendered.
  - apply refreshLaunchConfigurations_settled.
    + unfold w1 at 1. by rewrite cachedLaunches_refreshLaunchConfigurations.
    + apply refreshLaunchConfigurations_key_kept.
    + apply refreshLaunchConfigurations_rendered.
Qed.

(** *** Commands that end early *)

Lemma pickTask_nothing_picked (w : World) :
  exec pickTask w
  = match cachedTasks w with
    | [] =>
        set_trace
          (EShowInformationMessage
             "Task Bus did not find any tasks in tasks.json." :: trace w) w
    | _ =>
        match host_pickTask host (clock w)
                (List.map taskPick (cachedTasks w)) with
        | None =>
            set_clock (S (clock w))
              (set_trace
                 (EShowQuickPickTasks (List.map taskPick (cachedTasks w))
                    :: trace w) w)
        | Some _ => exec pickTask w
        end
    end.
Proof.
  destruct w as [? ? ? ? cache ? ? ? ? ? ? ? ?]. cbn [cachedTasks clock].
  destruct cache as [|t cache]; [reflexivity|].
  destruct (host_pickTask _ _ _) eqn:Hpick; [reflexivity|].
  unfold pickTask. run. cbn [length Nat.eqb]. run. by rewrite Hpick.
Qed.

Lemma pickLaunch_nothing_picked (w : World) :
  exec pickLaunch w
  = match cachedLaunches w with
    | [] =>
        set_trace
          (EShowInformationMessage
             "Task Bus did not find any launch configurations in launch.json."
             :: trace w) w
    | _ =>
        match host_pickLaunch host (clock w)
                (List.map launchPick (cachedLaunches w)) with
        | None =>
            set_clock (S (clock w))
              (set_trace
                 (EShowQuickPickLaunches
                    (List.map launchPick (cachedLaunches w)) :: trace w) w)
        | Some _ => exec pickLaunch w
        end
    end.
Proof.
  destruct w as [? ? ? ? ? cache ? ? ? ? ? ? ?]. cbn [cachedLaunches clock].
  destruct cache as [|l cache]; [reflexivity|].
  destruct (host_pickLaunch _ _ _) eqn:Hpick; [reflexivity|].
  unfold pickLaunch. run. cbn [length Nat.eqb]. run. by rewrite Hpick.
Qed.

(** X4.  A selection command that ends without a pick is a refresh and
    nothing more.  With an empty cache it adds the information message and
    opens no picker; with a dismissed picker it adds the prompt; in both
    cases every variable is as the refresh left it, so a selection that
    survived the refresh is kept. *)
Theorem select_without_pick_is_a_refresh :
  (∀ w,
     let w1 := exec refreshTasks w in
     cachedTasks w1 = [] →
     exec selectTask w
     = set_trace
         (EShowInformationMessage
            "Task Bus did not find any tasks in tasks.json." :: trace w1) w1)
  ∧ (∀ w,
       let w1 := exec refreshTasks w in
       cachedTasks w1 ≠ [] →
       host_pickTask host (clock w1) (List.map taskPick (cachedTasks w1))
         = None →
       exec selectTask w
       = set_clock (S (clock w1))
           (set_trace
              (EShowQuickPickTasks (List.map taskPick (cachedTasks w1))
                 :: trace w1) w1))
  ∧ (∀ w,
       let w1 := exec refreshLaunchConfigurations w in
       cachedLaunches w1 = [] →
       exec selectLaunch w
       = set_trace
           (EShowInformationMessage
              "Task Bus did not find any launch configurations in launch.json."
              :: trace w1) w1)
  ∧ (∀ w,
       let w1 := exec refreshLaunchConfigurations w in
       cachedLaunches w1 ≠ [] →
       host_pickLaunch host (clock w1)
         (List.map launchPick (cachedLaunches w1)) = None →
       exec selectLaunch w
       = set_clock (S (clock w1))
           (set_trace
              (EShowQuickPickLaunches
                 (List.map launchPick (cachedLaunches w1)) :: trace w1) w1)).
Proof.
  split; [|split; [|split]].
  - intros w w1 Hempty. rewrite selectTask_split. fold w1.
    rewrite pickTask_nothing_picked. by rewrite Hempty.
  - intros w w1 Hne Hpick. rewrite selectTask_split. fold w1.
    rewrite pickTask_nothing_picked, Hpick. by destruct (cachedTasks w1).
  - intros w w1 Hempty. rewrite selectLaunch_split. fold w1.
    rewrite pickLaunch_nothing_picked. by rewrite Hempty.
  - intros w w1 Hne Hpick. rewrite selectLaunch_split. fold w1.
    rewrite pickLaunch_nothing_picked, Hpick. by destruct (cachedLaunches w1).
Qed.

(** *** Runs that succeed *)

Lemma runSelectedTask_resolved_exact (w : World) (task : Task) (a : unit) :
  selectedTask w = Some task →
  host_executeTask host (clock w) (freshTask_of w task) = Resolved a →
  exec runSelectedTask w
  = set_clock (S (clock w))
      (set_trace (EExecuteTask (freshTask_of w task) :: trace w) w).
Proof.
  destruct w. cbn. unfold freshTask_of, runSelectedTask.
  cbn [cachedTasks]. intros -> Hrun. run. by rewrite Hrun.
Qed.

Lemma runSelectedLaunch_resolved_exact (w : World) (launch : LaunchSelection)
    (started : bool) :
  selectedLaunch w = Some launch →
  host_startDebugging host (clock w) (folder (freshLaunch_of w launch))
    (configuration (freshLaunch_of w launch)) = Resolved started →
  exec runSelectedLaunch w
  = set_clock (S (clock w))
      (set_trace
         (EStartDebugging (folder (freshLaunch_of w launch))
            (configuration (freshLaunch_of w launch)) :: trace w) w).
Proof.
  destruct w. cbn. unfold freshLaunch_of, runSelectedLaunch.
  cbn [cachedLaunches]. intros -> Hrun. run. by rewrite Hrun.
Qed.

(** X5.  A run that the host accepts leaves every variable as it was once
    the selection was settled: only the one call is added to the history.
    [executeLaunch] does not look at what [startDebugging] resolves to, so a
    session that the host reports as not started ([false]) is treated like
    one that started: the selection stays and no error is shown. *)
Theorem accepted_run_changes_nothing :
  (∀ w task a,
     let w2 := exec ensureTaskSelected w in
     selectedTask w2 = Some task →
     host_executeTask host (clock w2) (freshTask_of w2 task) = Resolved a →
     exec executeTask w
     = set_clock (S (clock w2))
         (set_trace (EExecuteTask (freshTask_of w2 task) :: trace w2) w2))
  ∧ (∀ w launch started,
       let w2 := exec ensureLaunchSelected w in
       selectedLaunch w2 = Some launch →
       host_startDebugging host (clock w2)
         (folder (freshLaunch_of w2 launch))
         (configuration (freshLaunch_of w2 launch)) = Resolved started →
       exec executeLaunch w
       = set_clock (S (clock w2))
           (set_trace
              (EStartDebugging (folder (freshLaunch_of w2 launch))
                 (configuration (freshLaunch_of w2 launch)) :: trace w2)
              w2)).
Proof.
  split.
  - intros w task a w2 Hsel Hrun. rewrite executeTask_split. fold w2.
    by apply runSelectedTask_resolved_exact with a.
  - intros w launch started w2 Hsel Hrun. rewrite executeLaunch_split.
    fold w2. by apply runSelectedLaunch_resolved_exact with started.
Qed.

(** *** The selection is one of the candidates *)

Lemma refreshTasks_selection_cached (w : World) (task : Task) :
  task_key_mirrored w →
  selectedTask (exec refreshTasks w) = Some task →
  task ∈ cachedTasks (exec refreshTasks w).
Proof.
  destruct w. unfold task_key_mirrored, refreshTasks. cbn.
  intros [_ Hfalsy]. split_run; intros Hsel; simplify_eq;
    try (destruct (Hfalsy eq_refl); discriminate);
    match goal with
    | H : List.find _ _ = Some _ |- _ =>
        apply find_some in H; by apply list_elem_of_In, H
    end.
Qed.

Lemma refreshLaunchConfigurations_selection_cached (w : World)
    (launch : LaunchSelection) :
  launch_key_mirrored w →
  selectedLaunch (exec refreshLaunchConfigurations w) = Some launch →
  launch ∈ cachedLaunches (exec refreshLaunchConfigurations w).
Proof.
  destruct w. unfold launch_key_mirrored, refreshLaunchConfigurations. cbn.
  intros [_ Hfalsy]. split_run; intros Hsel; simplify_eq;
    try (destruct (Hfalsy eq_refl); discriminate);
    match goal with
    | H : List.find _ _ = Some _ |- _ =>
        apply find_some in H; by apply list_elem_of_In, H
    end.
Qed.

Lemma pickTask_selection_cached (w : World) (task : Task) :
  honest_pickers →
  (∀ t, selectedTask w = Some t → t ∈ cachedTasks w) →
  selectedTask (exec pickTask w) = Some task →
  task ∈ cachedTasks (exec pickTask w).
Proof.
  destruct w. unfold pickTask. cbn. intros [Hhonest _] Hcached.
  split_run; intros Hsel; simplify_eq; try by apply Hcached.
  match goal with
  | H : host_pickTask _ _ _ = Some _ |- _ => apply Hhonest in H; rename H into Hin
  end.
  apply list_elem_of_In, in_map_iff in Hin. destruct Hin as (t' & <- & Hin).
  by apply list_elem_of_In.
Qed.

Lemma pickLaunch_selection_cached (w : World) (launch : LaunchSelection) :
  honest_pickers →
  (∀ l, selectedLaunch w = Some l → l ∈ cachedLaunches w) →
  selectedLaunch (exec pickLaunch w) = Some launch →
  launch ∈ cachedLaunches (exec pickLaunch w).
Proof.
  destruct w. unfold pickLaunch. cbn. intros [_ Hhonest] Hcached.
  split_run; intros Hsel; simplify_eq; try by apply Hcached.
  match goal with
  | H : host_pickLaunch _ _ _ = Some _ |- _ => apply Hhonest in H; rename H into Hin
  end.
  apply list_elem_of_In, in_map_iff in Hin. destruct Hin as (l' & <- & Hin).
  by apply list_elem_of_In.
Qed.

Lemma runSelectedTask_selection_cached (w : World) (task : Task) :
  (∀ t, selectedTask w = Some t → t ∈ cachedTasks w) →
  selectedTask (exec runSelectedTask w) = Some task →
  task ∈ cachedTasks (exec runSelectedTask w).
Proof.
  destruct w. unfold runSelectedTask. cbn. intros Hcached.
  split_run; intros Hsel; simplify_eq; by apply Hcached.
Qed.

Lemma runSelectedLaunch_selection_cached (w : World)
    (launch : LaunchSelection) :
  (∀ l, selectedLaunch w = Some l → l ∈ cachedLaunches w) →
  selectedLaunch (exec runSelectedLaunch w) = Some launch →
  launch ∈ cachedLaunches (exec runSelectedLaunch w).
Proof.
  destruct w. unfold runSelectedLaunch. cbn. intros Hcached.
  split_run; intros Hsel; simplify_eq; by apply Hcached.
Qed.

Lemma selection_cached_task_frame (w w' : World) :
  same_task_side w w' →
  (∀ t, selectedTask w = Some t → t ∈ cachedTasks w) →
  ∀ t, selectedTask w' = Some t → t ∈ cachedTasks w'.
Proof. intros (-> & -> & _). done. Qed.

Lemma selection_cached_launch_frame (w w' : World) :
  same_launch_side w w' →
  (∀ l, selectedLaunch w = Some l → l ∈ cachedLaunches w) →
  ∀ l, selectedLaunch w' = Some l → l ∈ cachedLaunches w'.
Proof. intros (-> & -> & _). done. Qed.

Lemma ensureTaskSelected_selection_cached (w : World) (task : Task) :
  honest_pickers → Inv w →
  selectedTask (exec ensureTaskSelected w) = Some task →
  task ∈ cachedTasks (exec ensureTaskSelected w).
Proof.
  intros Hhonest HInv. rewrite ensureTaskSelected_split.
  destruct (selectedTask (exec refreshTasks w)) eqn:Hsel.
  - intros Hsel'. rewrite Hsel' in Hsel.
    by apply refreshTasks_selection_cached; [apply Inv_task_key_mirrored|].
  - rewrite selectTask_split. apply pickTask_selection_cached; [done|].
    intros t. apply refreshTasks_selection_cached, Inv_task_key_mirrored.
    by apply refreshTasks_Inv.
Qed.

Lemma ensureLaunchSelected_selection_cached (w : World)
    (launch : LaunchSelection) :
  honest_pickers → Inv w →
  selectedLaunch (exec ensureLaunchSelected w) = Some launch →
  launch ∈ cachedLaunches (exec ensureLaunchSelected w).
Proof.
  intros Hhonest HInv. rewrite ensureLaunchSelected_split.
  destruct (selectedLaunch (exec refreshLaunchConfigurations w)) eqn:Hsel.
  - intros Hsel'. rewrite Hsel' in Hsel.
    by apply refreshLaunchConfigurations_selection_cached;
      [apply Inv_launch_key_mirrored|].
  - rewrite selectLaunch_split. apply pickLaunch_selection_cached; [done|].
    intros l. apply refreshLaunchConfigurations_selection_cached,
      Inv_launch_key_mirrored.
    by apply refreshLaunchConfigurations_Inv.
Qed.

Lemma task_commands_selection_cached (w : World) :
  honest_pickers → Inv w → selection_cached w →
  selection_cached (exec refreshTasks w)
  ∧ selection_cached (exec selectTask w)
  ∧ selection_cached (exec executeTask w).
Proof.
  intros Hhonest HInv [_ Hlaunch]. split; [|split]; split.
  - intros t. by apply refreshTasks_selection_cached, Inv_task_key_mirrored.
  - eapply selection_cached_launch_frame; [apply refreshTasks_same_launch_side | done].
  - rewrite selectTask_split. intros t.
    apply pickTask_selection_cached; [done|]. intros t'.
    by apply refreshTasks_selection_cached, Inv_task_key_mirrored.
  - eapply selection_cached_launch_frame; [apply selectTask_same_launch_side | done].
  - rewrite executeTask_split. intros t.
    apply runSelectedTask_selection_cached. intros t'.
    by apply ensureTaskSelected_selection_cached.
  - eapply selection_cached_launch_frame; [apply executeTask_same_launch_side | done].
Qed.

Lemma launch_commands_selection_cached (w : World) :
  honest_pickers → Inv w → selection_cached w →
  selection_cached (exec refreshLaunchConfigurations w)
  ∧ selection_cached (exec selectLaunch w)
  ∧ selection_cached (exec executeLaunch w).
Proof.
  intros Hhonest HInv [Htask _]. split; [|split]; split.
  - eapply selection_cached_task_frame; [apply refreshLaunchConfigurations_same_task_side | done].
  - intros l.
    by apply refreshLaunchConfigurations_selection_cached,
      Inv_launch_key_mirrored.
  - eapply selection_cached_task_frame; [apply selectLaunch_same_task_side | done].
  - rewrite selectLaunch_split. intros l.
    apply pickLaunch_selection_cached; [done|]. intros l'.
    by apply refreshLaunchConfigurations_selection_cached,
      Inv_launch_key_mirrored.
  - eapply selection_cached_task_frame; [apply executeLaunch_same_task_side | done].
  - rewrite executeLaunch_split. intros l.
    apply runSelectedLaunch_selection_cached. intros l'.
    by apply ensureLaunchSelected_selection_cached.
Qed.

Lemma loaded_mirrored (context : ExtensionContext) :
  store_ok (workspaceState context) →
  task_key_mirrored (loaded context) ∧ launch_key_mirrored (loaded context).
Proof.
  intros [Htask Hlaunch]. split; (split; [reflexivity|]); cbn;
    intros Hfalsy; (split; [done|]); by apply falsy_no_key.
Qed.

Lemma activate_selection_cached (context : ExtensionContext) :
  store_ok (workspaceState context) →
  selection_cached (exec (activate context) initial).
Proof.
  intros Hstore. destruct (loaded_mirrored context Hstore) as [Htask Hlaunch].
  rewrite activate_split.
  set (w1 := exec refreshTasks (loaded context)).
  set (w2 := exec refreshLaunchConfigurations w1).
  destruct (applyVisibilitySettings_frame w2)
    as ((Hs & _ & Hl & _) & Hct & Hcl & _).
  split.
  - rewrite Hs, Hct.
    apply (selection_cached_task_frame w1);
      [apply refreshLaunchConfigurations_same_task_side|].
    intros t. by apply refreshTasks_selection_cached.
  - rewrite Hl, Hcl. intros l.
    apply refreshLaunchConfigurations_selection_cached.
    destruct Hlaunch as [Hstored Hfalsy]. unfold launch_key_mirrored, w1.
    destruct (refreshTasks_launch_side (loaded context)) as (_ & -> & -> & ->).
    by split.
Qed.

(** X6.  With pickers that answer with one of the items offered, a command
    that runs to its end while no other handler runs keeps the selection
    among the cached candidates: the selection is one of them after an
    activation, and after each command run from a consistent state in which
    it was one.  In such a run the run commands do not fall back on the
    stored selection: what is handed to the host's [executeTask], and the
    folder and configuration handed to [startDebugging], are in the cache as
    the command's own refresh left it.  (A refresh that runs while a picker
    is open is outside this statement: the pick is stored as it comes.) *)
Theorem selection_is_a_cached_candidate :
  honest_pickers →
  (∀ context,
     store_ok (workspaceState context) →
     selection_cached (exec (activate context) initial))
  ∧ (∀ w,
       Inv w → selection_cached w →
       selection_cached (exec refreshTasks w)
       ∧ selection_cached (exec selectTask w)
       ∧ selection_cached (exec executeTask w)
       ∧ selection_cached (exec refreshLaunchConfigurations w)
       ∧ selection_cached (exec selectLaunch w)
       ∧ selection_cached (exec executeLaunch w))
  ∧ (∀ w task,
       Inv w →
       let w2 := exec ensureTaskSelected w in
       selectedTask w2 = Some task →
       freshTask_of w2 task ∈ cachedTasks w2
       ∧ executions (trace (exec executeTask w))
         = freshTask_of w2 task :: executions (trace w))
  ∧ (∀ w launch,
       Inv w →
       let w2 := exec ensureLaunchSelected w in
       selectedLaunch w2 = Some launch →
       freshLaunch_of w2 launch ∈ cachedLaunches w2
       ∧ debug_starts (trace (exec executeLaunch w))
         = (folder (freshLaunch_of w2 launch),
            configuration (freshLaunch_of w2 launch))
           :: debug_starts (trace w)).
Proof.
  intros Hhonest. split; [apply activate_selection_cached|].
  split; [|split].
  - intros w HInv Hcached.
    destruct (task_commands_selection_cached w Hhonest HInv Hcached)
      as (? & ? & ?).
    destruct (launch_commands_selection_cached w Hhonest HInv Hcached)
      as (? & ? & ?).
    done.
  - intros w task HInv w2 Hsel.
    pose proof (ensureTaskSelected_selection_cached w task Hhonest HInv Hsel)
      as Hin. fold w2 in Hin.
    split.
    + destruct (freshTask_of_spec w2 task)
        as [(before & after & -> & _) | [_ ->]]; [|done].
      apply list_elem_of_In, in_app_iff. right. by left.
    + rewrite executeTask_split. fold w2.
      destruct (runSelectedTask_executes w2 task Hsel) as [-> _].
      destruct (ensureTaskSelected_runs w) as [He _]. fold w2 in He.
      by rewrite He.
  - intros w launch HInv w2 Hsel.
    pose proof (ensureLaunchSelected_selection_cached w launch Hhonest
                  HInv Hsel) as Hin. fold w2 in Hin.
    split.
    + destruct (freshLaunch_of_spec w2 launch)
        as [(before & after & -> & _) | [_ ->]]; [|done].
      apply list_elem_of_In, in_app_iff. right. by left.
    + rewrite executeLaunch_split. fold w2.
      destruct (runSelectedLaunch_starts w2 launch Hsel) as [-> _].
      destruct (ensureLaunchSelected_runs w) as [_ Hd]. fold w2 in Hd.
      by rewrite Hd.
Qed.

(** *** Activation *)

Lemma refreshTasks_prompts (w : World) :
  prompts (trace (exec refreshTasks w)) = prompts (trace w).
Proof. destruct w. unfold refreshTasks. split_run; done. Qed.

Lemma refreshLaunchConfigurations_prompts (w : World) :
  prompts (trace (exec refreshLaunchConfigurations w)) = prompts (trace w).
Proof. destruct w. unfold refreshLaunchConfigurations. split_run; done. Qed.

(** What activation leaves of the task side, and of the launch side, is what
    its refresh of that side left. *)
Lemma activate_task_side (context : ExtensionContext) :
  let w1 := exec refreshTasks (loaded context) in
  let w' := exec (activate context) initial in
  cachedTasks w' = cachedTasks w1
  ∧ selectedTask w' = selectedTask w1
  ∧ selectedTaskKey w' = selectedTaskKey w1
  ∧ state w' !! "task-bus:selectedTaskKey"
    = state w1 !! "task-bus:selectedTaskKey"
  ∧ text (taskSelectorItem w') = text (taskSelectorItem w1).
Proof.
  cbn zeta. rewrite activate_split.
  set (w1 := exec refreshTasks (loaded context)).
  set (w2 := exec refreshLaunchConfigurations w1).
  destruct (applyVisibilitySettings_frame w2)
    as ((Hs & Hk & _ & _ & Hst) & Hc & _ & _ & _ & Ht & _).
  destruct (refreshLaunchConfigurations_same_task_side w1)
    as (Hc' & Hs' & Hk' & Hst' & Ht' & _).
  fold w2 in Hc', Hs', Hk', Hst', Ht'.
  rewrite Hs, Hk, Hst, Hc, Ht, Hc', Hs', Hk', Hst', Ht'. done.
Qed.

Lemma activate_launch_side (context : ExtensionContext) :
  let w1 := exec refreshTasks (loaded context) in
  let w2 := exec refreshLaunchConfigurations w1 in
  let w' := exec (activate context) initial in
  cachedLaunches w' = cachedLaunches w2
  ∧ selectedLaunch w' = selectedLaunch w2
  ∧ selectedLaunchKey w' = selectedLaunchKey w2
  ∧ state w' = state w2
  ∧ text (launchSelectorItem w') = text (launchSelectorItem w2)
  ∧ trace w' = trace w2.
Proof.
  cbn zeta. rewrite activate_split.
  set (w1 := exec refreshTasks (loaded context)).
  set (w2 := exec refreshLaunchConfigurations w1).
  destruct (applyVisibilitySettings_frame w2)
    as ((_ & _ & Hs & Hk & Hst) & _ & Hc & Htr & _ & _ & Ht & _).
  rewrite Hs, Hk, Hst, Hc, Htr, Ht. done.
Qed.

(** Activation looks the persisted task key up among the tasks enumerated
    at start. *)
Lemma activate_restores_task (context : ExtensionContext) (k : string) :
  workspaceState context !! "task-bus:selectedTaskKey" = Some k →
  k ≠ "" →
  let w' := exec (activate context) initial in
  let found :=
    List.find (λ task, String.eqb (getTaskKey task) k) (tasks_of 0) in
  selectedTask w' = found
  ∧ task_shown w'
  ∧ (is_Some found →
     selectedTaskKey w' = Some k
     ∧ state w' !! "task-bus:selectedTaskKey" = Some k)
  ∧ (found = None →
     selectedTaskKey w' = None
     ∧ state w' !! "task-bus:selectedTaskKey" = None).
Proof.
  intros Hstored Hk. cbn zeta.
  destruct (activate_task_side context) as (Hc & Hs & Hkey & Hst & Htext).
  destruct (refreshTasks_revalidates (loaded context) k Hstored Hk)
    as (Hsel & Hnone & Hsome).
  rewrite cachedTasks_refreshTasks in Hsel, Hnone, Hsome.
  change (clock (loaded context)) with 0 in Hsel, Hnone, Hsome.
  split; [by rewrite Hs|]. split; [|split].
  - unfold task_shown. rewrite Htext, Hs. apply refreshTasks_shown.
  - intros Hfound. destruct (Hsome Hfound) as [Hk' Hstate].
    rewrite Hkey, Hst, Hstate. by split.
  - intros Hfound. rewrite Hkey, Hst. by apply Hnone.
Qed.

Lemma applyVisibilitySettings_visible (w : World) :
  let w' := exec applyVisibilitySettings w in
  let showTaskBus :=
    default true (host_setting host (clock w) "task-bus" "showTaskBus") in
  let showLaunchBus :=
    default true (host_setting host (clock w) "task-bus" "showLaunchBus") in
  visible (taskSelectorItem w') = showTaskBus
  ∧ visible (taskRunnerItem w') = showTaskBus
  ∧ visible (launchSelectorItem w') = showLaunchBus
  ∧ visible (launchRunnerItem w') = showLaunchBus.
Proof. destruct w. unfold applyVisibilitySettings. by run. Qed.

(** X7.  Activation enumerates and nothing else: whatever was persisted,
    [fetchTasks] is called exactly once, no picker is opened, no task is run
    and no debug session is started.  The task cache is what the host
    enumerates at start and the launch cache what its settings hold when the
    task refresh is over; all four items are shown or hidden as the two
    settings say, selector and runner of a pair alike (shown when the
    setting is absent).  A first activation (no
    key persisted) selects nothing, shows both placeholders and leaves the
    workspace state untouched. *)
Theorem activation_only_enumerates (context : ExtensionContext) :
  let w1 := exec refreshTasks (loaded context) in
  let w2 := exec refreshLaunchConfigurations w1 in
  let w' := exec (activate context) initial in
  (fetches (trace w') = 1
   ∧ prompts (trace w') = 0
   ∧ executions (trace w') = []
   ∧ debug_starts (trace w') = []
   ∧ cachedTasks w' = tasks_of 0
   ∧ cachedLaunches w' = collectLaunches (clock w1)
   ∧ visible (taskSelectorItem w')
     = default true (host_setting host (clock w2) "task-bus" "showTaskBus")
   ∧ visible (taskRunnerItem w')
     = default true (host_setting host (clock w2) "task-bus" "showTaskBus")
   ∧ visible (launchSelectorItem w')
     = default true (host_setting host (clock w2) "task-bus" "showLaunchBus")
   ∧ visible (launchRunnerItem w')
     = default true (host_setting host (clock w2) "task-bus" "showLaunchBus"))
  ∧ (workspaceState context !! "task-bus:selectedTaskKey" = None →
     workspaceState context !! "task-bus:selectedLaunchKey" = None →
     selectedTask w' = None
     ∧ selectedLaunch w' = None
     ∧ text (taskSelectorItem w') = "$(list-selection) Select Task"
     ∧ text (launchSelectorItem w') = "$(debug-alt) Select Launch"
     ∧ state w' = workspaceState context).
Proof.
  cbn zeta.
  set (w1 := exec refreshTasks (loaded context)).
  set (w2 := exec refreshLaunchConfigurations w1).
  destruct (activate_task_side context) as (Hc & Hs & _ & _ & Htext).
  destruct (activate_launch_side context)
    as (Hcl & Hsl & _ & Hstate & Htextl & Htrace).
  fold w1 in Hc, Hs, Htext, Hcl, Hsl, Hstate, Htextl, Htrace.
  fold w2 in Hcl, Hsl, Hstate, Htextl, Htrace.
  destruct (refreshTasks_trace (loaded context)) as (He & Hd & Hf & _ & Hshown).
  destruct (refreshLaunchConfigurations_trace w1)
    as (He' & Hd' & Hf' & _ & Hshown').
  fold w1 in He, Hd, Hf, Hshown. fold w2 in He', Hd', Hf', Hshown'.
  split.
  - rewrite Htrace, Hf', Hf, He', He, Hd', Hd, Hc, Hcl.
    unfold w2 at 1. rewrite refreshLaunchConfigurations_prompts.
    unfold w1 at 1. rewrite refreshTasks_prompts.
    unfold w2 at 1. rewrite cachedLaunches_refreshLaunchConfigurations.
    unfold w1 at 1. rewrite cachedTasks_refreshTasks.
    repeat (split; [reflexivity|]).
    rewrite activate_split. fold w1. fold w2.
    exact (applyVisibilitySettings_visible w2).
  - intros Hnotask Hnolaunch.
    destruct (refreshTasks_idle (loaded context)) as (Hs1 & Hk1 & Hst1).
    { cbn. by rewrite Hnotask. }
    fold w1 in Hs1, Hk1, Hst1.
    destruct (refreshTasks_launch_side (loaded context)) as (_ & Hsl1 & Hkl1 & _).
    fold w1 in Hsl1, Hkl1.
    destruct (refreshLaunchConfigurations_idle w1) as (Hs2 & Hk2 & Hst2).
    { rewrite Hkl1. cbn. by rewrite Hnolaunch. }
    fold w2 in Hs2, Hk2, Hst2.
    unfold task_shown in Hshown. unfold launch_shown in Hshown'.
    rewrite Hs1 in Hshown. rewrite Hs2, Hsl1 in Hshown'.
    rewrite Hs, Hs1, Hsl, Hs2, Hsl1, Htext, Htextl, Hstate, Hst2, Hst1.
    done.
Qed.

Lemma activate_restores_launch (context : ExtensionContext) (k : string) :
  workspaceState context !! "task-bus:selectedLaunchKey" = Some k →
  k ≠ "" →
  let w' := exec (activate context) initial in
  let found :=
    List.find (λ launch, String.eqb (getLaunchKey launch) k)
              (cachedLaunches w') in
  selectedLaunch w' = found
  ∧ launch_shown w'
  ∧ (is_Some found →
     selectedLaunchKey w' = Some k
     ∧ state w' !! "task-bus:selectedLaunchKey" = Some k)
  ∧ (found = None →
     selectedLaunchKey w' = None
     ∧ state w' !! "task-bus:selectedLaunchKey" = None).
Proof.
  intros Hstored Hk. cbn zeta.
  destruct (activate_launch_side context)
    as (Hc & Hs & Hkey & Hst & Htext & _).
  set (w1 := exec refreshTasks (loaded context)) in *.
  destruct (refreshTasks_launch_side (loaded context))
    as (_ & _ & Hk1 & Hst1).
  fold w1 in Hk1, Hst1.
  assert (selectedLaunchKey w1 = Some k) as Hkey1 by by rewrite Hk1.
  destruct (refreshLaunchConfigurations_revalidates w1 k Hkey1 Hk)
    as (Hsel & Hnone & Hsome).
  rewrite Hc. split; [by rewrite Hs|]. split; [|split].
  - unfold launch_shown. rewrite Htext, Hs.
    apply refreshLaunchConfigurations_shown.
  - intros Hfound. destruct (Hsome Hfound) as [Hk' Hstate].
    rewrite Hkey, Hst, Hstate, Hst1. by split.
  - intros Hfound. rewrite Hkey, Hst. by apply Hnone.
Qed.

(** *** The layout of the bar *)

Ltac solve_layout :=
  unfold bar_layout;
  intros ((? & ? & ? & ?) & (? & ? & ? & ?) & (? & ? & ? & ?) & (? & ?));
  split_run;
  cbn [command alignment priority visible set_tooltip set_text set_command
       set_visible];
  done.

Lemma refreshTasks_layout (w : World) :
  bar_layout w → bar_layout (exec refreshTasks w).
Proof. destruct w. unfold refreshTasks. solve_layout. Qed.

Lemma refreshLaunchConfigurations_layout (w : World) :
  bar_layout w → bar_layout (exec refreshLaunchConfigurations w).
Proof. destruct w. unfold refreshLaunchConfigurations. solve_layout. Qed.

Lemma pickTask_layout (w : World) :
  bar_layout w → bar_layout (exec pickTask w).
Proof. destruct w. unfold pickTask. solve_layout. Qed.

Lemma pickLaunch_layout (w : World) :
  bar_layout w → bar_layout (exec pickLaunch w).
Proof. destruct w. unfold pickLaunch. solve_layout. Qed.

Lemma runSelectedTask_layout (w : World) :
  bar_layout w → bar_layout (exec runSelectedTask w).
Proof. destruct w. unfold runSelectedTask. solve_layout. Qed.

Lemma runSelectedLaunch_layout (w : World) :
  bar_layout w → bar_layout (exec runSelectedLaunch w).
Proof. destruct w. unfold runSelectedLaunch. solve_layout. Qed.

Lemma applyVisibilitySettings_layout (w : World) :
  bar_layout w → bar_layout (exec applyVisibilitySettings w).
Proof. destruct w. unfold applyVisibilitySettings. solve_layout. Qed.

Lemma ensureTaskSelected_layout (w : World) :
  bar_layout w → bar_layout (exec ensureTaskSelected w).
Proof.
  intros H%refreshTasks_layout. rewrite ensureTaskSelected_split.
  destruct (selectedTask _); [done|]. rewrite selectTask_split.
  by apply pickTask_layout, refreshTasks_layout.
Qed.

Lemma ensureLaunchSelected_layout (w : World) :
  bar_layout w → bar_layout (exec ensureLaunchSelected w).
Proof.
  intros H%refreshLaunchConfigurations_layout.
  rewrite ensureLaunchSelected_split.
  destruct (selectedLaunch _); [done|]. rewrite selectLaunch_split.
  by apply pickLaunch_layout, refreshLaunchConfigurations_layout.
Qed.

Lemma handle_layout (w : World) (ev : Notification) :
  bar_layout w → bar_layout (exec (handle ev) w).
Proof.
  intros H. destruct ev as [| | | | | | |affects|id]; cbn [handle];
    try (by apply refreshTasks_layout);
    try (by apply refreshLaunchConfigurations_layout).
  - destruct (_ || _); [by apply applyVisibilitySettings_layout | done].
  - repeat match goal with
           | |- context [if String.eqb ?a ?b then _ else _] =>
               destruct (String.eqb a b)
           end; [| | | |done].
    + rewrite selectTask_split. by apply pickTask_layout, refreshTasks_layout.
    + rewrite executeTask_split.
      by apply runSelectedTask_layout, ensureTaskSelected_layout.
    + rewrite selectLaunch_split.
      by apply pickLaunch_layout, refreshLaunchConfigurations_layout.
    + rewrite executeLaunch_split.
      by apply runSelectedLaunch_layout, ensureLaunchSelected_layout.
Qed.

Lemma loaded_layout (context : ExtensionContext) :
  bar_layout (loaded context).
Proof. unfold bar_layout. cbn. done. Qed.

Lemma activate_layout (context : ExtensionContext) :
  bar_layout (exec (activate context) initial).
Proof.
  rewrite activate_split.
  apply applyVisibilitySettings_layout, refreshLaunchConfigurations_layout,
    refreshTasks_layout, loaded_layout.
Qed.

(** *** What is cached, selected and run *)

Lemma tasks_of_scoped (n : nat) :
  Forall (λ task, isWorkspaceTask task = true) (tasks_of n).
Proof.
  unfold tasks_of. destruct (host_fetchTasks host n); [|constructor].
  apply List.Forall_forall. by intros task [_ ?]%filter_In.
Qed.

Lemma collectLaunches_named (n : nat) :
  Forall (λ launch, has_string_name (configuration launch) = true)
         (collectLaunches n).
Proof.
  apply List.Forall_forall. intros launch Hin%list_elem_of_In.
  destruct (cached_launch_name n launch Hin) as (name & Hname & _).
  unfold has_string_name. by rewrite Hname.
Qed.

Lemma truthy_key (key : option string) :
  truthy key = true → ∃ k, key = Some k ∧ k ≠ "".
Proof.
  destruct key as [k|]; [|discriminate]. cbn. intros Hk. exists k.
  split; [done|]. intros ->. discriminate.
Qed.

Lemma refreshTasks_task_in_scope (w : World) :
  task_in_scope w → task_in_scope (exec refreshTasks w).
Proof.
  intros (_ & Hsel & Hruns).
  pose proof (tasks_of_scoped (clock w)) as Hcache.
  rewrite <- cachedTasks_refreshTasks in Hcache.
  split; [exact Hcache|]. split.
  - intros task Hs. destruct (truthy (selectedTaskKey w)) eqn:Htruthy.
    + apply truthy_key in Htruthy as (k & Hk & Hne).
      destruct (refreshTasks_revalidates w k Hk Hne) as (Hfound & _).
      rewrite Hs in Hfound. symmetry in Hfound.
      apply find_some in Hfound as [Hin _].
      rewrite List.Forall_forall in Hcache. by apply Hcache.
    + destruct (refreshTasks_idle w Htruthy) as (Hsame & _).
      apply Hsel. by rewrite <- Hsame.
  - destruct (refreshTasks_trace w) as (He & _). by rewrite He.
Qed.

Lemma refreshLaunchConfigurations_launch_in_scope (w : World) :
  launch_in_scope w → launch_in_scope (exec refreshLaunchConfigurations w).
Proof.
  intros (_ & Hsel & Hruns).
  pose proof (collectLaunches_named (clock w)) as Hcache.
  rewrite <- cachedLaunches_refreshLaunchConfigurations in Hcache.
  split; [exact Hcache|]. split.
  - intros launch Hs. destruct (truthy (selectedLaunchKey w)) eqn:Htruthy.
    + apply truthy_key in Htruthy as (k & Hk & Hne).
      destruct (refreshLaunchConfigurations_revalidates w k Hk Hne)
        as (Hfound & _).
      rewrite Hs in Hfound. symmetry in Hfound.
      apply find_some in Hfound as [Hin _].
      rewrite List.Forall_forall in Hcache. by apply Hcache.
    + destruct (refreshLaunchConfigurations_idle w Htruthy) as (Hsame & _).
      apply Hsel. by rewrite <- Hsame.
  - destruct (refreshLaunchConfigurations_trace w) as (_ & Hd & _).
    by rewrite Hd.
Qed.

Lemma pickTask_task_in_scope (w : World) :
  honest_pickers → task_in_scope w → task_in_scope (exec pickTask w).
Proof.
  intros [Hhonest _] (Hcache & Hsel & Hruns).
  destruct (pickTask_runs w) as ([He _] & Hc & _).
  split; [by rewrite Hc|]. split; [|by rewrite He].
  intros task Hs.
  assert (cachedTasks w = [] ∨ cachedTasks w ≠ []) as [Hempty|Hne].
  { destruct (cachedTasks w); [by left | by right]. }
  { destruct (pickTask_dismissed w (or_introl Hempty)) as ((Hsame & _) & _).
    apply Hsel. by rewrite <- Hsame. }
  destruct (host_pickTask host (clock w) (List.map taskPick (cachedTasks w)))
    as [item|] eqn:Hpick.
  - destruct (pickTask_picked w item Hne Hpick) as (Hpicked & _).
    rewrite Hpicked in Hs. injection Hs as <-.
    apply Hhonest, list_elem_of_In, in_map_iff in Hpick.
    destruct Hpick as (task & <- & Hin).
    rewrite List.Forall_forall in Hcache. by apply Hcache.
  - destruct (pickTask_dismissed w (or_intror Hpick)) as ((Hsame & _) & _).
    apply Hsel. by rewrite <- Hsame.
Qed.

Lemma pickLaunch_launch_in_scope (w : World) :
  honest_pickers → launch_in_scope w → launch_in_scope (exec pickLaunch w).
Proof.
  intros [_ Hhonest] (Hcache & Hsel & Hruns).
  destruct (pickLaunch_runs w) as ([_ Hd] & Hc & _).
  split; [by rewrite Hc|]. split; [|by rewrite Hd].
  intros launch Hs.
  assert (cachedLaunches w = [] ∨ cachedLaunches w ≠ []) as [Hempty|Hne].
  { destruct (cachedLaunches w); [by left | by right]. }
  { destruct (pickLaunch_dismissed w (or_introl Hempty))
      as ((_ & _ & Hsame & _) & _).
    apply Hsel. by rewrite <- Hsame. }
  destruct (host_pickLaunch host (clock w)
              (List.map launchPick (cachedLaunches w)))
    as [item|] eqn:Hpick.
  - destruct (pickLaunch_picked w item Hne Hpick) as (Hpicked & _).
    rewrite Hpicked in Hs. injection Hs as <-.
    apply Hhonest, list_elem_of_In, in_map_iff in Hpick.
    destruct Hpick as (launch & <- & Hin).
    rewrite List.Forall_forall in Hcache. by apply Hcache.
  - destruct (pickLaunch_dismissed w (or_intror Hpick))
      as ((_ & _ & Hsame & _) & _).
    apply Hsel. by rewrite <- Hsame.
Qed.

Lemma runSelectedTask_cache (w : World) :
  cachedTasks (exec runSelectedTask w) = cachedTasks w.
Proof. destruct w. unfold runSelectedTask. split_run; done. Qed.

Lemma runSelectedLaunch_cache (w : World) :
  cachedLaunches (exec runSelectedLaunch w) = cachedLaunches w.
Proof. destruct w. unfold runSelectedLaunch. split_run; done. Qed.

Lemma runSelectedTask_selection (w : World) (task : Task) :
  selectedTask (exec runSelectedTask w) = Some task →
  selectedTask w = Some task.
Proof.
  destruct w. unfold runSelectedTask. cbn [selectedTask].
  split_run; intros Hs; done.
Qed.

Lemma runSelectedLaunch_selection (w : World) (launch : LaunchSelection) :
  selectedLaunch (exec runSelectedLaunch w) = Some launch →
  selectedLaunch w = Some launch.
Proof.
  destruct w. unfold runSelectedLaunch. cbn [selectedLaunch].
  split_run; intros Hs; done.
Qed.

Lemma runSelectedTask_task_in_scope (w : World) :
  task_in_scope w → task_in_scope (exec runSelectedTask w).
Proof.
  intros (Hcache & Hsel & Hruns).
  split; [by rewrite runSelectedTask_cache|]. split.
  - intros task Hs%runSelectedTask_selection. by apply Hsel.
  - destruct (selectedTask w) as [task|] eqn:Hs.
    + destruct (runSelectedTask_executes w task Hs) as [-> _].
      constructor; [|done].
      destruct (freshTask_of_spec w task)
        as [(before & after & Hsplit & _) | [_ ->]]; [|by apply Hsel].
      rewrite List.Forall_forall in Hcache. apply Hcache.
      rewrite Hsplit. apply in_app_iff. right. by left.
    + by rewrite (runSelectedTask_none w Hs).
Qed.

Lemma runSelectedLaunch_launch_in_scope (w : World) :
  launch_in_scope w → launch_in_scope (exec runSelectedLaunch w).
Proof.
  intros (Hcache & Hsel & Hruns).
  split; [by rewrite runSelectedLaunch_cache|]. split.
  - intros launch Hs%runSelectedLaunch_selection. by apply Hsel.
  - destruct (selectedLaunch w) as [launch|] eqn:Hs.
    + destruct (runSelectedLaunch_starts w launch Hs) as [-> _].
      constructor; [|done]. cbn [snd].
      destruct (freshLaunch_of_spec w launch)
        as [(before & after & Hsplit & _) | [_ ->]]; [|by apply Hsel].
      rewrite List.Forall_forall in Hcache. apply Hcache.
      rewrite Hsplit. apply in_app_iff. right. by left.
    + by rewrite (runSelectedLaunch_none w Hs).
Qed.

Lemma task_in_scope_frame (w w' : World) :
  same_task_side w w' → task_in_scope w → task_in_scope w'.
Proof.
  intros (Hc & Hs & _ & _ & _ & _ & He & _) (? & ? & ?).
  unfold task_in_scope. by rewrite Hc, Hs, He.
Qed.

Lemma launch_in_scope_frame (w w' : World) :
  same_launch_side w w' → launch_in_scope w → launch_in_scope w'.
Proof.
  intros (Hc & Hs & _ & _ & _ & _ & Hd) (? & ? & ?).
  unfold launch_in_scope. by rewrite Hc, Hs, Hd.
Qed.

Lemma task_commands_in_scope (w : World) :
  honest_pickers → in_scope w →
  in_scope (exec refreshTasks w)
  ∧ in_scope (exec selectTask w)
  ∧ in_scope (exec executeTask w).
Proof.
  intros Hhonest [Htask Hlaunch].
  assert (∀ v, task_in_scope v → task_in_scope (exec selectTask v)) as Hselect.
  { intros v Hv. rewrite selectTask_split.
    by apply pickTask_task_in_scope, refreshTasks_task_in_scope. }
  split; [|split]; split.
  - by apply refreshTasks_task_in_scope.
  - by eapply launch_in_scope_frame; [apply refreshTasks_same_launch_side|].
  - by apply Hselect.
  - by eapply launch_in_scope_frame; [apply selectTask_same_launch_side|].
  - rewrite executeTask_split. apply runSelectedTask_task_in_scope.
    rewrite ensureTaskSelected_split.
    destruct (selectedTask _);
      [|apply Hselect]; by apply refreshTasks_task_in_scope.
  - by eapply launch_in_scope_frame; [apply executeTask_same_launch_side|].
Qed.

Lemma launch_commands_in_scope (w : World) :
  honest_pickers → in_scope w →
  in_scope (exec refreshLaunchConfigurations w)
  ∧ in_scope (exec selectLaunch w)
  ∧ in_scope (exec executeLaunch w).
Proof.
  intros Hhonest [Htask Hlaunch].
  assert (∀ v, launch_in_scope v → launch_in_scope (exec selectLaunch v))
    as Hselect.
  { intros v Hv. rewrite selectLaunch_split.
    by apply pickLaunch_launch_in_scope,
      refreshLaunchConfigurations_launch_in_scope. }
  split; [|split]; split.
  - by eapply task_in_scope_frame;
      [apply refreshLaunchConfigurations_same_task_side|].
  - by apply refreshLaunchConfigurations_launch_in_scope.
  - by eapply task_in_scope_frame; [apply selectLaunch_same_task_side|].
  - by apply Hselect.
  - by eapply task_in_scope_frame; [apply executeLaunch_same_task_side|].
  - rewrite executeLaunch_split. apply runSelectedLaunch_launch_in_scope.
    rewrite ensureLaunchSelected_split.
    destruct (selectedLaunch _);
      [|apply Hselect]; by apply refreshLaunchConfigurations_launch_in_scope.
Qed.

Lemma applyVisibilitySettings_in_scope (w : World) :
  in_scope w → in_scope (exec applyVisibilitySettings w).
Proof.
  destruct (applyVisibilitySettings_frame w)
    as ((Hs & _ & Hl & _) & Hct & Hcl & Htrace & _).
  unfold in_scope, task_in_scope, launch_in_scope.
  by rewrite Hs, Hl, Hct, Hcl, Htrace.
Qed.

Lemma handle_in_scope (w : World) (ev : Notification) :
  honest_pickers → in_scope w → in_scope (exec (handle ev) w).
Proof.
  intros Hhonest H.
  destruct (task_commands_in_scope w Hhonest H) as (? & ? & ?).
  destruct (launch_commands_in_scope w Hhonest H) as (? & ? & ?).
  destruct ev as [| | | | | | |affects|id]; cbn [handle]; try done.
  - destruct (_ || _); [by apply applyVisibilitySettings_in_scope | done].
  - repeat match goal with
           | |- context [if String.eqb ?a ?b then _ else _] =>
               destruct (String.eqb a b)
           end; done.
Qed.

Lemma activate_in_scope (context : ExtensionContext) :
  in_scope (exec (activate context) initial).
Proof.
  rewrite activate_split.
  assert (in_scope (loaded context)) as Hloaded.
  { split; (split; [constructor | split; [discriminate | constructor]]). }
  assert (in_scope (exec refreshTasks (loaded context))) as H1.
  { split; [by apply refreshTasks_task_in_scope, Hloaded|].
    eapply launch_in_scope_frame;
      [apply refreshTasks_same_launch_side | apply Hloaded]. }
  apply applyVisibilitySettings_in_scope. split.
  - eapply task_in_scope_frame;
      [apply refreshLaunchConfigurations_same_task_side | apply H1].
  - apply refreshLaunchConfigurations_launch_in_scope, H1.
Qed.

(** *** What the pick lists show *)


(** *** Keys back to their parts *)

Lemma append_separator_inj (a a' r r' : string) :
  colon_free a = true → colon_free a' = true →
  a +:+ "::" +:+ r = a' +:+ "::" +:+ r' →
  a = a' ∧ r = r'.
Proof.
  revert a'. induction a as [|c a IH]; intros [|c' a']; cbn.
  - intros _ _ [=]. done.
  - intros _ [Hc _]%andb_prop [= <- _]. done.
  - intros [Hc _]%andb_prop _ [= -> _]. done.
  - intros [_ Ha]%andb_prop [_ Ha']%andb_prop [= <- Hrest].
    destruct (IH a' Ha Ha' Hrest) as [-> ->]. done.
Qed.

(** X12.  Keys can be read back.  When the scope identifier, the source and
    the name of two tasks hold no colon, their keys are equal exactly when
    scope identifier, source (an absent one counting as empty), name and
    serialised definition are equal.  For two launch selections under the
    same folder URI (or both without folder) whose names and types, as
    strings, hold no colon, the keys are equal exactly when name, type and
    request are equal as strings. *)
Theorem colon_free_keys_are_read_back :
  (∀ t1 t2 : Task,
     colon_free (getScopeId t1) = true →
     colon_free (getScopeId t2) = true →
     colon_free (default "" (task_source t1)) = true →
     colon_free (default "" (task_source t2)) = true →
     colon_free (task_name t1) = true →
     colon_free (task_name t2) = true →
     getTaskKey t1 = getTaskKey t2
     ↔ getScopeId t1 = getScopeId t2
       ∧ default "" (task_source t1) = default "" (task_source t2)
       ∧ task_name t1 = task_name t2
       ∧ JSON_stringify (default (JObj []) (task_definition t1))
         = JSON_stringify (default (JObj []) (task_definition t2)))
  ∧ (∀ l1 l2 : LaunchSelection,
       let field := λ k (l : LaunchSelection),
         ToString (coalesce (prop k (configuration l)) (JStr "")) in
       match folder l1, folder l2 with
       | Some f1, Some f2 => Uri_toString (wf_uri f1) = Uri_toString (wf_uri f2)
       | None, None => True
       | _, _ => False
       end →
       colon_free (field "name" l1) = true →
       colon_free (field "name" l2) = true →
       colon_free (field "type" l1) = true →
       colon_free (field "type" l2) = true →
       getLaunchKey l1 = getLaunchKey l2
       ↔ field "name" l1 = field "name" l2
         ∧ field "type" l1 = field "type" l2
         ∧ field "request" l1 = field "request" l2).
Proof.
  split.
  - intros t1 t2 Hs1 Hs2 Hsrc1 Hsrc2 Hn1 Hn2. unfold getTaskKey. split.
    + intros Hkey.
      apply append_separator_inj in Hkey as [Hscope Hkey]; [|done..].
      apply append_separator_inj in Hkey as [Hsource Hkey]; [|done..].
      apply append_separator_inj in Hkey as [Hname Hkey]; [|done..].
      done.
    + intros (-> & -> & -> & ->). reflexivity.
  - intros l1 l2 field Hfolder Hn1 Hn2 Ht1 Ht2. unfold getLaunchKey.
    assert (match folder l1 with
            | Some f => Uri_toString (wf_uri f)
            | None => "workspace"
            end
            = match folder l2 with
              | Some f => Uri_toString (wf_uri f)
              | None => "workspace"
              end) as ->.
    { destruct (folder l1), (folder l2); done. }
    fold (field "name" l1) (field "name" l2) (field "type" l1)
      (field "type" l2) (field "request" l1) (field "request" l2).
    split.
    + intros Hkey. apply (inj (String.append _)) in Hkey.
      apply (inj (String.append _)) in Hkey.
      apply append_separator_inj in Hkey as [Hname Hkey]; [|done..].
      apply append_separator_inj in Hkey as [Htype Hkey]; [|done..].
      done.
    + intros (-> & -> & ->). reflexivity.
Qed.

(** *** Calls to the host, counted *)

Lemma pickTask_prompts (w : World) :
  prompts (trace (exec pickTask w))
  = match cachedTasks w with
    | [] => prompts (trace w)
    | _ :: _ => S (prompts (trace w))
    end.
Proof. destruct w. unfold pickTask. split_run; done. Qed.

Lemma pickLaunch_prompts (w : World) :
  prompts (trace (exec pickLaunch w))
  = match cachedLaunches w with
    | [] => prompts (trace w)
    | _ :: _ => S (prompts (trace w))
    end.
Proof. destruct w. unfold pickLaunch. split_run; done. Qed.

Lemma runSelectedTask_calls (w : World) :
  prompts (trace (exec runSelectedTask w)) = prompts (trace w)
  ∧ fetches (trace (exec runSelectedTask w)) = fetches (trace w).
Proof. destruct w. unfold runSelectedTask. split_run; done. Qed.

Lemma runSelectedLaunch_calls (w : World) :
  prompts (trace (exec runSelectedLaunch w)) = prompts (trace w)
  ∧ fetches (trace (exec runSelectedLaunch w)) = fetches (trace w).
Proof. destruct w. unfold runSelectedLaunch. split_run; done. Qed.

Lemma selectTask_calls (w : World) :
  prompts (trace (exec selectTask w))
  = match tasks_of (clock w) with
    | [] => prompts (trace w)
    | _ :: _ => S (prompts (trace w))
    end
  ∧ fetches (trace (exec selectTask w)) = S (fetches (trace w)).
Proof.
  rewrite selectTask_split, pickTask_prompts, cachedTasks_refreshTasks,
    refreshTasks_prompts.
  split; [done|].
  destruct (pickTask_runs (exec refreshTasks w)) as (_ & _ & ->).
  by destruct (refreshTasks_trace w) as (_ & _ & -> & _).
Qed.

Lemma selectLaunch_calls (w : World) :
  prompts (trace (exec selectLaunch w))
  = match collectLaunches (clock w) with
    | [] => prompts (trace w)
    | _ :: _ => S (prompts (trace w))
    end
  ∧ fetches (trace (exec selectLaunch w)) = fetches (trace w).
Proof.
  rewrite selectLaunch_split, pickLaunch_prompts,
    cachedLaunches_refreshLaunchConfigurations,
    refreshLaunchConfigurations_prompts.
  split; [done|].
  destruct (pickLaunch_runs (exec refreshLaunchConfigurations w))
    as (_ & _ & ->).
  by destruct (refreshLaunchConfigurations_trace w) as (_ & _ & -> & _).
Qed.

(** X13.  A command opens at most one picker, and only when it has to.
    [selectTask] enumerates the tasks once and opens the picker exactly when
    the enumeration left something to pick.  [executeTask] enumerates once
    and opens no picker when its refresh leaves a selection; otherwise it
    goes through [selectTask], so it enumerates a second time and opens the
    picker when that second enumeration left something to pick.  The launch
    commands do the same with the launch entries and never enumerate
    tasks. *)
Theorem picker_opens_only_when_needed (w : World) :
  let w1 := exec refreshTasks w in
  let l1 := exec refreshLaunchConfigurations w in
  (prompts (trace (exec selectTask w))
   = opened (cachedTasks (exec selectTask w)) (prompts (trace w))
   ∧ fetches (trace (exec selectTask w)) = S (fetches (trace w)))
  ∧ match selectedTask w1 with
    | Some _ =>
        prompts (trace (exec executeTask w)) = prompts (trace w)
        ∧ fetches (trace (exec executeTask w)) = S (fetches (trace w))
    | None =>
        prompts (trace (exec executeTask w))
        = opened (cachedTasks (exec executeTask w)) (prompts (trace w))
        ∧ fetches (trace (exec executeTask w)) = S (S (fetches (trace w)))
    end
  ∧ (prompts (trace (exec selectLaunch w))
     = opened (cachedLaunches (exec selectLaunch w)) (prompts (trace w))
     ∧ fetches (trace (exec selectLaunch w)) = fetches (trace w))
  ∧ match selectedLaunch l1 with
    | Some _ =>
        prompts (trace (exec executeLaunch w)) = prompts (trace w)
        ∧ fetches (trace (exec executeLaunch w)) = fetches (trace w)
    | None =>
        prompts (trace (exec executeLaunch w))
        = opened (cachedLaunches (exec executeLaunch w)) (prompts (trace w))
        ∧ fetches (trace (exec executeLaunch w)) = fetches (trace w)
    end.
Proof.
  cbn zeta. unfold opened.
  assert (∀ v, cachedTasks (exec selectTask v) = tasks_of (clock v)) as Hct.
  { intros v. rewrite selectTask_split.
    destruct (pickTask_runs (exec refreshTasks v)) as (_ & -> & _).
    apply cachedTasks_refreshTasks. }
  assert (∀ v, cachedLaunches (exec selectLaunch v)
               = collectLaunches (clock v)) as Hcl.
  { intros v. rewrite selectLaunch_split.
    destruct (pickLaunch_runs (exec refreshLaunchConfigurations v))
      as (_ & -> & _).
    apply cachedLaunches_refreshLaunchConfigurations. }
  split; [|split; [|split]].
  - rewrite Hct. apply selectTask_calls.
  - rewrite executeTask_split, ensureTaskSelected_split.
    destruct (runSelectedTask_calls
                (match selectedTask (exec refreshTasks w) with
                 | Some _ => exec refreshTasks w
                 | None => exec selectTask (exec refreshTasks w)
                 end)) as [Hp Hf].
    assert (∀ v, cachedTasks (exec runSelectedTask v) = cachedTasks v) as Hc.
    { intros []. unfold runSelectedTask. split_run; done. }
    rewrite Hp, Hf, Hc. clear Hp Hf.
    destruct (refreshTasks_trace w) as (_ & _ & Hf1 & _).
    pose proof (refreshTasks_prompts w) as Hp1.
    destruct (selectedTask (exec refreshTasks w)).
    + by rewrite Hp1, Hf1.
    + destruct (selectTask_calls (exec refreshTasks w)) as [-> ->].
      by rewrite Hct, Hp1, Hf1.
  - rewrite Hcl. apply selectLaunch_calls.
  - rewrite executeLaunch_split, ensureLaunchSelected_split.
    destruct (runSelectedLaunch_calls
                (match selectedLaunch (exec refreshLaunchConfigurations w) with
                 | Some _ => exec refreshLaunchConfigurations w
                 | None =>
                     exec selectLaunch (exec refreshLaunchConfigurations w)
                 end)) as [Hp Hf].
    assert (∀ v, cachedLaunches (exec runSelectedLaunch v) = cachedLaunches v)
      as Hc.
    { intros []. unfold runSelectedLaunch. split_run; done. }
    rewrite Hp, Hf, Hc. clear Hp Hf.
    destruct (refreshLaunchConfigurations_trace w) as (_ & _ & Hf1 & _).
    pose proof (refreshLaunchConfigurations_prompts w) as Hp1.
    destruct (selectedLaunch (exec refreshLaunchConfigurations w)).
    + by rewrite Hp1, Hf1.
    + destruct (selectLaunch_calls (exec refreshLaunchConfigurations w))
        as [-> ->].
      by rewrite Hcl, Hp1, Hf1.
Qed.

(** *** The description of a launch entry *)

(** X14.  What the launch pick list shows as description.  It is absent
    ([undefined] or [null]) exactly when both [type] and [request] are.  For
    a string type [t] and a string request [r] it is "t (r)" when neither is
    empty; an empty [r] leaves [t], and an empty [t] leaves the empty
    string, whatever [r] is.  With only one of the two present, it is that
    one. *)
Theorem launch_description_cases (launch : LaunchSelection) :
  let type := prop "type" (configuration launch) in
  let request := prop "request" (configuration launch) in
  (nullish (getLaunchDescription launch) ↔ nullish type ∧ nullish request)
  ∧ (∀ t r,
       type = Some (JStr t) → request = Some (JStr r) →
       getLaunchDescription launch
       = Some (JStr (if String.eqb t "" then ""
                     else if String.eqb r "" then t
                     else t +:+ " (" +:+ r +:+ ")")))
  ∧ (∀ t,
       type = Some (JStr t) → nullish request →
       getLaunchDescription launch = Some (JStr t))
  ∧ (∀ r,
       nullish type → request = Some (JStr r) →
       getLaunchDescription launch = Some (JStr r)).
Proof.
  cbn zeta. unfold getLaunchDescription, nullish.
  destruct (prop "type" (configuration launch)) as [t|];
    destruct (prop "request" (configuration launch)) as [r|].
  - split; [|split; [|split]].
    + destruct (ToBoolean t && ToBoolean r) eqn:Hboth.
      * destruct t, r; cbn in Hboth; try discriminate;
          (split; [intros [[=]|[=]] | intros [[[=]|[=]] [[=]|[=]]]]).
      * destruct t, r; cbn;
          (split; [intros [[=]|[=]] | intros [[[=]|[=]] [[=]|[=]]]]);
          auto.
    + intros t' r' [= ->] [= ->]. cbn.
      destruct (String.eqb_spec t' "") as [->|];
        destruct (String.eqb_spec r' "") as [->|]; reflexivity.
    + intros t' [= ->] [[=]|[= ->]]. cbn. by rewrite andb_false_r.
    + intros r' [[=]|[= ->]] [= ->]. reflexivity.
  - split; [|split; [|split]].
    + destruct t; cbn;
        (split; [intros [[=]|[=]] | intros [[[=]|[=]] _]]); auto.
    + intros ? ? _ [=].
    + intros t' [= ->] _. reflexivity.
    + intros ? _ [=].
  - split; [|split; [|split]].
    + cbn. split; [intros H; split; [by left | exact H] | by intros [_ H]].
    + intros ? ? [=].
    + intros ? [=].
    + intros r' _ [= ->]. reflexivity.
  - split; [|split; [|split]].
    + cbn. split; [intros _; split; by left | intros _; by left].
    + intros ? ? [=].
    + intros ? [=].
    + intros ? _ [=].
Qed.

End Runtime.

(** ** The theorems at work on the example workspace *)

Example keys_written_out :
  getTaskKey example_JSON_stringify build_task = build_key
  ∧ getTaskKey example_JSON_stringify lint_task = lint_key
  ∧ getLaunchKey example_Number_toString run_app_launch = run_app_key
  ∧ getLaunchKey example_Number_toString attach_launch = attach_key.
Proof. by vm_compute. Qed.

(** The folder's name is part of the scope identifier, hence of the key;
    its URI and index are not. *)
Example folder_name_is_part_of_the_key :
  getScopeId build_task = "app"
  ∧ getScopeId lint_task = "workspace"
  ∧ getScopeId user_task = "global"
  ∧ getScopeId stray_task = "unknown"
  ∧ getTaskKey example_JSON_stringify
      (mkTask "build" (Some (ScopeFolder lib_folder)))
    ≠ build_key.
Proof.
  do 4 (split; [reflexivity|]). intros H. vm_compute in H. discriminate.
Qed.

Example activation_then_run :
  let w :=
    exec (executeTask example_JSON_stringify obliging_host)
      (exec (activate example_Number_toString example_JSON_stringify
               obliging_host fresh_context) initial) in
  cachedTasks w = [build_task; lint_task]
  ∧ List.map (getLaunchKey example_Number_toString) (cachedLaunches w)
    = [run_app_key; attach_key]
  ∧ selectedTask w = Some lint_task
  ∧ state w !! "task-bus:selectedTaskKey" = Some lint_key
  ∧ text (taskSelectorItem w) = "$(list-selection) lint"
  ∧ executions (trace w) = [lint_task].
Proof. by vm_compute. Qed.

Example busy_world_reached :
  set_trace []
    (exec (selectLaunch example_Number_toString obliging_host)
       (exec (selectTask example_JSON_stringify obliging_host)
          (exec (activate example_Number_toString example_JSON_stringify
                   obliging_host fresh_context) initial)))
  = busy_world.
Proof. by vm_compute. Qed.

Lemma busy_world_Inv :
  Inv example_Number_toString example_JSON_stringify busy_world.
Proof.
  split; (split; [|split]).
  - split; intros _; by eexists.
  - intros t [= <-]. by vm_compute.
  - by vm_compute.
  - split; intros _; by eexists.
  - intros t [= <-]. by vm_compute.
  - by vm_compute.
Qed.

Lemma fresh_world_Inv :
  Inv example_Number_toString example_JSON_stringify (loaded fresh_context).
Proof.
  split; (split; [|split]); try done; split; intros [? [=]].
Qed.

(** C1 at work: activated after "lint" was selected, the first refresh
    selects the cached "lint" (the second candidate, the first with that
    key); activated with the key of a launch that is gone, the refresh clears
    the selection and both copies of the key. *)
Lemma refresh_revalidates_selection_witness :
  selectedTask
    (exec (refreshTasks example_JSON_stringify obliging_host)
          (loaded lint_context)) = Some lint_task
  ∧ (let w' :=
       exec (refreshLaunchConfigurations example_Number_toString obliging_host)
            (loaded stale_context) in
     selectedLaunch w' = None
     ∧ selectedLaunchKey w' = None
     ∧ state w' !! "task-bus:selectedLaunchKey" = None).
Proof.
  destruct (refresh_revalidates_selection example_Number_toString
              example_JSON_stringify obliging_host) as [Htask Hlaunch].
  split.
  - destruct (Htask (loaded lint_context) lint_key) as [Hfirst _].
    + by vm_compute.
    + by vm_compute.
    + discriminate.
    + apply Hfirst. exists [build_task], [].
      split; [by vm_compute|]. split; [by vm_compute|].
      constructor; [by vm_compute | constructor].
  - destruct (Hlaunch (loaded stale_context)
                "workspace::Deploy::node::launch") as [_ Hnone].
    + by vm_compute.
    + by vm_compute.
    + discriminate.
    + apply Hnone. intros launch Hin. apply list_elem_of_In in Hin.
      vm_compute in Hin. destruct Hin as [<- | [<- | []]]; discriminate.
Defined.

(** C2 at work: of the four fetched tasks the folder-scoped "build" and the
    Workspace-scoped "lint" are cached, in that order. *)
Lemma refreshTasks_caches_workspace_tasks_witness :
  cachedTasks (exec (refreshTasks example_JSON_stringify obliging_host) initial)
  = [build_task; lint_task].
Proof.
  destruct (refreshTasks_caches_workspace_tasks example_JSON_stringify
              obliging_host initial fetched_tasks) as [Hcache _].
  - reflexivity.
  - rewrite Hcache. reflexivity.
Defined.

(** C3 at work: the host refuses to run "lint" and to start "Attach"; each
    selection is cleared after the one attempt.  When enumeration fails, the
    cache is emptied and the persisted "lint" is dropped. *)
Lemma errors_log_and_clear_selection_witness :
  (let w' := exec (executeTask example_JSON_stringify refusing_host)
                  busy_world in
   selectedTask w' = None
   ∧ state w' !! "task-bus:selectedTaskKey" = None
   ∧ executions (trace w') = [lint_task])
  ∧ (let w' := exec (executeLaunch example_Number_toString refusing_host)
                    busy_world in
     selectedLaunch w' = None
     ∧ state w' !! "task-bus:selectedLaunchKey" = None
     ∧ debug_starts (trace w') = [(None, attach_app)])
  ∧ (let w' := exec (refreshTasks example_JSON_stringify silent_host)
                    (loaded lint_context) in
     cachedTasks w' = []
     ∧ selectedTaskKey w' = None
     ∧ state w' !! "task-bus:selectedTaskKey" = None).
Proof.
  destruct (errors_log_and_clear_selection example_Number_toString
              example_JSON_stringify refusing_host) as (Htask & Hlaunch & _).
  destruct (errors_log_and_clear_selection example_Number_toString
              example_JSON_stringify silent_host) as (_ & _ & Hfetch).
  split; [|split].
  - destruct (Htask busy_world lint_task) as (Hs & _ & Hst & _ & _ & Hexec).
    + by vm_compute.
    + by vm_compute.
    + split; [exact Hs|]. split; [exact Hst|]. exact Hexec.
  - destruct (Hlaunch busy_world attach_launch)
      as (Hs & _ & Hst & _ & _ & Hstart).
    + by vm_compute.
    + by vm_compute.
    + split; [exact Hs|]. split; [exact Hst|]. exact Hstart.
  - destruct (Hfetch (loaded lint_context)) as (Hcache & _ & _ & Hclear).
    + reflexivity.
    + destruct Hclear as (_ & Hk & Hst).
      * split; [reflexivity|]. intros [=].
      * split; [exact Hcache|]. split; [exact Hk | exact Hst].
Defined.

(** C4 at work: "build" as a background task of the build group has the key
    of "build"; the launch entry with more fields, in a folder with another
    name and index but the same URI, has the key of the plain one. *)
Lemma keys_are_deterministic_witness :
  getTaskKey example_JSON_stringify build_task
  = getTaskKey example_JSON_stringify build_task_bg
  ∧ getLaunchKey example_Number_toString run_app_launch
    = getLaunchKey example_Number_toString run_app_launch_extended.
Proof.
  destruct (keys_are_deterministic example_Number_toString
              example_JSON_stringify) as [Htask Hlaunch].
  split.
  - apply Htask; reflexivity.
  - apply Hlaunch; reflexivity.
Defined.

(** C7 at work: from a fresh activation the user picks "lint", then
    "Attach"; each selector shows the picked name.  When running "lint" is
    refused the selector is back to the placeholder. *)
Lemma status_bar_follows_selection_witness :
  text (taskSelectorItem
          (exec (selectTask example_JSON_stringify obliging_host)
                (loaded fresh_context)))
  = "$(list-selection) lint"
  ∧ text (launchSelectorItem
            (exec (selectLaunch example_Number_toString obliging_host)
                  (loaded fresh_context)))
    = "$(debug-alt) Attach"
  ∧ text (taskSelectorItem
            (exec (executeTask example_JSON_stringify refusing_host)
                  busy_world))
    = "$(list-selection) Select Task"
  ∧ text (launchSelectorItem
            (exec (executeLaunch example_Number_toString refusing_host)
                  busy_world))
    = "$(debug-alt) Select Launch".
Proof.
  destruct (status_bar_follows_selection example_Number_toString
              example_JSON_stringify obliging_host)
    as (_ & Hpick & Hpick' & _).
  destruct (status_bar_follows_selection example_Number_toString
              example_JSON_stringify refusing_host)
    as (_ & _ & _ & Hfail & Hfail' & _).
  split; [|split; [|split]].
  - destruct (Hpick (loaded fresh_context) (taskPick lint_task))
      as (_ & Htext & _).
    + by vm_compute.
    + by vm_compute.
    + exact Htext.
  - destruct (Hpick' (loaded fresh_context)
                (launchPick example_Number_toString attach_launch))
      as (_ & Htext & _).
    + by vm_compute.
    + by vm_compute.
    + exact Htext.
  - destruct (Hfail busy_world lint_task) as (_ & Htext & _).
    + by vm_compute.
    + by vm_compute.
    + exact Htext.
  - destruct (Hfail' busy_world attach_launch) as (_ & Htext & _).
    + by vm_compute.
    + by vm_compute.
    + exact Htext.
Defined.

(** C8 at work: with "lint" and "Attach" selected, each run command makes
    its one call to the host, with the cached "lint" and with the folder
    (none) and the configuration of "Attach". *)
Lemma execution_is_delegated_witness :
  executions
    (trace (exec (executeTask example_JSON_stringify obliging_host)
                 busy_world))
  = [lint_task]
  ∧ debug_starts
      (trace (exec (executeLaunch example_Number_toString obliging_host)
                   busy_world))
    = [(None, attach_app)]
  ∧ executions
      (trace (exec (executeTask example_JSON_stringify refusing_host)
                   busy_world))
    = [lint_task].
Proof.
  destruct (execution_is_delegated example_Number_toString
              example_JSON_stringify obliging_host) as (Htask & Hlaunch & _).
  destruct (execution_is_delegated example_Number_toString
              example_JSON_stringify refusing_host)
    as (_ & _ & _ & Hselected & _).
  split; [|split].
  - destruct (Htask busy_world lint_task) as (Hexec & _).
    + by vm_compute.
    + exact Hexec.
  - destruct (Hlaunch busy_world attach_launch) as (Hstart & _).
    + by vm_compute.
    + exact Hstart.
  - apply (Hselected busy_world lint_task lint_task busy_world_Inv eq_refl).
    exists [build_task], [].
    split; [by vm_compute|]. split; [by vm_compute|].
    constructor; [by vm_compute | constructor].
Defined.

(** C9 at work: activation after "lint" was selected ends consistent with
    the persisted "lint" key in memory, and a run from the session with
    "lint" and "Attach" selected ends consistent too. *)
Lemma selection_key_consistency_witness :
  (let w' :=
     exec (activate example_Number_toString example_JSON_stringify
             obliging_host lint_context) initial in
   Inv example_Number_toString example_JSON_stringify w'
   ∧ selectedTaskKey w' = Some lint_key
   ∧ selectedLaunchKey w' = None)
  ∧ Inv example_Number_toString example_JSON_stringify
      (exec (executeTask example_JSON_stringify refusing_host) busy_world).
Proof.
  destruct (selection_key_consistency example_Number_toString
              example_JSON_stringify obliging_host) as [Hactivate _].
  destruct (selection_key_consistency example_Number_toString
              example_JSON_stringify refusing_host) as [_ Hkeep].
  split.
  - destruct (Hactivate lint_context) as (HInv & Htask & Hlaunch & _).
    + split; by vm_compute.
    + cbn zeta. split; [exact HInv|]. rewrite Htask, Hlaunch.
      split; by vm_compute.
  - apply (Hkeep busy_world busy_world_Inv).
Defined.

(** C10 at work: nothing is selected and the user dismisses the picker, or
    enumeration fails and there is nothing to pick; no task is run and the
    workspace state stays empty. *)
Lemma run_without_selection_witness :
  (let w' := exec (executeTask example_JSON_stringify dismissing_host)
                  (loaded fresh_context) in
   executions (trace w') = [] ∧ selectedTask w' = None ∧ state w' = ∅)
  ∧ (let w' := exec (executeTask example_JSON_stringify silent_host)
                    (loaded fresh_context) in
     executions (trace w') = [] ∧ selectedTask w' = None ∧ state w' = ∅)
  ∧ (let w' := exec (executeLaunch example_Number_toString dismissing_host)
                    (loaded fresh_context) in
     debug_starts (trace w') = [] ∧ selectedLaunch w' = None
     ∧ state w' = ∅).
Proof.
  destruct (run_without_selection example_Number_toString
              example_JSON_stringify dismissing_host) as [Htask Hlaunch].
  destruct (run_without_selection example_Number_toString
              example_JSON_stringify silent_host) as [Htask' _].
  split; [|split].
  - destruct (Htask (loaded fresh_context) fresh_world_Inv eq_refl)
      as (_ & _ & Hruns & Hsame & Hsel).
    + right. reflexivity.
    + split; [apply Hruns|]. split; [exact Hsel | apply Hsame].
  - destruct (Htask' (loaded fresh_context) fresh_world_Inv eq_refl)
      as (_ & _ & Hruns & Hsame & Hsel).
    + left. by vm_compute.
    + split; [apply Hruns|]. split; [exact Hsel | apply Hsame].
  - destruct (Hlaunch (loaded fresh_context) fresh_world_Inv eq_refl)
      as (_ & _ & Hruns & Hsame & Hsel).
    + right. reflexivity.
    + split; [apply Hruns|]. split; [exact Hsel | apply Hsame].
Defined.

(** C6 as stated fails.  In the session with "lint" and "Attach" selected,
    tasks.json and the launch configurations are removed; a
    configuration-change event, even one that affects every section, leaves
    both caches as they were and does not call [fetchTasks], whereas the
    tasks.json watcher empties the task cache. *)
Lemma configuration_change_does_not_refresh :
  ¬ (refreshes_tasks emptied_host
       (handle example_Number_toString example_JSON_stringify emptied_host
          (ConfigurationChanged (λ _, true)))
     ∨ refreshes_launches emptied_host
         (handle example_Number_toString example_JSON_stringify emptied_host
            (ConfigurationChanged (λ _, true))))
  ∧ cachedTasks
      (exec (handle example_Number_toString example_JSON_stringify
               emptied_host (ConfigurationChanged (λ _, true))) busy_world)
    = [build_task; lint_task]
  ∧ cachedTasks
      (exec (handle example_Number_toString example_JSON_stringify
               emptied_host TasksJsonDeleted) busy_world)
    = [].
Proof.
  split; [|by vm_compute].
  intros [Htasks | Hlaunches].
  - destruct (Htasks busy_world) as [Hcache _]. vm_compute in Hcache.
    discriminate.
  - specialize (Hlaunches busy_world). vm_compute in Hlaunches. discriminate.
Qed.

(** ** Invariants of every step, whatever the host *)

(** X9.  The layout of the bar is an invariant of every step.  Activation
    establishes it whatever the host answers and whatever the workspace
    state holds, and every handler, run from any state that has it and
    against any host (so whatever the tasks, the launch configurations and
    the settings have become since the step before), ends in a state that
    has it: each of the four items is bound to its own command (a click on a
    selector selects, a click on a runner runs), is on the left with
    priorities 100, 99, 98 and 97, and a runner is shown exactly when its
    selector is. *)
Theorem bar_keeps_its_layout (Number_toString : spec_float → string)
    (JSON_stringify : Json → string) :
  (∀ host context,
     bar_layout
       (exec (activate Number_toString JSON_stringify host context) initial))
  ∧ (∀ host ev w,
       bar_layout w →
       bar_layout
         (exec (handle Number_toString JSON_stringify host ev) w)).
Proof.
  split.
  - intros host context. apply activate_layout.
  - intros host ev w. apply handle_layout.
Qed.

(** X10.  Only workspace-scoped tasks and named launch entries are cached,
    selected and run; this too is an invariant of every step.  Activation
    establishes it whatever the host and the workspace state, and every
    handler, run from any state that has it and against any host whose
    pickers answer with one of the items offered, ends in a state that has
    it: every cached task, the selected task and every task handed so far
    to the host's [executeTask] pass [isWorkspaceTask], and every cached
    launch entry, the selected one and every configuration handed so far to
    [startDebugging] have a string [name].  No consistency between
    selection, key and cache is needed for this: the task that is run is a
    cached one or the selected one, and both are in scope. *)
Theorem only_cached_kinds_are_run (Number_toString : spec_float → string)
    (JSON_stringify : Json → string) :
  (∀ host context,
     in_scope
       (exec (activate Number_toString JSON_stringify host context) initial))
  ∧ (∀ host ev w,
       honest_pickers host →
       in_scope w →
       in_scope (exec (handle Number_toString JSON_stringify host ev) w)).
Proof.
  split.
  - intros host context. apply activate_in_scope.
  - intros host ev w. apply handle_in_scope.
Qed.

(** ** A selection across two sessions *)

Section Restart.

Variable Number_toString : SpecFloat.spec_float → string.
Variable JSON_stringify : Json → string.
Variable before after : Host.

(** X8.  A pick survives a restart.  Let a session end after [selectTask]
    took a pick from the quick pick, and let a later session, possibly
    against a workspace that changed in between, activate from the workspace
    state the first one left.  The new session selects the first task it
    enumerates whose key is the picked task's key, shows it by name and keeps
    the key; when no enumerated task has that key it selects nothing and
    deletes the persisted key.  The same holds for [selectLaunch] and the
    launch configurations. *)
Theorem selection_survives_restart (w : World) :
  (∀ item : TaskPickItem,
     let w1 := exec (refreshTasks JSON_stringify before) w in
     cachedTasks w1 ≠ [] →
     host_pickTask before (clock w1) (List.map taskPick (cachedTasks w1))
       = Some item →
     let context :=
       {| workspaceState :=
            state (exec (selectTask JSON_stringify before) w) |} in
     let w' :=
       exec (activate Number_toString JSON_stringify after context) initial in
     let key := getTaskKey JSON_stringify (tp_task item) in
     let found :=
       List.find (λ task, String.eqb (getTaskKey JSON_stringify task) key)
                 (tasks_of after 0) in
     selectedTask w' = found
     ∧ task_shown w'
     ∧ (∀ task, found = Some task →
        getTaskKey JSON_stringify task = key
        ∧ selectedTaskKey w' = Some key
        ∧ state w' !! "task-bus:selectedTaskKey" = Some key)
     ∧ (found = None →
        selectedTaskKey w' = None
        ∧ state w' !! "task-bus:selectedTaskKey" = None))
  ∧ (∀ item : LaunchPickItem,
     let w1 := exec (refreshLaunchConfigurations Number_toString before) w in
     cachedLaunches w1 ≠ [] →
     host_pickLaunch before (clock w1)
       (List.map (launchPick Number_toString) (cachedLaunches w1))
       = Some item →
     let context :=
       {| workspaceState :=
            state (exec (selectLaunch Number_toString before) w) |} in
     let w' :=
       exec (activate Number_toString JSON_stringify after context) initial in
     let key := getLaunchKey Number_toString (lp_launch item) in
     let found :=
       List.find
         (λ launch, String.eqb (getLaunchKey Number_toString launch) key)
         (cachedLaunches w') in
     selectedLaunch w' = found
     ∧ launch_shown Number_toString w'
     ∧ (∀ launch, found = Some launch →
        getLaunchKey Number_toString launch = key
        ∧ selectedLaunchKey w' = Some key
        ∧ state w' !! "task-bus:selectedLaunchKey" = Some key)
     ∧ (found = None →
        selectedLaunchKey w' = None
        ∧ state w' !! "task-bus:selectedLaunchKey" = None)).
Proof.
  split.
  - intros item w1 Hne Hpick context w' key found.
    assert (workspaceState context !! "task-bus:selectedTaskKey" = Some key)
      as Hstored.
    { unfold context. cbn [workspaceState]. rewrite selectTask_split. fold w1.
      destruct (pickTask_picked JSON_stringify before w1 item Hne Hpick)
        as (_ & _ & -> & _).
      apply lookup_insert_eq. }
    destruct (activate_restores_task Number_toString JSON_stringify after
                context key Hstored (getTaskKey_nonempty _ _))
      as (Hsel & Hshown & Hsome & Hnone).
    split; [exact Hsel|]. split; [exact Hshown|]. split; [|exact Hnone].
    intros task Hfound. split.
    + apply find_some in Hfound as [_ Heq]. by apply String.eqb_eq.
    + apply Hsome. change (is_Some found). by rewrite Hfound.
  - intros item w1 Hne Hpick context w' key found.
    assert (workspaceState context !! "task-bus:selectedLaunchKey" = Some key)
      as Hstored.
    { unfold context. cbn [workspaceState]. rewrite selectLaunch_split. fold w1.
      destruct (pickLaunch_picked Number_toString before w1 item Hne Hpick)
        as (_ & _ & -> & _).
      apply lookup_insert_eq. }
    destruct (activate_restores_launch Number_toString JSON_stringify after
                context key Hstored (getLaunchKey_nonempty _ _))
      as (Hsel & Hshown & Hsome & Hnone).
    split; [exact Hsel|]. split; [exact Hshown|]. split; [|exact Hnone].
    intros launch Hfound. split.
    + apply find_some in Hfound as [_ Heq]. by apply String.eqb_eq.
    + apply Hsome. change (is_Some found). by rewrite Hfound.
Qed.

End Restart.

(** ** The further properties at work on the example workspace *)

(** A user who picks the last entry picks one of the entries. *)
Lemma obliging_host_honest : honest_pickers obliging_host.
Proof.
  split; intros n picks item Hlast; cbn in Hlast;
    apply last_Some in Hlast as [l' ->];
    apply list_elem_of_In, in_app_iff; right; by left.
Qed.

(** X3 at work: a second refresh of the example workspace leaves everything
    but the history as the first one left it. *)
Lemma refresh_is_idempotent_witness :
  (let w1 :=
     exec (refreshTasks example_JSON_stringify obliging_host)
          (loaded lint_context) in
   forget (exec (refreshTasks example_JSON_stringify obliging_host) w1)
   = forget w1)
  ∧ (let w1 :=
       exec (refreshLaunchConfigurations example_Number_toString
               obliging_host) busy_world in
     forget
       (exec (refreshLaunchConfigurations example_Number_toString
                obliging_host) w1)
     = forget w1).
Proof.
  destruct (refresh_is_idempotent example_Number_toString
              example_JSON_stringify obliging_host) as [Htask Hlaunch].
  split.
  - apply (Htask (loaded lint_context)). reflexivity.
  - apply (Hlaunch busy_world). reflexivity.
Defined.

(** X4 at work: with nothing left to enumerate [selectTask] is its refresh
    and the message; with a user who dismisses the picker [selectLaunch]
    keeps "Attach" selected. *)
Lemma select_without_pick_is_a_refresh_witness :
  (let w1 :=
     exec (refreshTasks example_JSON_stringify emptied_host) busy_world in
   exec (selectTask example_JSON_stringify emptied_host) busy_world
   = set_trace
       (EShowInformationMessage
          "Task Bus did not find any tasks in tasks.json." :: trace w1) w1)
  ∧ selectedLaunch
      (exec (selectLaunch example_Number_toString dismissing_host)
            busy_world)
    = Some attach_launch.
Proof.
  destruct (select_without_pick_is_a_refresh example_Number_toString
              example_JSON_stringify emptied_host) as (Hempty & _).
  destruct (select_without_pick_is_a_refresh example_Number_toString
              example_JSON_stringify dismissing_host)
    as (_ & _ & _ & Hdismissed).
  split.
  - apply (Hempty busy_world). reflexivity.
  - rewrite (Hdismissed busy_world).
    + reflexivity.
    + discriminate.
    + reflexivity.
Defined.

(** X5 at work: "lint" runs and stays selected; a debug session that the
    host reports as not started leaves "Attach" selected and persisted all
    the same. *)
Lemma accepted_run_changes_nothing_witness :
  selectedTask
    (exec (executeTask example_JSON_stringify obliging_host) busy_world)
  = Some lint_task
  ∧ (let reluctant_host :=
       mkHost (Resolved fetched_tasks) (λ picks, last picks)
              (λ picks, last picks) (Resolved tt) (Resolved false) in
     let w' :=
       exec (executeLaunch example_Number_toString reluctant_host)
            busy_world in
     selectedLaunch w' = Some attach_launch
     ∧ debug_starts (trace w') = [(None, attach_app)]
     ∧ state w' !! "task-bus:selectedLaunchKey" = Some attach_key).
Proof.
  split.
  - destruct (accepted_run_changes_nothing example_Number_toString
                example_JSON_stringify obliging_host) as [Hrun _].
    pose proof (Hrun busy_world lint_task tt) as Heq. cbn zeta in Heq.
    rewrite Heq; by vm_compute.
  - intros reluctant_host.
    destruct (accepted_run_changes_nothing example_Number_toString
                example_JSON_stringify reluctant_host) as [_ Hstart].
    pose proof (Hstart busy_world attach_launch false) as Heq.
    cbn zeta in Heq. rewrite Heq.
    + split; [|split]; by vm_compute.
    + by vm_compute.
    + by vm_compute.
Defined.

(** X6 at work: after an activation that restores "lint", and after a run
    from the session in which "lint" and "Attach" are selected, what is
    selected is one of the cached candidates. *)
Lemma selection_is_a_cached_candidate_witness :
  selection_cached
    (exec (activate example_Number_toString example_JSON_stringify
             obliging_host lint_context) initial)
  ∧ selection_cached
      (exec (executeTask example_JSON_stringify obliging_host) busy_world).
Proof.
  destruct (selection_is_a_cached_candidate example_Number_toString
              example_JSON_stringify obliging_host obliging_host_honest)
    as (Hstart & Hkept & _).
  split.
  - apply Hstart. split; by vm_compute.
  - destruct (Hkept busy_world busy_world_Inv) as (_ & _ & Hrun & _);
      [|exact Hrun].
    split.
    + intros task [= <-]. apply list_elem_of_further, list_elem_of_here.
    + intros launch [= <-]. apply list_elem_of_further, list_elem_of_here.
Defined.

(** X7 at work: a first activation of the example workspace. *)
Lemma activation_only_enumerates_witness :
  let w' :=
    exec (activate example_Number_toString example_JSON_stringify
            obliging_host fresh_context) initial in
  fetches (trace w') = 1
  ∧ visible (taskRunnerItem w') = true
  ∧ selectedTask w' = None
  ∧ text (taskSelectorItem w') = "$(list-selection) Select Task"
  ∧ state w' = ∅.
Proof.
  destruct (activation_only_enumerates example_Number_toString
              example_JSON_stringify obliging_host fresh_context)
    as ((Hfetch & _ & _ & _ & _ & _ & _ & Hrunner & _) & Hfirst).
  destruct Hfirst as (Hnone & _ & Htext & _ & Hstate); [reflexivity..|].
  cbn zeta. rewrite Hfetch, Hrunner, Hnone, Htext, Hstate. done.
Defined.

(** X8 at work: "lint", picked in one session, is selected again when the
    next session starts, and is dropped when the next session finds only the
    user-level task. *)
Lemma selection_survives_restart_witness :
  (let saved :=
     {| workspaceState :=
          state (exec (selectTask example_JSON_stringify obliging_host)
                      initial) |} in
   selectedTask
     (exec (activate example_Number_toString example_JSON_stringify
              obliging_host saved) initial)
   = Some lint_task)
  ∧ (let saved :=
       {| workspaceState :=
            state (exec (selectTask example_JSON_stringify obliging_host)
                        initial) |} in
     let w' :=
       exec (activate example_Number_toString example_JSON_stringify
               emptied_host saved) initial in
     selectedTask w' = None
     ∧ state w' !! "task-bus:selectedTaskKey" = None).
Proof.
  split.
  - destruct (selection_survives_restart example_Number_toString
                example_JSON_stringify obliging_host obliging_host initial)
      as [Htask _].
    destruct (Htask (taskPick lint_task)) as (Hselected & _);
      [discriminate | reflexivity |].
    cbn zeta. rewrite Hselected. reflexivity.
  - destruct (selection_survives_restart example_Number_toString
                example_JSON_stringify obliging_host emptied_host initial)
      as [Htask _].
    destruct (Htask (taskPick lint_task)) as (Hselected & _ & _ & Hnone);
      [discriminate | reflexivity |].
    cbn zeta. rewrite Hselected. destruct Hnone as [_ Hstate]; [reflexivity|].
    split; [reflexivity | exact Hstate].
Defined.

(** X9 at work: the layout after an activation in the example workspace and
    a change of settings handled once the workspace has been emptied. *)
Lemma bar_keeps_its_layout_witness :
  bar_layout
    (exec (handle example_Number_toString example_JSON_stringify
             emptied_host (ConfigurationChanged (λ _, true)))
       (exec (activate example_Number_toString example_JSON_stringify
                obliging_host fresh_context) initial)).
Proof.
  destruct (bar_keeps_its_layout example_Number_toString
              example_JSON_stringify) as [Hstart Hstep].
  apply Hstep, Hstart.
Defined.

(** X10 at work: activation while task enumeration fails, then a run once
    the tasks can be enumerated; what was cached, selected and run is
    workspace-scoped. *)
Lemma only_cached_kinds_are_run_witness :
  in_scope
    (exec (handle example_Number_toString example_JSON_stringify
             obliging_host (CommandInvoked "task-bus.executeTask"))
       (exec (activate example_Number_toString example_JSON_stringify
                silent_host fresh_context) initial)).
Proof.
  destruct (only_cached_kinds_are_run example_Number_toString
              example_JSON_stringify) as [Hstart Hstep].
  apply Hstep; [apply obliging_host_honest | apply Hstart].
Defined.


(** X12 at work: "build" and its background variant share a key, and so do
    "Run app" and its extended entry under the renamed folder. *)
Lemma colon_free_keys_are_read_back_witness :
  getTaskKey example_JSON_stringify build_task
  = getTaskKey example_JSON_stringify build_task_bg
  ∧ getLaunchKey example_Number_toString run_app_launch
    = getLaunchKey example_Number_toString run_app_launch_extended.
Proof.
  destruct (colon_free_keys_are_read_back example_Number_toString
              example_JSON_stringify) as [Htask Hlaunch].
  split.
  - apply Htask; try reflexivity. by repeat split.
  - apply Hlaunch; try reflexivity. by repeat split.
Defined.

(** X14 at work: "Run app" is described by type and request, the nameless
    entry, which has no request, by its type alone. *)
Lemma launch_description_cases_witness :
  getLaunchDescription example_Number_toString run_app_launch
  = Some (JStr "node (launch)")
  ∧ getLaunchDescription example_Number_toString
      {| folder := None; configuration := nameless |}
    = Some (JStr "node").
Proof.
  destruct (launch_description_cases example_Number_toString run_app_launch)
    as (_ & Hboth & _).
  destruct (launch_description_cases example_Number_toString
              {| folder := None; configuration := nameless |})
    as (_ & _ & Honly & _).
  split.
  - apply (Hboth "node" "launch"); reflexivity.
  - apply (Honly "node"); [reflexivity | by left].
Defined.
